(** * rm_serial_driver: serial protocol driver of rm_pioneer_vision

    A shallow embedding of [rm_serial_driver/src/rm_serial_driver.cpp]:
    the CRC-16 checksum discipline, the two fixed-layout packets, the
    receive loop, the send path, the reconnection procedure and the
    colour-change request.

    Bytes are [Byte.byte]; machine integers are [Z] with their wrap-around
    written out; a [float] field is carried as its IEEE-754 binary32 bit
    pattern (a [Z] below [2^32]).  The node's side effects (logging, the
    serial port, the publishers, the parameter client, [sleep_for]) are
    recorded in a trace, and everything the environment decides (inbound
    bytes, I/O faults, the outcome of [open], the shutdown signal, the
    parameter service) is read from oracles held in the state. *)

From Stdlib Require Import ZArith List Lia Bool Arith Floats.
From Stdlib.Floats Require Import SpecFloat.
From Stdlib.Strings Require String.
From Stdlib.Strings Require Import Byte.
Import String.StringSyntax.
Import ListNotations.

Local Open Scope Z_scope.

(* ================================================================== *)
(** * Bytes and little-endian integers *)

Definition Z_of_byte (b : byte) : Z := Z.of_N (Byte.to_N b).

(** The C++ conversion [(uint8_t) z]: [z] reduced modulo 256. *)
Definition byte_of_Z (z : Z) : byte :=
  match Byte.of_N (Z.to_N (z mod 256)) with
  | Some b => b
  | None => x00
  end.

(** A C++ [bool] stored in one byte. *)
Definition byte_of_bool (b : bool) : byte := if b then x01 else x00.

(** The [n] bytes of the in-memory (little-endian) image of an unsigned
    integer, lowest byte first. *)
Fixpoint le_bytes (n : nat) (v : Z) : list byte :=
  match n with
  | O => []
  | S n' => byte_of_Z (v mod 256) :: le_bytes n' (v / 256)
  end.

(** The unsigned integer whose little-endian image is [bs]. *)
Fixpoint le_value (bs : list byte) : Z :=
  match bs with
  | [] => 0
  | b :: bs' => Z_of_byte b + 256 * le_value bs'
  end.

(* ================================================================== *)
(** * Errors *)

(** The exceptions that can travel through the driver.  [IoError] is what
    the serial port throws, [OutOfRange] is [std::out_of_range] of
    [vector::at], [ParameterTypeException] is thrown by
    [Parameter::as_int]; [InvalidInput] and [MalformedPacket] are the error
    kinds the specification gives to the checksum engine and to the packet
    codec; [OutOfBounds] makes a read past the end of a buffer (undefined
    behaviour in C++) observable. *)
Inductive exn : Type :=
| IoError
| OutOfRange
| ParameterTypeException
| InvalidInput
| MalformedPacket
| OutOfBounds.

Inductive result (A : Type) : Type :=
| Ok (a : A)
| Err (e : exn).
Arguments Ok {A} a.
Arguments Err {A} e.

Definition bind_result {A B} (r : result A) (k : A -> result B) : result B :=
  match r with
  | Ok a => k a
  | Err e => Err e
  end.

Notation "x <-? r ;; k" := (bind_result r (fun x => k))
  (at level 61, r at next level, right associativity).

(* ================================================================== *)
(** * Parameters of the build *)

(** What the driver takes from headers and from the language that is not
    part of [rm_serial_driver.cpp]: the CRC lookup table and initial value
    of [crc.hpp], and the narrowing conversion from the [double] fields
    of the [Target] message to the [float] fields of [SendPacket] (the
    result given as a binary32 bit pattern). *)
Class Params : Type := {
  W_CRC_TABLE : Z -> Z;
  CRC16_INIT : Z;
  double : Type;
  float_of_double : double -> Z
}.

(* ================================================================== *)
(** * Checksum engine ([crc.hpp]) *)

Module crc16.
Section Engine.
Context {P : Params}.

(** Modelled from the spec: [crc.hpp] is not part of the sources at hand.
    [compute(bytes) -> uint16], a table-driven CRC-16 from a fixed initial
    value; each byte updates the 16-bit register by
    [crc = (crc >> 8) ^ table[(crc ^ byte) & 0xff]]. *)
Definition crc16_update (wCRC : Z) (ch : byte) : Z :=
  Z.land
    (Z.lxor (Z.shiftr wCRC 8)
            (W_CRC_TABLE (Z.land (Z.lxor wCRC (Z_of_byte ch)) 255)))
    65535.

(** Modelled from the spec: the register after all the bytes of the span,
    from the register [wCRC]. *)
Definition Get_CRC16_Check_Sum (pchMessage : list byte) (wCRC : Z) : Z :=
  fold_left crc16_update pchMessage wCRC.

(** Modelled from the spec: [compute] starts from the fixed initial value
    (a [uint16_t]). *)
Definition compute (bytes : list byte) : Z :=
  Get_CRC16_Check_Sum bytes (Z.land CRC16_INIT 65535).

(** Modelled from the spec: [verify(bytes_including_checksum) -> bool]
    recomputes the checksum over all bytes but the trailing two and
    compares it with the stored value, low byte first; an input shorter
    than the checksum field fails with [InvalidInput]. *)
Definition Verify_CRC16_Check_Sum (pchMessage : list byte) : result bool :=
  let dwLength := length pchMessage in
  if (dwLength <? 2)%nat then Err InvalidInput
  else
    let w_expected := compute (firstn (dwLength - 2) pchMessage) in
    Ok (Byte.eqb (byte_of_Z (Z.land w_expected 255))
                 (nth (dwLength - 2) pchMessage x00)
        && Byte.eqb (byte_of_Z (Z.land (Z.shiftr w_expected 8) 255))
                    (nth (dwLength - 1) pchMessage x00)).

(** Modelled from the spec: [append(bytes) -> bytes_with_checksum]
    computes the checksum over the bytes before the checksum field and
    writes it into the final two bytes of the buffer, low byte first; an
    input shorter than the checksum field fails with [InvalidInput]. *)
Definition Append_CRC16_Check_Sum (pchMessage : list byte)
  : result (list byte) :=
  let dwLength := length pchMessage in
  if (dwLength <? 2)%nat then Err InvalidInput
  else
    let payload := firstn (dwLength - 2) pchMessage in
    let w_crc := compute payload in
    Ok (payload ++ [byte_of_Z (Z.land w_crc 255);
                    byte_of_Z (Z.land (Z.shiftr w_crc 8) 255)]).
End Engine.
End crc16.

(* ================================================================== *)
(** * Packet codec ([packet.hpp]) *)

(** Modelled from the spec: [packet.hpp] is not part of the sources at hand.
    The receive frame is header (uint8), robot colour (uint8), pitch
    (float32), yaw (float32), checksum (uint16): 12 bytes without padding. *)
Definition sizeof_ReceivePacket : nat := 12.

(** Modelled from the spec: the send frame is target-found (bool),
    target-colour (bool), task mode (uint8), x y z and vx vy vz (float32
    each), checksum (uint16): 29 bytes without padding. *)
Definition sizeof_SendPacket : nat := 29.

(** Modelled from the spec: the fields of [ReceivePacket] in declared
    order; [rp_pitch] and [rp_yaw] are binary32 bit patterns. *)
Record ReceivePacket : Type := {
  rp_header : byte;
  rp_robot_color : byte;
  rp_pitch : Z;
  rp_yaw : Z;
  rp_checksum : Z
}.

(** Modelled from the spec: the fields of [SendPacket] in declared order;
    the six [float] fields are binary32 bit patterns. *)
Record SendPacket : Type := {
  sp_target_found : bool;
  sp_target_color : bool;
  sp_task_mode : Z;
  sp_x : Z;
  sp_y : Z;
  sp_z : Z;
  sp_vx : Z;
  sp_vy : Z;
  sp_vz : Z;
  sp_checksum : Z
}.

(** Bounds-checked reads of a buffer. *)
Definition read_u8 (data : list byte) (off : nat) : result byte :=
  match nth_error data off with
  | Some b => Ok b
  | None => Err OutOfBounds
  end.

Definition read_le (data : list byte) (off len : nat) : result Z :=
  if (off + len <=? length data)%nat
  then Ok (le_value (firstn len (skipn off data)))
  else Err OutOfBounds.

(** Modelled from the spec: [decode_receive(bytes) -> ReceivePacket] requires
    the length of the buffer to be [sizeof(ReceivePacket)] and fails with
    [MalformedPacket] otherwise; the bytes are reinterpreted as the fields
    in declared order, little-endian. *)
Definition fromVector (data : list byte) : result ReceivePacket :=
  if negb (length data =? sizeof_ReceivePacket)%nat then Err MalformedPacket
  else
    header <-? read_u8 data 0 ;;
    robot_color <-? read_u8 data 1 ;;
    pitch <-? read_le data 2 4 ;;
    yaw <-? read_le data 6 4 ;;
    checksum <-? read_le data 10 2 ;;
    Ok {| rp_header := header;
          rp_robot_color := robot_color;
          rp_pitch := pitch;
          rp_yaw := yaw;
          rp_checksum := checksum |}.

(** Modelled from the spec: the object representation of a
    [ReceivePacket], what [reinterpret_cast<const uint8_t *>(&packet)]
    points to, [sizeof(packet)] bytes: the fields in declared order at
    their byte width, little-endian, no padding. *)
Definition ReceivePacket_image (p : ReceivePacket) : list byte :=
  [rp_header p; rp_robot_color p]
  ++ le_bytes 4 (rp_pitch p) ++ le_bytes 4 (rp_yaw p)
  ++ le_bytes 2 (rp_checksum p).

(** Modelled from the spec: the object representation of a [SendPacket],
    laid out in the same way. *)
Definition SendPacket_image (p : SendPacket) : list byte :=
  [byte_of_bool (sp_target_found p); byte_of_bool (sp_target_color p);
   byte_of_Z (sp_task_mode p)]
  ++ le_bytes 4 (sp_x p) ++ le_bytes 4 (sp_y p) ++ le_bytes 4 (sp_z p)
  ++ le_bytes 4 (sp_vx p) ++ le_bytes 4 (sp_vy p) ++ le_bytes 4 (sp_vz p)
  ++ le_bytes 2 (sp_checksum p).

(** Modelled from the spec: [toVector] copies the [sizeof(SendPacket)]
    bytes of the packet object into a fresh vector.  The packet is given
    by its object representation, which is what [Append_CRC16_Check_Sum]
    has just written through. *)
Definition toVector (image : list byte) : list byte := image.

(* ================================================================== *)
(** * Messages, events and the state of the node *)

Record Vector3 {P : Params} : Type := {
  vec_x : double;
  vec_y : double;
  vec_z : double
}.

(** [auto_aim_interfaces::msg::Target], the fields [sendData] reads. *)
Record Target {P : Params} : Type := {
  msg_target_found : bool;
  msg_position : Vector3;
  msg_velocity : Vector3
}.

(** [rclcpp::Parameter]: a name and a typed value. *)
Inductive ParameterValue : Type :=
| PARAMETER_NOT_SET
| PARAMETER_BOOL (b : bool)
| PARAMETER_INTEGER (i : Z)
| PARAMETER_STRING (s : String.string).

Record rclcpp_Parameter : Type := {
  param_name : String.string;
  param_value : ParameterValue
}.

Inductive level : Type := INFO | WARN | ERROR.

(** What the node does to the outside world, in order.  [Log] carries the
    format string and its integer arguments (the text of [ex.what()] is
    left out).  [Call_fromVector] marks a call of the packet decoder with
    its argument. *)
Inductive event : Type :=
| Log (lvl : level) (fmt : String.string) (args : list Z)
| PortOpen (succeeded : bool)
| PortClose
| PortSend (data : list byte) (succeeded : bool)
| Sleep (seconds : nat)
| PublishJointState (pitch yaw : Z)
| PublishLatency
| SetParameters (name : String.string) (value : Z)
| Call_fromVector (data : list byte).

(** One item of the inbound serial stream: a byte, or a fault of the link
    that makes the pending [receive] throw. *)
Inductive rx_item : Type :=
| RxByte (b : byte)
| RxError.

(** The state of the node and of its environment.
    - [present_color_] is the member of [RMSerialDriver];
    - [is_open] is the state of the serial port;
    - [rx] is the inbound stream still to be read;
    - [open_results] and [send_results] are the outcomes of the coming
      calls of [open] (none left: fails) and [send] (none left: succeeds);
    - [service_ready] answers the coming calls of [service_is_ready]
      (none left: not ready);
    - [set_results] tells, for each coming [set_parameters], whether its
      callback has run by the time the caller looks at the flag it sets,
      and with which [successful] value (none left: it has not run);
    - [ok_budget] is the number of calls of [rclcpp::ok()] that still
      answer [true] before shutdown is signalled;
    - [trace] is the list of events so far, oldest first. *)
Record state : Type := {
  present_color_ : Z;
  is_open : bool;
  rx : list rx_item;
  open_results : list bool;
  send_results : list bool;
  service_ready : list bool;
  set_results : list (option bool);
  ok_budget : nat;
  trace : list event
}.

Definition set_present_color_ (v : Z) (s : state) : state :=
  {| present_color_ := v; is_open := is_open s; rx := rx s;
     open_results := open_results s; send_results := send_results s;
     service_ready := service_ready s; set_results := set_results s;
     ok_budget := ok_budget s; trace := trace s |}.

Definition set_is_open (v : bool) (s : state) : state :=
  {| present_color_ := present_color_ s; is_open := v; rx := rx s;
     open_results := open_results s; send_results := send_results s;
     service_ready := service_ready s; set_results := set_results s;
     ok_budget := ok_budget s; trace := trace s |}.

Definition set_rx (v : list rx_item) (s : state) : state :=
  {| present_color_ := present_color_ s; is_open := is_open s; rx := v;
     open_results := open_results s; send_results := send_results s;
     service_ready := service_ready s; set_results := set_results s;
     ok_budget := ok_budget s; trace := trace s |}.

Definition set_open_results (v : list bool) (s : state) : state :=
  {| present_color_ := present_color_ s; is_open := is_open s; rx := rx s;
     open_results := v; send_results := send_results s;
     service_ready := service_ready s; set_results := set_results s;
     ok_budget := ok_budget s; trace := trace s |}.

Definition set_send_results (v : list bool) (s : state) : state :=
  {| present_color_ := present_color_ s; is_open := is_open s; rx := rx s;
     open_results := open_results s; send_results := v;
     service_ready := service_ready s; set_results := set_results s;
     ok_budget := ok_budget s; trace := trace s |}.

Definition set_service_ready (v : list bool) (s : state) : state :=
  {| present_color_ := present_color_ s; is_open := is_open s; rx := rx s;
     open_results := open_results s; send_results := send_results s;
     service_ready := v; set_results := set_results s;
     ok_budget := ok_budget s; trace := trace s |}.

Definition set_set_results (v : list (option bool)) (s : state) : state :=
  {| present_color_ := present_color_ s; is_open := is_open s; rx := rx s;
     open_results := open_results s; send_results := send_results s;
     service_ready := service_ready s; set_results := v;
     ok_budget := ok_budget s; trace := trace s |}.

Definition set_ok_budget (v : nat) (s : state) : state :=
  {| present_color_ := present_color_ s; is_open := is_open s; rx := rx s;
     open_results := open_results s; send_results := send_results s;
     service_ready := service_ready s; set_results := set_results s;
     ok_budget := v; trace := trace s |}.

Definition set_trace (v : list event) (s : state) : state :=
  {| present_color_ := present_color_ s; is_open := is_open s; rx := rx s;
     open_results := open_results s; send_results := send_results s;
     service_ready := service_ready s; set_results := set_results s;
     ok_budget := ok_budget s; trace := v |}.

(** Append events at the end of the trace. *)
Definition record (es : list event) (s : state) : state :=
  set_trace (trace s ++ es) s.

(* ================================================================== *)
(** * The monad of the driver: state, exceptions, blocking, fuel *)

(** A computation returns normally, throws, blocks for ever in [receive]
    (the inbound stream is exhausted), or runs out of the fuel that bounds
    the two loops. *)
Inductive outcome (A : Type) : Type :=
| Ret (a : A) (s : state)
| Throw (e : exn) (s : state)
| Blocked (s : state)
| OutOfFuel.
Arguments Ret {A} a s.
Arguments Throw {A} e s.
Arguments Blocked {A} s.
Arguments OutOfFuel {A}.

Definition M (A : Type) : Type := state -> outcome A.

Definition ret {A} (a : A) : M A := fun s => Ret a s.

Definition bind {A B} (m : M A) (k : A -> M B) : M B :=
  fun s =>
    match m s with
    | Ret a s' => k a s'
    | Throw e s' => Throw e s'
    | Blocked s' => Blocked s'
    | OutOfFuel => OutOfFuel
    end.

Notation "x <- m ;; k" := (bind m (fun x => k))
  (at level 61, m at next level, right associativity).
Notation "m ;; k" := (bind m (fun _ => k))
  (at level 61, right associativity).

Definition throw {A} (e : exn) : M A := fun s => Throw e s.

(** [try { body } catch (const std::exception & ex) { handler }]. *)
Definition try_catch {A} (body : M A) (handler : exn -> M A) : M A :=
  fun s =>
    match body s with
    | Throw e s' => handler e s'
    | o => o
    end.

Definition lift {A} (r : result A) : M A :=
  match r with
  | Ok a => ret a
  | Err e => throw e
  end.

Definition gets {A} (f : state -> A) : M A := fun s => Ret (f s) s.

Definition modify (f : state -> state) : M unit := fun s => Ret tt (f s).

Definition emit (e : event) : M unit := modify (record [e]).

Definition out_of_fuel {A} : M A := fun _ => OutOfFuel.

(** The state an outcome ends in, when there is one. *)
Definition final_state {A} (o : outcome A) : option state :=
  match o with
  | Ret _ s | Throw _ s | Blocked s => Some s
  | OutOfFuel => None
  end.

Definition throws {A} (o : outcome A) : bool :=
  match o with
  | Throw _ _ => true
  | _ => false
  end.

(* ================================================================== *)
(** * Collaborators: logger, clock, serial port, publishers, parameter
      client *)

Local Open Scope string_scope.

Definition RCLCPP_LOG (lvl : level) (fmt : String.string) (args : list Z)
  : M unit := emit (Log lvl fmt args).

Definition rclcpp_ok : M bool :=
  fun s =>
    match ok_budget s with
    | O => Ret false s
    | S k => Ret true (set_ok_budget k s)
    end.

Definition sleep_for (seconds : nat) : M unit := emit (Sleep seconds).

Definition port_is_open : M bool := gets is_open.

Definition port_close : M unit :=
  modify (fun s => record [PortClose] (set_is_open false s)).

(** [port()->open()]: succeeds or throws, as the environment decides. *)
Definition port_open : M unit :=
  fun s =>
    let succeeded := hd false (open_results s) in
    let s' := set_open_results (tl (open_results s)) s in
    if succeeded
    then Ret tt (record [PortOpen true] (set_is_open true s'))
    else Throw IoError (record [PortOpen false] s').

(** The result of reading [n] bytes off the inbound stream. *)
Inductive rx_outcome : Type :=
| RxOk (bytes : list byte) (rest : list rx_item)
| RxFault (rest : list rx_item)
| RxStarved.

Fixpoint take_rx (n : nat) (items : list rx_item) : rx_outcome :=
  match n with
  | O => RxOk [] items
  | S n' =>
      match items with
      | [] => RxStarved
      | RxError :: rest => RxFault rest
      | RxByte b :: rest =>
          match take_rx n' rest with
          | RxOk bytes rest' => RxOk (b :: bytes) rest'
          | o => o
          end
      end
  end.

(** [port()->receive(buffer)] with a buffer of [n] bytes: blocks until the
    buffer is filled; throws on a closed port and on a fault of the link. *)
Definition port_receive (n : nat) : M (list byte) :=
  fun s =>
    if is_open s then
      match take_rx n (rx s) with
      | RxOk bytes rest => Ret bytes (set_rx rest s)
      | RxFault rest => Throw IoError (set_rx rest s)
      | RxStarved => Blocked (set_rx [] s)
      end
    else Throw IoError s.

(** [port()->send(data)]: one write of the whole buffer; throws on a closed
    port and when the link fails the write (an outcome of the link is only
    used up when the port is open). *)
Definition port_send (data : list byte) : M unit :=
  fun s =>
    let succeeded := is_open s && hd true (send_results s) in
    let s' := if is_open s
              then set_send_results (tl (send_results s)) s else s in
    if succeeded
    then Ret tt (record [PortSend data true] s')
    else Throw IoError (record [PortSend data false] s').

Definition publish_joint_state (pitch yaw : Z) : M unit :=
  emit (PublishJointState pitch yaw).

Definition publish_latency : M unit := emit PublishLatency.

Definition service_is_ready : M bool :=
  fun s =>
    match service_ready s with
    | b :: r => Ret b (set_service_ready r s)
    | [] => Ret false s
    end.

(** [set_parameters({Parameter(name, value)}, callback)]: sends the request;
    the answer is whether the callback has run when the caller reads the
    flag, and the [successful] field of [results[0]] it has stored. *)
Definition set_parameters (name : String.string) (value : Z)
  : M (option bool) :=
  fun s =>
    match set_results s with
    | r :: rest =>
        Ret r (record [SetParameters name value] (set_set_results rest s))
    | [] => Ret None (record [SetParameters name value] s)
    end.

(** [std::vector::at]. *)
Definition vector_at {A} (v : list A) (i : nat) : M A :=
  match nth_error v i with
  | Some a => ret a
  | None => throw OutOfRange
  end.

(** The conversion of a 64-bit integer to [int]: the low 32 bits, read as
    a signed number. *)
Definition int_of_int64 (v : Z) : Z :=
  (v + 2147483648) mod 4294967296 - 2147483648.

(** [Parameter::as_int], an [int64_t]. *)
Definition as_int (p : rclcpp_Parameter) : M Z :=
  match param_value p with
  | PARAMETER_INTEGER i => ret i
  | _ => throw ParameterTypeException
  end.

(* ================================================================== *)
(** * The driver ([rm_serial_driver.cpp]) *)

Section Driver.
Context {P : Params}.

(** The constructor asks the parameter service for these names... *)
Definition startup_requested_names : list String.string := ["detect_color"].

(** ... and this is the callback it passes to [get_parameters], applied to
    the vector the future holds.  The value of [as_int] is stored in the
    [int] member [present_color_]. *)
Definition get_parameters_callback (result : list rclcpp_Parameter) : M unit :=
  p <- vector_at result 1 ;;
  v <- as_int p ;;
  let present_color := int_of_int64 v in
  modify (set_present_color_ present_color) ;;
  RCLCPP_LOG INFO "Present color: %d." [present_color].

Fixpoint reopenPort (fuel : nat) : M unit :=
  match fuel with
  | O => out_of_fuel
  | S fuel' =>
      RCLCPP_LOG WARN "Attempting to reopen port" [] ;;
      try_catch
        (opened <- port_is_open ;;
         (if opened then port_close else ret tt) ;;
         port_open ;;
         RCLCPP_LOG INFO "Successfully reopened port" [])
        (fun ex =>
           RCLCPP_LOG ERROR "Error while reopening port: %s" [] ;;
           alive <- rclcpp_ok ;;
           if alive then sleep_for 1 ;; reopenPort fuel' else ret tt)
  end.

Definition requestforChangeColor (color : byte) : M unit :=
  let set_auto_aim_success := false in
  ready <- service_is_ready ;;
  if ready then
    completed <- set_parameters "detect_color"
                   (if Z_of_byte color =? 0 then 1 else 0) ;;
    let set_auto_aim_success :=
      match completed with
      | Some successful => successful
      | None => set_auto_aim_success
      end in
    if set_auto_aim_success then
      modify (set_present_color_ (Z_of_byte color)) ;;
      RCLCPP_LOG INFO "Successfully set color: %d" [Z_of_byte color]
    else RCLCPP_LOG ERROR "Failed to set color" []
  else
    RCLCPP_LOG ERROR "remote parameter server is not ready" [] ;;
    sleep_for 1.

(** The body of the [while] loop of [receiveData]. *)
Definition receiveData_body (fuel : nat) : M unit :=
  try_catch
    (header <- port_receive 1 ;;
     if Byte.eqb (nth 0 header x00) x5a then
       data <- port_receive (sizeof_ReceivePacket - 1) ;;
       let data := nth 0 header x00 :: data in
       emit (Call_fromVector data) ;;
       packet <- lift (fromVector data) ;;
       crc_ok <- lift (crc16.Verify_CRC16_Check_Sum
                         (ReceivePacket_image packet)) ;;
       if crc_ok then
         publish_joint_state (rp_pitch packet) (rp_yaw packet) ;;
         present_color <- gets present_color_ ;;
         if negb (Z_of_byte (rp_robot_color packet) =? present_color) then
           requestforChangeColor (rp_robot_color packet)
         else ret tt
       else RCLCPP_LOG ERROR "CRC error!" []
     else
       RCLCPP_LOG WARN "Invalid header: %02X" [Z_of_byte (nth 0 header x00)])
    (fun ex =>
       RCLCPP_LOG ERROR "Error while receiving data: %s" [] ;;
       reopenPort fuel).

Fixpoint receiveData (fuel : nat) : M unit :=
  match fuel with
  | O => out_of_fuel
  | S fuel' =>
      alive <- rclcpp_ok ;;
      if alive then receiveData_body fuel' ;; receiveData fuel'
      else ret tt
  end.

(** Lines 136 to 148 of [sendData]: the packet is filled from the message
    and from [present_color_], the checksum is written through its object
    representation, and the bytes are copied into the vector to send. *)
Definition sendData_frame (present_color : Z) (msg : Target)
  : result (list byte) :=
  let packet :=
    {| sp_target_found := msg_target_found msg;
       sp_target_color := (present_color =? 0);
       sp_task_mode := 0;
       sp_x := float_of_double (vec_x (msg_position msg));
       sp_y := float_of_double (vec_y (msg_position msg));
       sp_z := float_of_double (vec_z (msg_position msg));
       sp_vx := float_of_double (vec_x (msg_velocity msg));
       sp_vy := float_of_double (vec_y (msg_velocity msg));
       sp_vz := float_of_double (vec_z (msg_velocity msg));
       sp_checksum := 0 |} in
  image <-? crc16.Append_CRC16_Check_Sum (SendPacket_image packet) ;;
  Ok (toVector image).

Definition sendData (fuel : nat) (msg : Target) : M unit :=
  try_catch
    (present_color <- gets present_color_ ;;
     data <- lift (sendData_frame present_color msg) ;;
     port_send data ;;
     publish_latency)
    (fun ex =>
       RCLCPP_LOG ERROR "Error while sending data: %s" [] ;;
       reopenPort fuel).
End Driver.

Local Close Scope string_scope.

(* ================================================================== *)
(** * A concrete build and concrete runs *)

(** The lookup table of the reflected CCITT polynomial [0x8408]: the entry
    of [i] is the register after eight shift-and-conditionally-xor steps
    from [i]. *)
Fixpoint crc_table_entry (steps : nat) (r : Z) : Z :=
  match steps with
  | O => r
  | S k =>
      crc_table_entry k
        (if Z.testbit r 0 then Z.lxor (Z.shiftr r 1) 33800 else Z.shiftr r 1)
  end.

(** Narrowing of a binary64 value to binary32, round to nearest even, and
    the bit pattern of the result (a NaN gives the canonical quiet NaN). *)
Definition binary32_of_double (d : float) : spec_float :=
  match Prim2SF d with
  | S754_finite s m e => binary_normalize 24 128 (cond_Zopp s (Zpos m)) e s
  | f => f
  end.

Definition binary32_bits (f : spec_float) : Z :=
  match f with
  | S754_zero s => if s then 2147483648 else 0
  | S754_infinity s => (if s then 2147483648 else 0) + 2139095040
  | S754_nan => 2143289344
  | S754_finite s m e =>
      (if s then 2147483648 else 0)
      + (if 8388608 <=? Zpos m
         then (e + 150) * 8388608 + (Zpos m - 8388608)
         else Zpos m)
  end.

(** A build for concrete runs: table of [0x8408], initial value [0xFFFF],
    [double] as the kernel's binary64 floats. *)
Definition example_params : Params :=
  {| W_CRC_TABLE := crc_table_entry 8;
     CRC16_INIT := 65535;
     double := float;
     float_of_double := fun d => binary32_bits (binary32_of_double d) |}.

(** A node right after start-up: colour unknown, port open, nothing to
    read, no shutdown budget. *)
Definition fresh_state : state :=
  {| present_color_ := -1; is_open := true; rx := [];
     open_results := []; send_results := [];
     service_ready := []; set_results := [];
     ok_budget := 0; trace := [] |}.

(* ================================================================== *)
(** * Properties of computations and of traces *)

(** A computation that never lets an exception out. *)
Definition no_throw {A} (m : M A) : Prop := forall s, throws (m s) = false.

(** A computation that only appends events satisfying [Pe] to the trace,
    however it ends. *)
Definition emits_only {A} (Pe : event -> Prop) (m : M A) : Prop :=
  forall s s',
    final_state (m s) = Some s' ->
    exists new, trace s' = trace s ++ new /\ Forall Pe new.

(** A computation that never runs out of fuel and leaves the shutdown
    budget alone. *)
Definition steady {A} (m : M A) : Prop :=
  forall s,
    m s <> OutOfFuel
    /\ forall s', final_state (m s) = Some s' -> ok_budget s' = ok_budget s.

(** Every call of the decoder is on a buffer that starts with [0x5A]. *)
Definition sentinel_decode (e : event) : Prop :=
  match e with
  | Call_fromVector d => hd_error d = Some x5a
  | _ => True
  end.

(** Every call of the decoder is on a buffer of [sizeof(ReceivePacket)]
    bytes. *)
Definition sized_decode (e : event) : Prop :=
  match e with
  | Call_fromVector d => length d = sizeof_ReceivePacket
  | _ => True
  end.

(** The events of the reconnection procedure. *)
Definition link_event (e : event) : Prop :=
  match e with
  | Log _ _ _ | PortOpen _ | PortClose | Sleep _ => True
  | _ => False
  end.

(** The events of a colour-change request. *)
Definition request_event (e : event) : Prop :=
  match e with
  | Log _ _ _ | SetParameters _ _ | Sleep _ => True
  | _ => False
  end.

Definition is_PortOpen (e : event) : bool :=
  match e with PortOpen _ => true | _ => false end.

Definition is_Sleep (e : event) : bool :=
  match e with Sleep _ => true | _ => false end.

Definition is_PortSend (e : event) : bool :=
  match e with PortSend _ _ => true | _ => false end.

Definition is_SetParameters (e : event) : bool :=
  match e with SetParameters _ _ => true | _ => false end.

Definition is_PublishJointState (e : event) : bool :=
  match e with PublishJointState _ _ => true | _ => false end.

Local Open Scope string_scope.

(** The warnings of the receive loop for a run of bytes that are not the
    sentinel. *)
Definition invalid_header_warnings (junk : list byte) : list event :=
  map (fun b => Log WARN "Invalid header: %02X" [Z_of_byte b]) junk.

(** The events of one pass through [reopenPort], from a port that was open
    or not, when [open] succeeds or not. *)
Definition reopen_attempt (was_open succeeded : bool) : list event :=
  Log WARN "Attempting to reopen port" []
  :: (if was_open then [PortClose] else [])
  ++ [PortOpen succeeded;
      if succeeded then Log INFO "Successfully reopened port" []
      else Log ERROR "Error while reopening port: %s" []].

(** The events of [n] failed passes, each followed by a sleep of one
    second, and of the pass that succeeds. *)
Fixpoint reopen_trace (was_open : bool) (n : nat) : list event :=
  match n with
  | O => reopen_attempt was_open true
  | S n' => reopen_attempt was_open false ++ Sleep 1 :: reopen_trace false n'
  end.

(** The events of a colour-change request that does not go through: the
    service is not ready, or the request is sent and no success comes
    back. *)
Definition failed_request_events (color : byte) (ready : bool) : list event :=
  if ready then
    [SetParameters "detect_color" (if Z_of_byte color =? 0 then 1 else 0);
     Log ERROR "Failed to set color" []]
  else
    [Log ERROR "remote parameter server is not ready" []; Sleep 1].

Local Close Scope string_scope.

(** The request of the next call of [requestforChangeColor] is rejected or
    cannot be delivered. *)
Definition request_fails (s : state) : bool :=
  match service_ready s with
  | true :: _ =>
      match set_results s with
      | Some true :: _ => false
      | _ => true
      end
  | _ => true
  end.

(** The next write to the port raises an I/O error. *)
Definition write_fails (s : state) : bool :=
  negb (is_open s && hd true (send_results s)).

(* ================================================================== *)
(** * Concrete inputs *)

(** A telemetry frame: header [0x5A], robot colour 0, pitch 1.0, yaw 2.0,
    and its checksum [0xD742] under [example_params], low byte first. *)
Definition good_frame : list byte :=
  [x5a; x00; x00; x00; x80; x3f; x00; x00; x00; x40; x42; xd7].

(** The same frame with the checksum bytes zeroed. *)
Definition bad_frame : list byte :=
  [x5a; x00; x00; x00; x80; x3f; x00; x00; x00; x40; x00; x00].


(** A node with an open port, the given inbound stream and the given
    number of loop passes before shutdown. *)
Definition listening (items : list rx_item) (budget : nat) : state :=
  {| present_color_ := -1; is_open := true; rx := items;
     open_results := []; send_results := [];
     service_ready := []; set_results := [];
     ok_budget := budget; trace := [] |}.

(** A node whose link has dropped: [open] will fail twice and then
    succeed. *)
Definition dropped_link : state :=
  {| present_color_ := 0; is_open := true; rx := [];
     open_results := [false; false; true]; send_results := [];
     service_ready := []; set_results := [];
     ok_budget := 2; trace := [] |}.

(** A node whose next write fails and whose port reopens at once. *)
Definition failing_write : state :=
  {| present_color_ := 0; is_open := true; rx := [];
     open_results := [true]; send_results := [false];
     service_ready := []; set_results := [];
     ok_budget := 0; trace := [] |}.

(** Target found at (1, 2, 3), at rest. *)
Definition example_target : @Target example_params :=
  {| msg_target_found := true;
     msg_position := @Build_Vector3 example_params 1%float 2%float 3%float;
     msg_velocity := @Build_Vector3 example_params 0%float 0%float 0%float |}.

(** What the parameter service answers to the start-up request. *)
Local Open Scope string_scope.

Definition startup_answer : list rclcpp_Parameter :=
  [{| param_name := "detect_color";
      param_value := PARAMETER_INTEGER 0 |}].

Local Close Scope string_scope.

(* ================================================================== *)
(** * Start-up: the parameters of the node and its construction *)

Local Open Scope string_scope.

(** [drivers::serial_driver::FlowControl], [Parity] and [StopBits]. *)
Inductive FlowControl : Type :=
| FlowControl_NONE
| FlowControl_HARDWARE
| FlowControl_SOFTWARE.

Inductive Parity : Type :=
| Parity_NONE
| Parity_ODD
| Parity_EVEN.

Inductive StopBits : Type :=
| StopBits_ONE
| StopBits_ONE_POINT_FIVE
| StopBits_TWO.

(** [drivers::serial_driver::SerialPortConfig(baud_rate, fc, pt, sb)];
    the baud rate is a [uint32_t]. *)
Record SerialPortConfig : Type := {
  cfg_baud_rate : Z;
  cfg_flow_control : FlowControl;
  cfg_parity : Parity;
  cfg_stop_bits : StopBits
}.

(** What can come out of the constructor: [std::invalid_argument] with its
    message, one of the exceptions of the driver, or a plain
    [std::exception] (what [throw ex] throws when [ex] is a
    [const std::exception &]: the copy has the static type). *)
Inductive startup_exn : Type :=
| std_invalid_argument (what : String.string)
| rclcpp_exn (e : exn)
| std_exception.

(** The constructor returns, throws, or never returns. *)
Inductive startup_outcome (A : Type) : Type :=
| Started (a : A) (s : state)
| Aborted (e : startup_exn) (s : state)
| Hangs.
Arguments Started {A} a s.
Arguments Aborted {A} e s.
Arguments Hangs {A}.

Definition Startup (A : Type) : Type := state -> startup_outcome A.

Definition started {A} (a : A) : Startup A := fun s => Started a s.

Definition and_then {A B} (m : Startup A) (k : A -> Startup B) : Startup B :=
  fun s =>
    match m s with
    | Started a s' => k a s'
    | Aborted e s' => Aborted e s'
    | Hangs => Hangs
    end.

Notation "x <~ m ;; k" := (and_then m (fun x => k))
  (at level 61, m at next level, right associativity).
Notation "m ~;; k" := (and_then m (fun _ => k))
  (at level 61, right associativity).

Definition abort {A} (e : startup_exn) : Startup A := fun s => Aborted e s.

(** A computation of the driver run during start-up; one that blocks or
    runs out of fuel never returns. *)
Definition during_startup {A} (m : M A) : Startup A :=
  fun s =>
    match m s with
    | Ret a s' => Started a s'
    | Throw e s' => Aborted (rclcpp_exn e) s'
    | Blocked _ => Hangs
    | OutOfFuel => Hangs
    end.

(** [try { body } catch (rclcpp::ParameterTypeException & ex) { handler }]. *)
Definition catch_ParameterTypeException {A}
           (body : Startup A) (handler : Startup A) : Startup A :=
  fun s =>
    match body s with
    | Aborted (rclcpp_exn ParameterTypeException) s' => handler s'
    | o => o
    end.

(** [try { body } catch (const std::exception & ex) { handler }]. *)
Definition catch_std_exception {A}
           (body : Startup A) (handler : startup_exn -> Startup A)
  : Startup A :=
  fun s =>
    match body s with
    | Aborted e s' => handler e s'
    | o => o
    end.

(** The parameter overrides the node is started with
    ([NodeOptions::parameter_overrides]): the value given for a name, if
    any. *)
Definition find_override (options : list rclcpp_Parameter)
           (name : String.string) : option ParameterValue :=
  option_map param_value
    (find (fun p => String.eqb (param_name p) name) options).

(** [declare_parameter<std::string>(name, default_value)]: the override
    when there is one, the default otherwise; [get<std::string>()] throws
    on a value of another type. *)
Definition declare_parameter_string (options : list rclcpp_Parameter)
           (name default_value : String.string) : Startup String.string :=
  match find_override options name with
  | None => started default_value
  | Some (PARAMETER_STRING v) => started v
  | Some _ => abort (rclcpp_exn ParameterTypeException)
  end.

(** The conversion of an [int] to [uint32_t]. *)
Definition uint32_of_int (v : Z) : Z := v mod 4294967296.

(** [declare_parameter<int>(name, default_value)]. *)
Definition declare_parameter_int (options : list rclcpp_Parameter)
           (name : String.string) (default_value : Z) : Startup Z :=
  match find_override options name with
  | None => started default_value
  | Some (PARAMETER_INTEGER v) => started (int_of_int64 v)
  | Some _ => abort (rclcpp_exn ParameterTypeException)
  end.

Definition RCLCPP_ERROR_startup (fmt : String.string) : Startup unit :=
  during_startup (RCLCPP_LOG ERROR fmt []).

(** [RMSerialDriver::getParams]: the device name and the configuration of
    the port it stores in [device_name_] and [device_config_]. *)
Definition getParams (options : list rclcpp_Parameter)
  : Startup (String.string * SerialPortConfig) :=
  device_name <~
    catch_ParameterTypeException
      (declare_parameter_string options "device_name" "")
      (RCLCPP_ERROR_startup "The device name provided was invalid" ~;;
       abort (rclcpp_exn ParameterTypeException)) ;;
  baud_rate <~
    catch_ParameterTypeException
      (v <~ declare_parameter_int options "baud_rate" 0 ;;
       started (uint32_of_int v))
      (RCLCPP_ERROR_startup "The baud_rate provided was invalid" ~;;
       abort (rclcpp_exn ParameterTypeException)) ;;
  fc <~
    catch_ParameterTypeException
      (fc_string <~ declare_parameter_string options "flow_control" "" ;;
       if String.eqb fc_string "none" then started FlowControl_NONE
       else if String.eqb fc_string "hardware" then
         started FlowControl_HARDWARE
       else if String.eqb fc_string "software" then
         started FlowControl_SOFTWARE
       else
         abort (std_invalid_argument
                  "The flow_control parameter must be one of: none, software, or hardware."))
      (RCLCPP_ERROR_startup "The flow_control provided was invalid" ~;;
       abort (rclcpp_exn ParameterTypeException)) ;;
  pt <~
    catch_ParameterTypeException
      (pt_string <~ declare_parameter_string options "parity" "" ;;
       if String.eqb pt_string "none" then started Parity_NONE
       else if String.eqb pt_string "odd" then started Parity_ODD
       else if String.eqb pt_string "even" then started Parity_EVEN
       else
         abort (std_invalid_argument
                  "The parity parameter must be one of: none, odd, or even."))
      (RCLCPP_ERROR_startup "The parity provided was invalid" ~;;
       abort (rclcpp_exn ParameterTypeException)) ;;
  sb <~
    catch_ParameterTypeException
      (sb_string <~ declare_parameter_string options "stop_bits" "" ;;
       if String.eqb sb_string "1" || String.eqb sb_string "1.0" then
         started StopBits_ONE
       else if String.eqb sb_string "1.5" then
         started StopBits_ONE_POINT_FIVE
       else if String.eqb sb_string "2" || String.eqb sb_string "2.0" then
         started StopBits_TWO
       else
         abort (std_invalid_argument
                  "The stop_bits parameter must be one of: 1, 1.5, or 2."))
      (RCLCPP_ERROR_startup "The stop_bits provided was invalid" ~;;
       abort (rclcpp_exn ParameterTypeException)) ;;
  started (device_name,
           {| cfg_baud_rate := baud_rate; cfg_flow_control := fc;
              cfg_parity := pt; cfg_stop_bits := sb |}).

(** The members the constructor leaves behind, beside [present_color_] and
    the port, which are in the state: the device name and configuration,
    and whether [receive_thread_] has been started. *)
Record RMSerialDriver : Type := {
  device_name_ : String.string;
  device_config_ : SerialPortConfig;
  receive_thread_ : bool
}.

(** [while (!service_is_ready()) sleep_for(1s)]. *)
Fixpoint wait_for_service (fuel : nat) : Startup unit :=
  match fuel with
  | O => fun _ => Hangs
  | S fuel' =>
      ready <~ during_startup service_is_ready ;;
      if ready then started tt
      else during_startup (sleep_for 1) ~;; wait_for_service fuel'
  end.

(** [init_port(device_name_, *device_config_)] makes a new port object,
    which is not open. *)
Definition init_port : Startup unit :=
  during_startup (modify (set_is_open false)).

(** The constructor [RMSerialDriver::RMSerialDriver]. The publishers, the
    parameter client and the subscription it creates have no effect of
    their own; [get_parameters] registers [get_parameters_callback], which
    runs after the constructor; starting [receive_thread_] is recorded in
    the result. *)
Definition RMSerialDriver_new (fuel : nat) (options : list rclcpp_Parameter)
  : Startup RMSerialDriver :=
  during_startup (modify (set_present_color_ (-1))) ~;;
  during_startup (RCLCPP_LOG INFO "Start RMSerialDriver!" []) ~;;
  params <~ getParams options ;;
  during_startup (RCLCPP_LOG INFO "Try to get remote param" []) ~;;
  wait_for_service fuel ~;;
  thread_started <~
    catch_std_exception
      (init_port ~;;
       opened <~ during_startup port_is_open ;;
       if negb opened then
         during_startup port_open ~;;
         started true
       else started false)
      (fun ex =>
         RCLCPP_ERROR_startup "Error creating serial port: %s - %s" ~;;
         abort std_exception) ;;
  started {| device_name_ := fst params;
             device_config_ := snd params;
             receive_thread_ := thread_started |}.

(** The canonical spelling of each setting. *)
Definition FlowControl_name (fc : FlowControl) : String.string :=
  match fc with
  | FlowControl_NONE => "none"
  | FlowControl_HARDWARE => "hardware"
  | FlowControl_SOFTWARE => "software"
  end.

Definition Parity_name (pt : Parity) : String.string :=
  match pt with
  | Parity_NONE => "none"
  | Parity_ODD => "odd"
  | Parity_EVEN => "even"
  end.

Definition StopBits_name (sb : StopBits) : String.string :=
  match sb with
  | StopBits_ONE => "1"
  | StopBits_ONE_POINT_FIVE => "1.5"
  | StopBits_TWO => "2"
  end.

(** The overrides of a launch file that spells out a configuration. *)
Definition options_of (name : String.string) (baud : Z)
           (fc : FlowControl) (pt : Parity) (sb : StopBits)
  : list rclcpp_Parameter :=
  [{| param_name := "device_name"; param_value := PARAMETER_STRING name |};
   {| param_name := "baud_rate"; param_value := PARAMETER_INTEGER baud |};
   {| param_name := "flow_control";
      param_value := PARAMETER_STRING (FlowControl_name fc) |};
   {| param_name := "parity";
      param_value := PARAMETER_STRING (Parity_name pt) |};
   {| param_name := "stop_bits";
      param_value := PARAMETER_STRING (StopBits_name sb) |}].

(** An override is absent or has the type asked for. *)
Definition string_or_absent (v : option ParameterValue) : bool :=
  match v with
  | None | Some (PARAMETER_STRING _) => true
  | _ => false
  end.

Definition int_or_absent (v : option ParameterValue) : bool :=
  match v with
  | None | Some (PARAMETER_INTEGER _) => true
  | _ => false
  end.

Local Close Scope string_scope.

(* ================================================================== *)
(** * Further properties of runs *)

Local Open Scope string_scope.

(** A complete telemetry frame as the receive loop accepts it: the size of
    [ReceivePacket], the header byte, a checksum that verifies. *)
Definition verified_frame {P : Params} (f : list byte) : Prop :=
  length f = sizeof_ReceivePacket
  /\ nth 0 f x00 = x5a
  /\ crc16.Verify_CRC16_Check_Sum f = Ok true.

(** The colour byte, the pitch and the yaw of a frame. *)
Definition frame_color (f : list byte) : byte := nth 1 f x00.

Definition frame_pitch (f : list byte) : Z := le_value (firstn 4 (skipn 2 f)).

Definition frame_yaw (f : list byte) : Z := le_value (firstn 4 (skipn 6 f)).

(** What one pass of the loop does with a verified frame, before it looks
    at the colour. *)
Definition telemetry_of (f : list byte) : list event :=
  [Call_fromVector f; PublishJointState (frame_pitch f) (frame_yaw f)].

(** The events of a colour-change request that goes through. *)
Definition granted_request_events (color : byte) : list event :=
  [SetParameters "detect_color" (if Z_of_byte color =? 0 then 1 else 0);
   Log INFO "Successfully set color: %d" [Z_of_byte color]].

(** What one pass does with a verified frame of another colour while the
    parameter service is not ready. *)
Definition unanswered_frame_events (f : list byte) : list event :=
  telemetry_of f ++ failed_request_events (frame_color f) false.

(** The events of [reopenPort] when [open] fails on every pass until
    shutdown is signalled: [k] failed passes followed by a sleep, and the
    failed pass after which [rclcpp::ok()] is false. *)
Fixpoint reopen_abandoned (was_open : bool) (k : nat) : list event :=
  match k with
  | O => reopen_attempt was_open false
  | S k' =>
      reopen_attempt was_open false ++ Sleep 1 :: reopen_abandoned false k'
  end.

(** The events the receive loop can produce: it never writes to the port
    and never publishes a latency. *)
Definition receive_event (e : event) : Prop :=
  match e with
  | PortSend _ _ | PublishLatency => False
  | _ => True
  end.

(** The events the send path can produce: it never publishes a joint
    state, never calls the decoder, never talks to the parameter
    service. *)
Definition send_event (e : event) : Prop :=
  match e with
  | PublishJointState _ _ | Call_fromVector _ | SetParameters _ _ => False
  | _ => True
  end.

(** A property of [present_color_] that a computation carries from the
    state it starts in to the state it ends in. *)
Definition carries_color {A} (Q : Z -> Prop) (m : M A) : Prop :=
  forall s s',
    Q (present_color_ s) -> final_state (m s) = Some s' ->
    Q (present_color_ s').

(** The spellings [getParams] accepts for each setting. *)
Inductive spells_FlowControl : String.string -> FlowControl -> Prop :=
| spells_fc_none : spells_FlowControl "none" FlowControl_NONE
| spells_fc_hardware : spells_FlowControl "hardware" FlowControl_HARDWARE
| spells_fc_software : spells_FlowControl "software" FlowControl_SOFTWARE.

Inductive spells_Parity : String.string -> Parity -> Prop :=
| spells_pt_none : spells_Parity "none" Parity_NONE
| spells_pt_odd : spells_Parity "odd" Parity_ODD
| spells_pt_even : spells_Parity "even" Parity_EVEN.

Inductive spells_StopBits : String.string -> StopBits -> Prop :=
| spells_sb_1 : spells_StopBits "1" StopBits_ONE
| spells_sb_1_0 : spells_StopBits "1.0" StopBits_ONE
| spells_sb_1_5 : spells_StopBits "1.5" StopBits_ONE_POINT_FIVE
| spells_sb_2 : spells_StopBits "2" StopBits_TWO
| spells_sb_2_0 : spells_StopBits "2.0" StopBits_TWO.

(** The string given for a name: the override, the default when there is
    none, nothing when the override is not a string. *)
Definition given_string (options : list rclcpp_Parameter)
           (name default_value : String.string) : option String.string :=
  match find_override options name with
  | None => Some default_value
  | Some (PARAMETER_STRING v) => Some v
  | Some _ => None
  end.

(** The integer given for a name, likewise. *)
Definition given_integer (options : list rclcpp_Parameter)
           (name : String.string) (default_value : Z) : option Z :=
  match find_override options name with
  | None => Some default_value
  | Some (PARAMETER_INTEGER v) => Some v
  | Some _ => None
  end.

(** The overrides spell out the device name and the configuration. *)
Definition spelled_out (options : list rclcpp_Parameter)
           (name : String.string) (cfg : SerialPortConfig) : Prop :=
  given_string options "device_name" "" = Some name
  /\ (exists v, given_integer options "baud_rate" 0 = Some v
                /\ cfg_baud_rate cfg = v mod 4294967296)
  /\ (exists fs, given_string options "flow_control" "" = Some fs
                 /\ spells_FlowControl fs (cfg_flow_control cfg))
  /\ (exists ps, given_string options "parity" "" = Some ps
                 /\ spells_Parity ps (cfg_parity cfg))
  /\ (exists ss, given_string options "stop_bits" "" = Some ss
                 /\ spells_StopBits ss (cfg_stop_bits cfg)).

(** The messages [getParams] logs. *)
Definition getParams_messages : list String.string :=
  ["The device name provided was invalid";
   "The baud_rate provided was invalid";
   "The flow_control provided was invalid";
   "The parity provided was invalid";
   "The stop_bits provided was invalid"].

(** How [getParams] may end from the state [s]: it returns or throws
    [std::invalid_argument] with the state as it was, or throws
    [ParameterTypeException] after logging one of its messages. *)
Definition getParams_ending {A} (s : state) (o : startup_outcome A) : Prop :=
  match o with
  | Started _ s' => s' = s
  | Aborted (std_invalid_argument _) s' => s' = s
  | Aborted (rclcpp_exn e) s' =>
      e = ParameterTypeException
      /\ exists msg, In msg getParams_messages
                     /\ s' = record [Log ERROR msg []] s
  | Aborted std_exception _ => False
  | Hangs => False
  end.

(** The events of the constructor up to the moment it opens the port,
    when the parameter service is ready after [n] refusals. *)
Definition startup_events (n : nat) : list event :=
  Log INFO "Start RMSerialDriver!" []
  :: Log INFO "Try to get remote param" []
  :: repeat (Sleep 1) n.

Local Close Scope string_scope.

(** A start-up computation that changes nothing: it returns, throws
    [std::invalid_argument] or throws [ParameterTypeException], in the
    state it was started in. *)
Definition quiet_startup {A} (m : Startup A) : Prop :=
  forall s,
    match m s with
    | Started _ s' => s' = s
    | Aborted (std_invalid_argument _) s' => s' = s
    | Aborted (rclcpp_exn e) s' => e = ParameterTypeException /\ s' = s
    | Aborted std_exception _ => False
    | Hangs => False
    end.

(* ================================================================== *)
(** * More concrete inputs *)

Local Open Scope string_scope.

(** A node reading the given stream, with the given cached colour and a
    parameter service that grants the next request. *)
Definition granting (color : Z) (items : list rx_item) (budget : nat)
  : state :=
  {| present_color_ := color; is_open := true; rx := items;
     open_results := []; send_results := [];
     service_ready := [true]; set_results := [Some true];
     ok_budget := budget; trace := [] |}.

(** A node whose link is gone for good, one loop pass before shutdown. *)
Definition dead_link : state :=
  {| present_color_ := 0; is_open := true; rx := [];
     open_results := [false]; send_results := [];
     service_ready := []; set_results := [];
     ok_budget := 1; trace := [] |}.

(** The world a node is constructed in: the parameter service is ready at
    the second look, and [open] succeeds or not. *)
Definition at_startup (opens : list bool) : state :=
  {| present_color_ := 0; is_open := false; rx := [];
     open_results := opens; send_results := [];
     service_ready := [false; true]; set_results := [];
     ok_budget := 1; trace := [] |}.

Definition example_options : list rclcpp_Parameter :=
  options_of "/dev/ttyACM0" 115200
             FlowControl_NONE Parity_NONE StopBits_ONE.

Definition example_config : String.string * SerialPortConfig :=
  ("/dev/ttyACM0",
   {| cfg_baud_rate := 115200; cfg_flow_control := FlowControl_NONE;
      cfg_parity := Parity_NONE; cfg_stop_bits := StopBits_ONE |}).

Local Close Scope string_scope.

(* ================================================================== *)
(** * Bytes, little-endian images and the checksum engine *)

Section Proofs.
Context {P : Params}.

(** Two states with the same fields are the same state. *)
Lemma state_eq (s1 s2 : state) :
  present_color_ s1 = present_color_ s2 ->
  is_open s1 = is_open s2 ->
  rx s1 = rx s2 ->
  open_results s1 = open_results s2 ->
  send_results s1 = send_results s2 ->
  service_ready s1 = service_ready s2 ->
  set_results s1 = set_results s2 ->
  ok_budget s1 = ok_budget s2 ->
  trace s1 = trace s2 ->
  s1 = s2.
Proof.
destruct s1, s2. simpl. intros. subst. reflexivity.
Qed.

Ltac state_simpl :=
  cbn [present_color_ is_open rx open_results send_results service_ready
       set_results ok_budget trace record set_trace set_present_color_
       set_is_open set_rx set_open_results set_send_results
       set_service_ready set_set_results set_ok_budget].

Ltac state_simpl_in H :=
  cbn [present_color_ is_open rx open_results send_results service_ready
       set_results ok_budget trace record set_trace set_present_color_
       set_is_open set_rx set_open_results set_send_results
       set_service_ready set_set_results set_ok_budget] in H.

Lemma Z_of_byte_range (b : byte) : 0 <= Z_of_byte b < 256.
Proof.
unfold Z_of_byte. pose proof (Byte.to_N_bounded b). lia.
Qed.

Lemma byte_of_Z_of_byte (b : byte) : byte_of_Z (Z_of_byte b) = b.
Proof.
unfold byte_of_Z. rewrite Z.mod_small by apply Z_of_byte_range.
unfold Z_of_byte. rewrite N2Z.id, Byte.of_to_N. reflexivity.
Qed.

Lemma length_le_bytes (n : nat) (v : Z) : length (le_bytes n v) = n.
Proof.
revert v. induction n as [|n IH]; intros v; simpl; [|rewrite IH]; reflexivity.
Qed.

Lemma le_bytes_le_value (bs : list byte) :
  le_bytes (length bs) (le_value bs) = bs.
Proof.
induction bs as [|b bs IH]; cbn [le_bytes le_value length]; [reflexivity|].
pose proof (Z_of_byte_range b) as Hb.
assert (Hm : (Z_of_byte b + 256 * le_value bs) mod 256 = Z_of_byte b)
  by (Z.div_mod_to_equations; lia).
assert (Hd : (Z_of_byte b + 256 * le_value bs) / 256 = le_value bs)
  by (Z.div_mod_to_equations; lia).
rewrite Hm, Hd.
rewrite byte_of_Z_of_byte, IH. reflexivity.
Qed.

(** The two checksum bytes, as the engine writes them, are the
    little-endian image of the checksum. *)
Lemma le_bytes_checksum (w : Z) :
  [byte_of_Z (Z.land w 255); byte_of_Z (Z.land (Z.shiftr w 8) 255)]
  = le_bytes 2 w.
Proof.
cbn [le_bytes]. change 255 with (Z.ones 8).
rewrite !Z.land_ones, Z.shiftr_div_pow2 by lia.
change (2 ^ 8) with 256. reflexivity.
Qed.

Lemma firstn_app_exact {A} (l r : list A) : firstn (length l) (l ++ r) = l.
Proof.
rewrite firstn_app, Nat.sub_diag, firstn_all. simpl. apply app_nil_r.
Qed.

Lemma Append_spec (B : list byte) :
  (2 <= length B)%nat ->
  crc16.Append_CRC16_Check_Sum B
  = Ok (firstn (length B - 2) B
        ++ le_bytes 2 (crc16.compute (firstn (length B - 2) B))).
Proof.
intros HB. unfold crc16.Append_CRC16_Check_Sum.
destruct (length B <? 2)%nat eqn:E; [apply Nat.ltb_lt in E; lia|].
cbv zeta. rewrite le_bytes_checksum. reflexivity.
Qed.

(** C1. Appending the checksum to a buffer that has room for the two
    checksum bytes and verifying the result gives [true]; the bytes
    before the checksum field are unchanged and so is the length. *)
Theorem Append_Verify_roundtrip (B : list byte) :
  (2 <= length B)%nat ->
  exists B',
    crc16.Append_CRC16_Check_Sum B = Ok B'
    /\ length B' = length B
    /\ firstn (length B - 2) B' = firstn (length B - 2) B
    /\ crc16.Verify_CRC16_Check_Sum B' = Ok true.
Proof.
intros HB.
unfold crc16.Append_CRC16_Check_Sum.
destruct (length B <? 2)%nat eqn:E; [apply Nat.ltb_lt in E; lia|].
set (payload := firstn (length B - 2) B).
set (w := crc16.compute payload).
assert (Hp : length payload = (length B - 2)%nat).
{ unfold payload. rewrite length_firstn. lia. }
eexists. split; [reflexivity|].
assert (Hlen : length (payload ++ [byte_of_Z (Z.land w 255);
                 byte_of_Z (Z.land (Z.shiftr w 8) 255)]) = length B).
{ rewrite length_app, Hp. simpl. lia. }
assert (F : forall r, firstn (length B - 2) (payload ++ r) = payload)
  by (intros r; rewrite <- Hp; apply firstn_app_exact).
split; [exact Hlen|]. split; [apply F|].
unfold crc16.Verify_CRC16_Check_Sum. rewrite Hlen, E. cbv zeta.
rewrite F. fold w.
replace (length B - 1)%nat with (length payload + 1)%nat by lia.
rewrite <- Hp.
replace (length payload) with (length payload + 0)%nat at 1 by lia.
rewrite !app_nth2_plus. simpl nth.
rewrite !Byte.byte_dec_lb by reflexivity. reflexivity.
Qed.

Lemma fromVector_cases (data : list byte) :
  match fromVector data with
  | Ok p =>
      length data = sizeof_ReceivePacket
      /\ rp_header p = nth 0 data x00
      /\ rp_robot_color p = nth 1 data x00
      /\ rp_pitch p = le_value (firstn 4 (skipn 2 data))
      /\ rp_yaw p = le_value (firstn 4 (skipn 6 data))
      /\ rp_checksum p = le_value (firstn 2 (skipn 10 data))
      /\ ReceivePacket_image p = data
  | Err e =>
      (length data =? sizeof_ReceivePacket)%nat = false
      /\ e = MalformedPacket
  end.
Proof.
unfold fromVector.
destruct (length data =? sizeof_ReceivePacket)%nat eqn:E; simpl negb; cbv iota.
2: { split; reflexivity. }
apply Nat.eqb_eq in E.
do 13 (destruct data as [|? data]; try discriminate E).
cbn [read_u8 read_le nth_error length Nat.add Nat.leb bind_result
     firstn skipn nth].
repeat split.
unfold ReceivePacket_image.
cbn [rp_header rp_robot_color rp_pitch rp_yaw rp_checksum].
repeat match goal with
       | |- context [le_bytes ?n (le_value ?l)] =>
           change (le_bytes n (le_value l))
             with (le_bytes (length l) (le_value l));
           rewrite (le_bytes_le_value l)
       end.
reflexivity.
Qed.

(** C8. The decoder accepts a buffer exactly when its length is that of
    [ReceivePacket]: any other length fails with [MalformedPacket]
    (no read is attempted, and [OutOfBounds] never comes out); a buffer
    of the right length gives the fields in declared order, little-endian,
    and the object representation of the packet is the buffer itself. *)
Theorem fromVector_length_guard (data : list byte) :
  match fromVector data with
  | Ok p =>
      length data = sizeof_ReceivePacket
      /\ rp_header p = nth 0 data x00
      /\ rp_robot_color p = nth 1 data x00
      /\ rp_pitch p = le_value (firstn 4 (skipn 2 data))
      /\ rp_yaw p = le_value (firstn 4 (skipn 6 data))
      /\ rp_checksum p = le_value (firstn 2 (skipn 10 data))
      /\ ReceivePacket_image p = data
  | Err e =>
      (length data =? sizeof_ReceivePacket)%nat = false
      /\ e = MalformedPacket
  end.
Proof. exact (fromVector_cases data). Qed.

Lemma fromVector_ok (data : list byte) :
  length data = sizeof_ReceivePacket ->
  exists p, fromVector data = Ok p /\ ReceivePacket_image p = data
            /\ rp_robot_color p = nth 1 data x00.
Proof.
intros Hlen. pose proof (fromVector_cases data) as H.
destruct (fromVector data) as [p|e].
- exists p. intuition.
- destruct H as [H _]. rewrite Hlen in H. discriminate H.
Qed.

(** C2. The frame [sendData] hands to the port is 29 bytes: the
    target-found flag at offset 0, the target-colour flag at offset 1 (one
    exactly when [present_color_] is 0), task mode 0 at offset 2, x y z
    from offset 3 and vx vy vz from offset 15 as little-endian binary32
    images, and in the last two bytes the checksum of the first 27,
    little-endian; on an open port whose write succeeds, that frame is
    the single write of the call. *)
Theorem sendData_frame_layout (msg : Target) (s : state) :
  exists data,
    sendData_frame (present_color_ s) msg = Ok data
    /\ length data = sizeof_SendPacket
    /\ nth 0 data x00 = byte_of_bool (msg_target_found msg)
    /\ nth 1 data x00 = byte_of_bool (present_color_ s =? 0)
    /\ (nth 1 data x00 = x01 <-> present_color_ s = 0)
    /\ nth 2 data x00 = x00
    /\ firstn 4 (skipn 3 data)
       = le_bytes 4 (float_of_double (vec_x (msg_position msg)))
    /\ firstn 4 (skipn 7 data)
       = le_bytes 4 (float_of_double (vec_y (msg_position msg)))
    /\ firstn 4 (skipn 11 data)
       = le_bytes 4 (float_of_double (vec_z (msg_position msg)))
    /\ firstn 4 (skipn 15 data)
       = le_bytes 4 (float_of_double (vec_x (msg_velocity msg)))
    /\ firstn 4 (skipn 19 data)
       = le_bytes 4 (float_of_double (vec_y (msg_velocity msg)))
    /\ firstn 4 (skipn 23 data)
       = le_bytes 4 (float_of_double (vec_z (msg_velocity msg)))
    /\ skipn 27 data = le_bytes 2 (crc16.compute (firstn 27 data))
    /\ (forall fuel,
          is_open s = true ->
          hd true (send_results s) = true ->
          sendData fuel msg s
          = Ret tt (record [PortSend data true; PublishLatency]
                      (set_send_results (tl (send_results s)) s))).
Proof.
unfold sendData_frame.
match goal with
| |- context [crc16.Append_CRC16_Check_Sum ?img] => set (image := img)
end.
assert (Hlen : length image = 29%nat) by reflexivity.
rewrite Append_spec by (rewrite Hlen; lia).
rewrite Hlen. change (29 - 2)%nat with 27%nat.
set (payload := firstn 27 image).
assert (Hpl : length payload = 27%nat) by reflexivity.
set (crc := le_bytes 2 (crc16.compute payload)).
cbn [bind_result toVector].
exists (payload ++ crc).
assert (Hf : firstn 27 (payload ++ crc) = payload)
  by (rewrite <- Hpl; apply firstn_app_exact).
assert (Hs : skipn 27 (payload ++ crc) = crc).
{ rewrite <- Hpl, skipn_app, skipn_all, Nat.sub_diag. reflexivity. }
split; [reflexivity|].
split; [rewrite length_app, Hpl; reflexivity|].
split; [reflexivity|].
split; [reflexivity|].
split.
{ change (nth 1 (payload ++ crc) x00)
    with (byte_of_bool (present_color_ s =? 0)).
  destruct (present_color_ s =? 0) eqn:E; simpl; split; intros H;
    try discriminate; try reflexivity.
  - apply Z.eqb_eq, E.
  - apply Z.eqb_neq in E. contradiction. }
split; [reflexivity|].
do 6 (split; [reflexivity|]).
split; [rewrite Hs, Hf; reflexivity|].
intros fuel Hopen Hsend.
unfold sendData, try_catch, bind, gets, lift, sendData_frame.
fold image. rewrite Append_spec by (rewrite Hlen; lia).
rewrite Hlen. change (29 - 2)%nat with 27%nat. fold payload. fold crc.
cbn [bind_result toVector ret].
unfold port_send, publish_latency, emit, modify.
rewrite Hopen, Hsend. cbn [andb].
f_equal. apply state_eq; state_simpl; try reflexivity.
rewrite <- app_assoc. reflexivity.
Qed.


(* ================================================================== *)
(** * The driver: exceptions and traces *)


Lemma take_rx_bytes (bs : list byte) (rest : list rx_item) :
  take_rx (length bs) (map RxByte bs ++ rest) = RxOk bs rest.
Proof.
induction bs as [|b bs IH]; simpl; [|rewrite IH]; reflexivity.
Qed.

(** ** Computations that never throw *)

Lemma no_throw_ret {A} (a : A) : no_throw (ret a).
Proof. intros s. reflexivity. Qed.

Lemma no_throw_bind {A B} (m : M A) (k : A -> M B) :
  no_throw m -> (forall a, no_throw (k a)) -> no_throw (bind m k).
Proof.
intros Hm Hk s. unfold bind. specialize (Hm s).
destruct (m s); simpl in *; auto. apply Hk.
Qed.

Lemma no_throw_try_catch {A} (m : M A) (h : exn -> M A) :
  (forall e, no_throw (h e)) -> no_throw (try_catch m h).
Proof.
intros Hh s. unfold try_catch. destruct (m s); simpl; auto. apply Hh.
Qed.

Lemma no_throw_modify (f : state -> state) : no_throw (modify f).
Proof. intros s. reflexivity. Qed.

Lemma no_throw_gets {A} (f : state -> A) : no_throw (gets f).
Proof. intros s. reflexivity. Qed.

Lemma no_throw_rclcpp_ok : no_throw rclcpp_ok.
Proof. intros s. unfold rclcpp_ok. destruct (ok_budget s); reflexivity. Qed.

Lemma no_throw_service_is_ready : no_throw service_is_ready.
Proof.
intros s. unfold service_is_ready. destruct (service_ready s); reflexivity.
Qed.

Lemma no_throw_set_parameters name v : no_throw (set_parameters name v).
Proof.
intros s. unfold set_parameters. destruct (set_results s); reflexivity.
Qed.

Lemma no_throw_out_of_fuel {A} : no_throw (@out_of_fuel A).
Proof. intros s. reflexivity. Qed.

Ltac no_throw_step :=
  match goal with
  | |- no_throw (bind _ _) => apply no_throw_bind; [|intros ?]
  | |- no_throw (try_catch _ _) => apply no_throw_try_catch; intros ?
  | |- no_throw (ret _) => apply no_throw_ret
  | |- no_throw (modify _) => apply no_throw_modify
  | |- no_throw (emit _) => apply no_throw_modify
  | |- no_throw (RCLCPP_LOG _ _ _) => apply no_throw_modify
  | |- no_throw (sleep_for _) => apply no_throw_modify
  | |- no_throw (gets _) => apply no_throw_gets
  | |- no_throw rclcpp_ok => apply no_throw_rclcpp_ok
  | |- no_throw service_is_ready => apply no_throw_service_is_ready
  | |- no_throw (set_parameters _ _) => apply no_throw_set_parameters
  | |- no_throw out_of_fuel => apply no_throw_out_of_fuel
  | |- no_throw (if ?b then _ else _) => destruct b
  | |- no_throw (match ?o with Some _ => _ | None => _ end) => destruct o
  end.

Lemma reopenPort_no_throw (fuel : nat) : no_throw (reopenPort fuel).
Proof.
induction fuel as [|fuel IH]; cbn [reopenPort]; repeat no_throw_step.
exact IH.
Qed.

Lemma requestforChangeColor_no_throw (color : byte) :
  no_throw (requestforChangeColor color).
Proof.
unfold requestforChangeColor. cbv zeta. repeat no_throw_step.
Qed.

Lemma receiveData_body_no_throw (fuel : nat) :
  no_throw (receiveData_body fuel).
Proof.
unfold receiveData_body. repeat no_throw_step. apply reopenPort_no_throw.
Qed.

Lemma receiveData_no_throw (fuel : nat) : no_throw (receiveData fuel).
Proof.
induction fuel as [|fuel IH]; cbn [receiveData]; repeat no_throw_step.
- apply receiveData_body_no_throw.
- exact IH.
Qed.

Lemma sendData_no_throw (fuel : nat) (msg : Target) :
  no_throw (sendData fuel msg).
Proof.
unfold sendData. repeat no_throw_step. apply reopenPort_no_throw.
Qed.

Lemma try_catch_passes {A} (m : M A) (h : exn -> M A) (s : state) :
  throws (m s) = false -> try_catch m h s = m s.
Proof.
unfold try_catch. destruct (m s); simpl; intros H;
  [reflexivity | discriminate | reflexivity | reflexivity].
Qed.

(** ** What a computation appends to the trace *)

Lemma emits_only_weaken {A} (Pe Pe' : event -> Prop) (m : M A) :
  (forall e, Pe e -> Pe' e) -> emits_only Pe m -> emits_only Pe' m.
Proof.
intros Himp Hm s s' Hfin. destruct (Hm s s' Hfin) as [new [Htr Hall]].
exists new. split; [exact Htr|].
eapply Forall_impl; [exact Himp | exact Hall].
Qed.

Lemma emits_only_silent {A} (Pe : event -> Prop) (m : M A) :
  (forall s s', final_state (m s) = Some s' -> trace s' = trace s) ->
  emits_only Pe m.
Proof.
intros H s s' Hfin. exists []. rewrite app_nil_r.
split; [apply (H s s' Hfin) | constructor].
Qed.

Lemma emits_only_ret {A} (Pe : event -> Prop) (a : A) : emits_only Pe (ret a).
Proof.
apply emits_only_silent. intros s s' H. inversion H. reflexivity.
Qed.

Lemma emits_only_throw {A} (Pe : event -> Prop) (e : exn) :
  emits_only Pe (@throw A e).
Proof.
apply emits_only_silent. intros s s' H. inversion H. reflexivity.
Qed.

Lemma emits_only_out_of_fuel {A} (Pe : event -> Prop) :
  emits_only Pe (@out_of_fuel A).
Proof. intros s s' H. discriminate H. Qed.

Lemma emits_only_lift {A} (Pe : event -> Prop) (r : result A) :
  emits_only Pe (lift r).
Proof.
destruct r; [apply emits_only_ret | apply emits_only_throw].
Qed.

Lemma emits_only_gets {A} (Pe : event -> Prop) (f : state -> A) :
  emits_only Pe (gets f).
Proof.
apply emits_only_silent. intros s s' H. inversion H. reflexivity.
Qed.

Lemma emits_only_bind {A B} (Pe : event -> Prop) (m : M A) (k : A -> M B) :
  emits_only Pe m -> (forall a, emits_only Pe (k a)) ->
  emits_only Pe (bind m k).
Proof.
intros Hm Hk s s' Hfin. unfold bind in Hfin.
destruct (m s) as [a s1|e s1|s1|] eqn:E.
- destruct (Hm s s1) as [n1 [T1 F1]]; [rewrite E; reflexivity|].
  destruct (Hk a s1 s' Hfin) as [n2 [T2 F2]].
  exists (n1 ++ n2). rewrite T2, T1, app_assoc.
  split; [reflexivity | apply Forall_app; split; assumption].
- apply (Hm s s'). rewrite E. exact Hfin.
- apply (Hm s s'). rewrite E. exact Hfin.
- discriminate Hfin.
Qed.

Lemma emits_only_try_catch {A} (Pe : event -> Prop)
      (m : M A) (h : exn -> M A) :
  emits_only Pe m -> (forall e, emits_only Pe (h e)) ->
  emits_only Pe (try_catch m h).
Proof.
intros Hm Hh s s' Hfin. unfold try_catch in Hfin.
destruct (m s) as [a s1|e s1|s1|] eqn:E.
- apply (Hm s s'). rewrite E. exact Hfin.
- destruct (Hm s s1) as [n1 [T1 F1]]; [rewrite E; reflexivity|].
  destruct (Hh e s1 s' Hfin) as [n2 [T2 F2]].
  exists (n1 ++ n2). rewrite T2, T1, app_assoc.
  split; [reflexivity | apply Forall_app; split; assumption].
- apply (Hm s s'). rewrite E. exact Hfin.
- discriminate Hfin.
Qed.

Lemma emits_only_emit (Pe : event -> Prop) (e : event) :
  Pe e -> emits_only Pe (emit e).
Proof.
intros He s s' H. inversion H. exists [e].
split; [reflexivity | constructor; [exact He | constructor]].
Qed.

Lemma emits_only_set_present_color_ (Pe : event -> Prop) (v : Z) :
  emits_only Pe (modify (set_present_color_ v)).
Proof.
apply emits_only_silent. intros s s' H. inversion H. reflexivity.
Qed.

Lemma emits_only_rclcpp_ok (Pe : event -> Prop) : emits_only Pe rclcpp_ok.
Proof.
apply emits_only_silent. intros s s' H. unfold rclcpp_ok in H.
destruct (ok_budget s); inversion H; reflexivity.
Qed.

Lemma emits_only_port_is_open (Pe : event -> Prop) :
  emits_only Pe port_is_open.
Proof. apply emits_only_gets. Qed.

Lemma emits_only_port_close (Pe : event -> Prop) :
  Pe PortClose -> emits_only Pe port_close.
Proof.
intros He s s' H. inversion H. exists [PortClose].
split; [reflexivity | constructor; [exact He | constructor]].
Qed.

Lemma emits_only_port_open (Pe : event -> Prop) :
  (forall b, Pe (PortOpen b)) -> emits_only Pe port_open.
Proof.
intros He s s' H. unfold port_open in H. cbv zeta in H.
destruct (hd false (open_results s)); inversion H;
  eexists [_]; (split; [reflexivity | constructor; [apply He | constructor]]).
Qed.

Lemma emits_only_port_receive (Pe : event -> Prop) (n : nat) :
  emits_only Pe (port_receive n).
Proof.
apply emits_only_silent. intros s s' H. unfold port_receive in H.
destruct (is_open s); [destruct (take_rx n (rx s))|];
  inversion H; reflexivity.
Qed.

Lemma emits_only_port_send (Pe : event -> Prop) (data : list byte) :
  (forall b, Pe (PortSend data b)) -> emits_only Pe (port_send data).
Proof.
intros He s s' H. unfold port_send in H. cbv zeta in H.
destruct (is_open s); destruct (hd true (send_results s));
  inversion H;
  eexists [_]; (split; [reflexivity | constructor; [apply He | constructor]]).
Qed.

Lemma emits_only_service_is_ready (Pe : event -> Prop) :
  emits_only Pe service_is_ready.
Proof.
apply emits_only_silent. intros s s' H. unfold service_is_ready in H.
destruct (service_ready s); inversion H; reflexivity.
Qed.

Lemma emits_only_set_parameters (Pe : event -> Prop) name v :
  Pe (SetParameters name v) -> emits_only Pe (set_parameters name v).
Proof.
intros He s s' H. unfold set_parameters in H.
destruct (set_results s); inversion H;
  eexists [_]; (split; [reflexivity | constructor; [apply He | constructor]]).
Qed.

Ltac emits_step :=
  match goal with
  | |- emits_only _ (bind _ _) => apply emits_only_bind; [|intros ?]
  | |- emits_only _ (try_catch _ _) => apply emits_only_try_catch; [|intros ?]
  | |- emits_only _ (ret _) => apply emits_only_ret
  | |- emits_only _ (lift _) => apply emits_only_lift
  | |- emits_only _ (gets _) => apply emits_only_gets
  | |- emits_only _ out_of_fuel => apply emits_only_out_of_fuel
  | |- emits_only _ (modify (set_present_color_ _)) =>
      apply emits_only_set_present_color_
  | |- emits_only _ rclcpp_ok => apply emits_only_rclcpp_ok
  | |- emits_only _ port_is_open => apply emits_only_port_is_open
  | |- emits_only _ port_close => apply emits_only_port_close; exact I
  | |- emits_only _ port_open => apply emits_only_port_open; intros ?; exact I
  | |- emits_only _ (port_receive _) => apply emits_only_port_receive
  | |- emits_only _ service_is_ready => apply emits_only_service_is_ready
  | |- emits_only _ (set_parameters _ _) =>
      apply emits_only_set_parameters; exact I
  | |- emits_only _ (RCLCPP_LOG _ _ _) => apply emits_only_emit; exact I
  | |- emits_only _ (sleep_for _) => apply emits_only_emit; exact I
  | |- emits_only _ (publish_joint_state _ _) => apply emits_only_emit; exact I
  | |- emits_only _ publish_latency => apply emits_only_emit; exact I
  | |- emits_only _ (if ?b then _ else _) => destruct b eqn:?
  | |- emits_only _ (match ?o with Some _ => _ | None => _ end) => destruct o
  end.

Lemma reopenPort_emits (fuel : nat) : emits_only link_event (reopenPort fuel).
Proof.
induction fuel as [|fuel IH]; cbn [reopenPort]; repeat emits_step.
exact IH.
Qed.

Lemma requestforChangeColor_emits (color : byte) :
  emits_only request_event (requestforChangeColor color).
Proof.
unfold requestforChangeColor. cbv zeta. repeat emits_step.
Qed.

Lemma receiveData_body_decodes_after_sentinel (fuel : nat) :
  emits_only sentinel_decode (receiveData_body fuel).
Proof.
unfold receiveData_body. repeat emits_step.
- apply emits_only_emit. simpl. f_equal.
  apply Byte.byte_dec_bl. assumption.
- apply (emits_only_weaken request_event);
    [intros [] H; simpl in *; tauto | apply requestforChangeColor_emits].
- apply (emits_only_weaken link_event);
    [intros [] H; simpl in *; tauto | apply reopenPort_emits].
Qed.

Lemma receiveData_decodes_after_sentinel (fuel : nat) :
  emits_only sentinel_decode (receiveData fuel).
Proof.
induction fuel as [|fuel IH]; cbn [receiveData]; repeat emits_step.
- apply receiveData_body_decodes_after_sentinel.
- exact IH.
Qed.

(** A bind whose continuation may rely on what the first computation
    returns. *)
Lemma emits_only_bind_ret {A B} (Pe : event -> Prop) (R : A -> Prop)
      (m : M A) (k : A -> M B) :
  emits_only Pe m ->
  (forall s a s', m s = Ret a s' -> R a) ->
  (forall a, R a -> emits_only Pe (k a)) ->
  emits_only Pe (bind m k).
Proof.
intros Hm HR Hk s s' Hfin. unfold bind in Hfin.
destruct (m s) as [a s1|e s1|s1|] eqn:E.
- destruct (Hm s s1) as [n1 [T1 F1]]; [rewrite E; reflexivity|].
  destruct (Hk a (HR s a s1 E) s1 s' Hfin) as [n2 [T2 F2]].
  exists (n1 ++ n2). rewrite T2, T1, app_assoc.
  split; [reflexivity | apply Forall_app; split; assumption].
- apply (Hm s s'). rewrite E. exact Hfin.
- apply (Hm s s'). rewrite E. exact Hfin.
- discriminate Hfin.
Qed.

Lemma take_rx_length (n : nat) :
  forall items bytes rest,
    take_rx n items = RxOk bytes rest -> length bytes = n.
Proof.
induction n as [|n IH]; intros items bytes rest H; simpl in H.
- inversion H. reflexivity.
- destruct items as [|[b|] items]; try discriminate H.
  destruct (take_rx n items) as [bs r| |] eqn:E; try discriminate H.
  inversion H. subst. simpl. f_equal. apply (IH _ _ _ E).
Qed.

Lemma port_receive_length (n : nat) (s s' : state) (bytes : list byte) :
  port_receive n s = Ret bytes s' -> length bytes = n.
Proof.
unfold port_receive. destruct (is_open s); [|discriminate].
destruct (take_rx n (rx s)) as [bs r| |] eqn:E; try discriminate.
intros H. inversion H. subst. apply (take_rx_length _ _ _ _ E).
Qed.

(** The buffer [receiveData] hands to the decoder always has the size of
    [ReceivePacket]: the header byte and the 11 bytes read after it. *)
Lemma receiveData_body_decodes_full_frames (fuel : nat) :
  emits_only sized_decode (receiveData_body fuel).
Proof.
unfold receiveData_body. apply emits_only_try_catch.
- apply emits_only_bind; [emits_step|intros header].
  destruct (Byte.eqb (nth 0 header x00) x5a); [|emits_step].
  apply (emits_only_bind_ret _ (fun d => length d = 11%nat));
    [emits_step | intros s d s'; apply port_receive_length | intros data Hd].
  repeat emits_step.
  + apply emits_only_emit. simpl. rewrite Hd. reflexivity.
  + apply (emits_only_weaken request_event);
      [intros [] H; simpl in *; tauto | apply requestforChangeColor_emits].
- intros e. repeat emits_step.
  apply (emits_only_weaken link_event);
    [intros [] H; simpl in *; tauto | apply reopenPort_emits].
Qed.

Lemma receiveData_decodes_full_frames (fuel : nat) :
  emits_only sized_decode (receiveData fuel).
Proof.
induction fuel as [|fuel IH]; cbn [receiveData]; repeat emits_step.
- apply receiveData_body_decodes_full_frames.
- exact IH.
Qed.

(* ================================================================== *)
(** * The receive loop *)

Local Open Scope string_scope.

Lemma port_receive_header (b : byte) (rest : list rx_item) (s : state) :
  is_open s = true -> rx s = RxByte b :: rest ->
  port_receive 1 s = Ret [b] (set_rx rest s).
Proof.
intros Ho Hr. unfold port_receive. rewrite Ho, Hr. reflexivity.
Qed.

Lemma port_receive_bytes (bs : list byte) (rest : list rx_item) (s : state) :
  is_open s = true -> rx s = map RxByte bs ++ rest ->
  port_receive (length bs) s = Ret bs (set_rx rest s).
Proof.
intros Ho Hr. unfold port_receive. rewrite Ho, Hr, take_rx_bytes.
reflexivity.
Qed.

(** One pass of the loop over a byte that is not the sentinel. *)
Lemma receiveData_body_invalid_header
      (b : byte) (rest : list rx_item) (fuel : nat) (s : state) :
  is_open s = true -> rx s = RxByte b :: rest -> b <> x5a ->
  receiveData_body fuel s
  = Ret tt (record [Log WARN "Invalid header: %02X" [Z_of_byte b]]
              (set_rx rest s)).
Proof.
intros Ho Hr Hb. unfold receiveData_body, try_catch, bind.
rewrite (port_receive_header b rest s Ho Hr). cbn [nth].
destruct (Byte.eqb b x5a) eqn:E.
- apply Byte.byte_dec_bl in E. contradiction.
- reflexivity.
Qed.

(** One pass of the loop over a complete frame. *)
Lemma receiveData_body_frame
      (body : list byte) (rest : list rx_item) (fuel : nat) (s : state)
      (p : ReceivePacket) (crc_ok : bool) :
  is_open s = true ->
  rx s = RxByte x5a :: map RxByte body ++ rest ->
  length body = 11%nat ->
  fromVector (x5a :: body) = Ok p ->
  crc16.Verify_CRC16_Check_Sum (x5a :: body) = Ok crc_ok ->
  receiveData_body fuel s
  = if crc_ok then
      let s1 := record [Call_fromVector (x5a :: body);
                        PublishJointState (rp_pitch p) (rp_yaw p)]
                  (set_rx rest s) in
      if Z_of_byte (rp_robot_color p) =? present_color_ s
      then Ret tt s1
      else requestforChangeColor (rp_robot_color p) s1
    else
      Ret tt (record [Call_fromVector (x5a :: body); Log ERROR "CRC error!" []]
                (set_rx rest s)).
Proof.
intros Ho Hr Hlen Hp Hcrc.
assert (Himg : ReceivePacket_image p = x5a :: body).
{ destruct (fromVector_ok (x5a :: body)) as [p' [Hp' [Hi _]]];
    [simpl; rewrite Hlen; reflexivity|].
  rewrite Hp in Hp'. inversion Hp'. subst p'. exact Hi. }
unfold receiveData_body.
match goal with
| |- try_catch ?m ?h s = _ =>
    assert (E : m s =
      if crc_ok then
        (publish_joint_state (rp_pitch p) (rp_yaw p) ;;
         present_color <- gets present_color_ ;;
         if negb (Z_of_byte (rp_robot_color p) =? present_color)
         then requestforChangeColor (rp_robot_color p) else ret tt)
          (record [Call_fromVector (x5a :: body)] (set_rx rest s))
      else
        RCLCPP_LOG ERROR "CRC error!" []
          (record [Call_fromVector (x5a :: body)] (set_rx rest s)))
end.
{ unfold bind at 1.
  rewrite (port_receive_header x5a _ s Ho Hr). cbn [nth].
  change (Byte.eqb x5a x5a) with true. cbv iota.
  unfold bind at 1. change (sizeof_ReceivePacket - 1)%nat with 11%nat.
  rewrite <- Hlen.
  rewrite (port_receive_bytes body rest (set_rx (map RxByte body ++ rest) s))
    by (destruct s; simpl in *; auto).
  unfold bind at 1. cbn [emit modify].
  unfold bind at 1. rewrite Hp. cbn [lift ret].
  unfold bind at 1. rewrite Himg, Hcrc. cbn [lift ret].
  destruct crc_ok; destruct s; reflexivity. }
destruct crc_ok.
- cbv zeta.
  assert (E' : forall s0, present_color_ s0 = present_color_ s ->
            (publish_joint_state (rp_pitch p) (rp_yaw p) ;;
             present_color <- gets present_color_ ;;
             if negb (Z_of_byte (rp_robot_color p) =? present_color)
             then requestforChangeColor (rp_robot_color p) else ret tt)
              (record [Call_fromVector (x5a :: body)] s0)
            = if Z_of_byte (rp_robot_color p) =? present_color_ s
              then Ret tt (record [Call_fromVector (x5a :: body);
                             PublishJointState (rp_pitch p) (rp_yaw p)] s0)
              else requestforChangeColor (rp_robot_color p)
                     (record [Call_fromVector (x5a :: body);
                        PublishJointState (rp_pitch p) (rp_yaw p)] s0)).
  { intros s0 Hpc. unfold bind, publish_joint_state, emit, modify, gets.
    replace (present_color_ (record [PublishJointState (rp_pitch p) (rp_yaw p)]
               (record [Call_fromVector (x5a :: body)] s0)))
      with (present_color_ s) by (rewrite <- Hpc; reflexivity).
    replace (record [PublishJointState (rp_pitch p) (rp_yaw p)]
               (record [Call_fromVector (x5a :: body)] s0))
      with (record [Call_fromVector (x5a :: body);
                    PublishJointState (rp_pitch p) (rp_yaw p)] s0)
      by (destruct s0; unfold record, set_trace; simpl;
          rewrite <- app_assoc; reflexivity).
    destruct (Z_of_byte (rp_robot_color p) =? present_color_ s); reflexivity. }
  rewrite E' in E by reflexivity.
  rewrite try_catch_passes; rewrite E; [reflexivity|].
  destruct (Z_of_byte (rp_robot_color p) =? present_color_ s);
    [reflexivity | apply requestforChangeColor_no_throw].
- rewrite try_catch_passes; rewrite E.
  + unfold RCLCPP_LOG, emit, modify. f_equal.
    destruct s; unfold record, set_trace; simpl.
    rewrite <- app_assoc. reflexivity.
  + reflexivity.
Qed.

Lemma receiveData_step (fuel n : nat) (s : state) :
  ok_budget s = S n ->
  receiveData (S fuel) s
  = (receiveData_body fuel ;; receiveData fuel) (set_ok_budget n s).
Proof.
intros Hb. cbn [receiveData]. unfold bind at 1, rclcpp_ok.
rewrite Hb. reflexivity.
Qed.

Lemma receiveData_skips_junk (junk : list byte) :
  forall (rest : list rx_item) (fuel : nat) (s : state),
    is_open s = true ->
    rx s = map RxByte junk ++ rest ->
    Forall (fun b => b <> x5a) junk ->
    (length junk <= ok_budget s)%nat ->
    receiveData (length junk + fuel) s
    = receiveData fuel
        (record (invalid_header_warnings junk)
           (set_ok_budget (ok_budget s - length junk) (set_rx rest s))).
Proof.
induction junk as [|b junk IH]; intros rest fuel s Ho Hr Hj Hb.
- simpl in *. f_equal. destruct s; unfold record, set_trace; simpl in *.
  rewrite app_nil_r, Nat.sub_0_r. subst. reflexivity.
- inversion Hj as [|? ? Hb0 Hj']; subst.
  cbn [length] in Hb. destruct (ok_budget s) as [|k] eqn:Ek; [lia|].
  cbn [length Nat.add].
  rewrite (receiveData_step _ k s Ek). unfold bind at 1.
  rewrite (receiveData_body_invalid_header b (map RxByte junk ++ rest))
    by (destruct s; simpl in *; auto).
  rewrite (IH rest fuel) by (destruct s; simpl in *; auto; lia).
  f_equal. destruct s; unfold record, set_trace; simpl in *.
  rewrite <- app_assoc. subst. reflexivity.
Qed.

(* ================================================================== *)
(** * Reconnection *)

(** One pass of [reopenPort], by the state of the port, the outcome of
    [open] and the shutdown signal. *)
Lemma reopenPort_step (fuel : nat) (s : state) :
  reopenPort (S fuel) s
  = let s0 := record [Log WARN "Attempting to reopen port" []] s in
    let s1 := if is_open s
              then record [PortClose] (set_is_open false s0) else s0 in
    let s2 := set_open_results (tl (open_results s)) s1 in
    if hd false (open_results s) then
      Ret tt (record [Log INFO "Successfully reopened port" []]
                (record [PortOpen true] (set_is_open true s2)))
    else
      let s3 := record [Log ERROR "Error while reopening port: %s" []]
                  (record [PortOpen false] s2) in
      match ok_budget s with
      | O => Ret tt s3
      | S k => reopenPort fuel (record [Sleep 1] (set_ok_budget k s3))
      end.
Proof.
cbn [reopenPort].
unfold bind at 1. unfold RCLCPP_LOG at 1. unfold emit, modify at 1.
unfold try_catch at 1. unfold bind at 1. unfold port_is_open, gets.
state_simpl. cbv zeta.
destruct (is_open s); unfold bind at 1.
- unfold port_close, modify. unfold bind at 1. unfold port_open.
  state_simpl. cbv zeta.
  destruct (hd false (open_results s)).
  + reflexivity.
  + unfold bind at 1. unfold RCLCPP_LOG at 1. unfold emit, modify at 1.
    unfold bind at 1. unfold rclcpp_ok. state_simpl.
    destruct (ok_budget s); reflexivity.
- unfold ret at 1. unfold bind at 1. unfold port_open.
  state_simpl. cbv zeta.
  destruct (hd false (open_results s)).
  + reflexivity.
  + unfold bind at 1. unfold RCLCPP_LOG at 1. unfold emit, modify at 1.
    unfold bind at 1. unfold rclcpp_ok. state_simpl.
    destruct (ok_budget s); reflexivity.
Qed.

Ltac state_eq_tac :=
  apply state_eq; state_simpl; try reflexivity; try lia;
  repeat rewrite <- app_assoc; try reflexivity.

Lemma reopenPort_returns (fuel : nat) :
  forall s, (ok_budget s < fuel)%nat -> exists s', reopenPort fuel s = Ret tt s'.
Proof.
induction fuel as [|fuel IH]; intros s Hb; [lia|].
rewrite reopenPort_step. cbv zeta.
destruct (hd false (open_results s)); [eexists; reflexivity|].
destruct (ok_budget s) as [|k] eqn:Ek; [eexists; reflexivity|].
apply IH. state_simpl. lia.
Qed.

Lemma reopenPort_closed_only_on_shutdown (fuel : nat) :
  forall s s',
    reopenPort fuel s = Ret tt s' -> is_open s' = false ->
    ok_budget s' = O /\ rclcpp_ok s' = Ret false s'.
Proof.
assert (Hz : forall s', ok_budget s' = O -> rclcpp_ok s' = Ret false s')
  by (intros s' H; unfold rclcpp_ok; rewrite H; reflexivity).
induction fuel as [|fuel IH]; intros s s' Hr Hc; [discriminate Hr|].
rewrite reopenPort_step in Hr. cbv zeta in Hr.
destruct (hd false (open_results s)).
- inversion Hr; subst s'. state_simpl_in Hc. discriminate Hc.
- destruct (ok_budget s) as [|k] eqn:Ek.
  + inversion Hr; subst s'. split; [|apply Hz];
      destruct (is_open s); state_simpl; exact Ek.
  + apply (IH _ _ Hr Hc).
Qed.

Lemma reopen_trace_opens (was_open : bool) (n : nat) :
  length (filter is_PortOpen (reopen_trace was_open n)) = S n.
Proof.
revert was_open. induction n as [|n IH]; intros [|]; simpl;
  try reflexivity; rewrite IH; reflexivity.
Qed.

Lemma reopen_trace_sleeps (was_open : bool) (n : nat) :
  filter is_Sleep (reopen_trace was_open n) = repeat (Sleep 1) n.
Proof.
revert was_open. induction n as [|n IH]; intros [|]; simpl;
  try reflexivity; rewrite IH; reflexivity.
Qed.

Lemma reopenPort_after_failures (n : nat) :
  forall (rest : list bool) (fuel : nat) (s : state),
    open_results s = repeat false n ++ true :: rest ->
    (n <= ok_budget s)%nat ->
    (n < fuel)%nat ->
    reopenPort fuel s
    = Ret tt (record (reopen_trace (is_open s) n)
                (set_is_open true
                   (set_open_results rest
                      (set_ok_budget (ok_budget s - n) s)))).
Proof.
induction n as [|n IH]; intros rest fuel s Hor Hb Hf;
  (destruct fuel as [|fuel]; [lia|]); rewrite reopenPort_step; cbv zeta;
  rewrite Hor; cbn [repeat app hd tl].
- f_equal. destruct (is_open s); state_eq_tac.
- destruct (ok_budget s) as [|k] eqn:Ek; [lia|].
  etransitivity.
  { apply (IH rest); [destruct (is_open s); state_simpl; reflexivity
                     |destruct (is_open s); state_simpl; lia | lia]. }
  f_equal. destruct (is_open s) eqn:Eo; state_eq_tac.
  rewrite Eo. reflexivity.
Qed.

(** Whatever [reopenPort] does, it starts by announcing the attempt, and
    it touches nothing but the log, the port and the clock. *)
Lemma reopenPort_trace (fuel : nat) (s s' : state) :
  reopenPort fuel s = Ret tt s' ->
  exists new,
    trace s' = trace s ++ Log WARN "Attempting to reopen port" [] :: new
    /\ Forall link_event new.
Proof.
destruct fuel as [|fuel]; [discriminate|]. cbn [reopenPort].
unfold bind at 1. unfold RCLCPP_LOG at 1. unfold emit, modify at 1.
intros H.
match type of H with
| ?m ?s0 = _ => assert (Hm : emits_only link_event m)
end.
{ repeat emits_step. apply reopenPort_emits. }
match type of H with
| ?m ?s0 = _ => destruct (Hm s0 s') as [new [Htr Hall]]
end.
{ rewrite H. reflexivity. }
exists new. split; [|exact Hall].
rewrite Htr. state_simpl. rewrite <- app_assoc. reflexivity.
Qed.

(** C6. When the coming calls of [open] fail [n] times and then succeed,
    and shutdown is not signalled meanwhile, [reopenPort] returns with the
    port open after exactly [n + 1] calls of [open], having slept one
    second after each of the [n] failures; whenever [reopenPort] returns
    with the port closed, [rclcpp::ok()] is false; and with enough fuel for
    the shutdown budget it always returns. *)
Theorem reopenPort_retries_until_open
        (n : nat) (rest : list bool) (fuel : nat) (s : state) :
  open_results s = repeat false n ++ true :: rest ->
  (n <= ok_budget s)%nat ->
  (n < fuel)%nat ->
  let s' := record (reopen_trace (is_open s) n)
              (set_is_open true
                 (set_open_results rest
                    (set_ok_budget (ok_budget s - n) s))) in
  reopenPort fuel s = Ret tt s'
  /\ is_open s' = true
  /\ length (filter is_PortOpen (reopen_trace (is_open s) n)) = S n
  /\ filter is_Sleep (reopen_trace (is_open s) n) = repeat (Sleep 1) n
  /\ (forall fuel0 s0 s0',
        reopenPort fuel0 s0 = Ret tt s0' -> is_open s0' = false ->
        ok_budget s0' = O /\ rclcpp_ok s0' = Ret false s0')
  /\ (forall fuel0 s0,
        (ok_budget s0 < fuel0)%nat ->
        exists s0', reopenPort fuel0 s0 = Ret tt s0').
Proof.
intros Hor Hb Hf s'.
split; [apply reopenPort_after_failures; assumption|].
split; [reflexivity|].
split; [apply reopen_trace_opens|].
split; [apply reopen_trace_sleeps|].
split.
- intros fuel0 s0 s0'. apply reopenPort_closed_only_on_shutdown.
- intros fuel0 s0. apply reopenPort_returns.
Qed.

(* ================================================================== *)
(** * The send path *)

Lemma filter_none {A} (f : A -> bool) (Q : A -> Prop) (l : list A) :
  (forall a, Q a -> f a = false) -> Forall Q l -> filter f l = [].
Proof.
intros HQ Hl. induction Hl as [|a l Ha Hl IH]; simpl; [reflexivity|].
rewrite (HQ a Ha). exact IH.
Qed.

Lemma sendData_frame_ok (present_color : Z) (msg : Target) :
  exists data, sendData_frame present_color msg = Ok data.
Proof.
unfold sendData_frame.
match goal with
| |- context [crc16.Append_CRC16_Check_Sum ?img] => set (image := img)
end.
assert (Hlen : length image = 29%nat) by reflexivity.
rewrite Append_spec by (rewrite Hlen; lia).
eexists. reflexivity.
Qed.

Lemma sendData_on_write_failure (fuel : nat) (msg : Target) (s : state)
      (data : list byte) :
  write_fails s = true ->
  sendData_frame (present_color_ s) msg = Ok data ->
  sendData fuel msg s
  = reopenPort fuel
      (record [Log ERROR "Error while sending data: %s" []]
         (record [PortSend data false]
            (if is_open s
             then set_send_results (tl (send_results s)) s else s))).
Proof.
intros Hw Hd. unfold write_fails in Hw. apply negb_true_iff in Hw.
unfold sendData, try_catch. unfold bind at 1. unfold gets. cbv beta iota.
unfold bind at 1. rewrite Hd. cbn [lift]. unfold ret. cbv beta iota.
unfold bind at 1. unfold port_send. cbv zeta. rewrite Hw. reflexivity.
Qed.

(** C7 (amended). When the write raises an I/O error, [sendData]
    logs the error and runs [reopenPort] on the state the failed write
    has left, and then returns normally: nothing is thrown to the caller,
    and the frame is not written again (the failed write is the only
    write of the call).  The call ends with the port open again unless
    shutdown has been signalled; when the coming calls of [open] fail [n]
    times and then succeed, it ends after [n + 1] attempts with the port
    open. *)
Theorem sendData_write_failure_is_swallowed
        (fuel : nat) (msg : Target) (s : state) :
  write_fails s = true ->
  (ok_budget s < fuel)%nat ->
  exists data s' new,
    let s_err := record [Log ERROR "Error while sending data: %s" []]
                   (record [PortSend data false]
                      (if is_open s
                       then set_send_results (tl (send_results s)) s
                       else s)) in
    sendData_frame (present_color_ s) msg = Ok data
    /\ sendData fuel msg s = Ret tt s'
    /\ throws (sendData fuel msg s) = false
    /\ trace s'
       = trace s
         ++ PortSend data false
         :: Log ERROR "Error while sending data: %s" []
         :: Log WARN "Attempting to reopen port" []
         :: new
    /\ Forall link_event new
    /\ filter is_PortSend
         (PortSend data false
          :: Log ERROR "Error while sending data: %s" []
          :: Log WARN "Attempting to reopen port" []
          :: new)
       = [PortSend data false]
    /\ sendData fuel msg s = reopenPort fuel s_err
    /\ (is_open s' = true \/ ok_budget s' = O)
    /\ (forall n rest,
          open_results s = repeat false n ++ true :: rest ->
          (n <= ok_budget s)%nat ->
          (n < fuel)%nat ->
          s' = record (reopen_trace (is_open s) n)
                 (set_is_open true
                    (set_open_results rest
                       (set_ok_budget (ok_budget s - n) s_err)))).
Proof.
intros Hw Hb.
destruct (sendData_frame_ok (present_color_ s) msg) as [data Hd].
pose proof (sendData_on_write_failure fuel msg s data Hw Hd) as Hs.
match type of Hs with
| _ = reopenPort _ ?s1 => set (s_err := s1) in *
end.
assert (Hopen : is_open s_err = is_open s)
  by (unfold s_err; destruct (is_open s) eqn:Eo; state_simpl;
      try rewrite Eo; reflexivity).
assert (Hbud : ok_budget s_err = ok_budget s)
  by (unfold s_err; destruct (is_open s); state_simpl; reflexivity).
assert (Hres : open_results s_err = open_results s)
  by (unfold s_err; destruct (is_open s); state_simpl; reflexivity).
destruct (reopenPort_returns fuel s_err) as [s' Hr];
  [rewrite Hbud; exact Hb|].
destruct (reopenPort_trace _ _ _ Hr) as [new [Htr Hall]].
exists data, s', new. cbv zeta. fold s_err.
split; [exact Hd|].
split; [rewrite Hs; exact Hr|].
split; [apply sendData_no_throw|].
split.
{ rewrite Htr. unfold s_err. destruct (is_open s); state_simpl;
    repeat rewrite <- app_assoc; reflexivity. }
split; [exact Hall|].
split.
{ cbn [filter is_PortSend]. f_equal.
  apply (filter_none _ link_event); [|exact Hall].
  intros [] H; simpl in *; tauto. }
split; [exact Hs|].
split.
{ destruct (is_open s') eqn:Eo; [left; reflexivity|right].
  apply (reopenPort_closed_only_on_shutdown fuel s_err s' Hr Eo). }
intros n rest Hor Hn Hf.
rewrite (reopenPort_after_failures n rest fuel s_err) in Hr;
  [|rewrite Hres; exact Hor|rewrite Hbud; exact Hn|exact Hf].
rewrite Hopen, Hbud in Hr. inversion Hr. reflexivity.
Qed.

(* ================================================================== *)
(** * The colour-change request *)

(** C9 (amended). When the request is rejected or cannot be delivered
    (the service is not ready, the callback has not run, or it reports no
    success), [requestforChangeColor] returns normally, [present_color_]
    and the port are as before, and the only events are one error in the
    log with, before it, the single [set_parameters] when the service was
    ready, or, after it, a sleep of one second when it was not. *)
Theorem requestforChangeColor_failure_keeps_color
        (color : byte) (s : state) :
  request_fails s = true ->
  exists s',
    requestforChangeColor color s = Ret tt s'
    /\ present_color_ s' = present_color_ s
    /\ is_open s' = is_open s
    /\ rx s' = rx s
    /\ trace s'
       = trace s ++ failed_request_events color (hd false (service_ready s))
    /\ (length (filter is_SetParameters
                  (failed_request_events color (hd false (service_ready s))))
        <= 1)%nat.
Proof.
intros Hf. unfold request_fails in Hf.
unfold requestforChangeColor. cbv zeta.
unfold bind at 1. unfold service_is_ready.
destruct (service_ready s) as [|[|] ready] eqn:Er; cbn [hd].
- eexists. split; [reflexivity|]. state_simpl.
  repeat split; try reflexivity;
    try (rewrite <- app_assoc; reflexivity); simpl; lia.
- unfold bind at 1. unfold set_parameters. state_simpl.
  destruct (set_results s) as [|[[|]|] results] eqn:Es;
    try discriminate Hf;
    (eexists; split; [reflexivity|]; state_simpl;
     repeat split; try reflexivity;
     try (rewrite <- app_assoc; reflexivity); simpl; lia).
- eexists. split; [reflexivity|]. state_simpl.
  repeat split; try reflexivity;
    try (rewrite <- app_assoc; reflexivity); simpl; lia.
Qed.

(** When the request goes through, the cached colour becomes the colour
    asked for. *)
Lemma requestforChangeColor_success_sets_color
      (color : byte) (s : state) :
  request_fails s = false ->
  exists s',
    requestforChangeColor color s = Ret tt s'
    /\ present_color_ s' = Z_of_byte color.
Proof.
intros Hf. unfold request_fails in Hf.
unfold requestforChangeColor. cbv zeta.
unfold bind at 1. unfold service_is_ready.
destruct (service_ready s) as [|[|] ready] eqn:Er; try discriminate Hf.
unfold bind at 1. unfold set_parameters. state_simpl.
destruct (set_results s) as [|[[|]|] results] eqn:Es; try discriminate Hf.
eexists. split; reflexivity.
Qed.

(* ================================================================== *)
(** * Termination of the receive loop *)

Lemma steady_ret {A} (a : A) : steady (ret a).
Proof.
intros s. split; [discriminate|]. intros s' H. inversion H. reflexivity.
Qed.

Lemma steady_throw {A} (e : exn) : steady (@throw A e).
Proof.
intros s. split; [discriminate|]. intros s' H. inversion H. reflexivity.
Qed.

Lemma steady_lift {A} (r : result A) : steady (lift r).
Proof. destruct r; [apply steady_ret | apply steady_throw]. Qed.

Lemma steady_gets {A} (f : state -> A) : steady (gets f).
Proof.
intros s. split; [discriminate|]. intros s' H. inversion H. reflexivity.
Qed.

Lemma steady_modify (f : state -> state) :
  (forall s, ok_budget (f s) = ok_budget s) -> steady (modify f).
Proof.
intros Hf s. split; [discriminate|]. intros s' H. inversion H. apply Hf.
Qed.

Lemma steady_emit (e : event) : steady (emit e).
Proof. apply steady_modify. reflexivity. Qed.

Lemma steady_bind {A B} (m : M A) (k : A -> M B) :
  steady m -> (forall a, steady (k a)) -> steady (bind m k).
Proof.
intros Hm Hk s. unfold bind. destruct (Hm s) as [Hf Hb].
destruct (m s) as [a s1|e s1|s1|] eqn:E; try contradiction.
- destruct (Hk a s1) as [Hf1 Hb1]. split; [exact Hf1|].
  intros s' H. rewrite (Hb1 s' H). apply Hb. reflexivity.
- split; [discriminate|]. exact Hb.
- split; [discriminate|]. exact Hb.
Qed.

Lemma steady_port_receive (n : nat) : steady (port_receive n).
Proof.
intros s. unfold port_receive.
destruct (is_open s); [destruct (take_rx n (rx s))|];
  (split; [discriminate|]); intros s' H; inversion H; reflexivity.
Qed.

Lemma steady_service_is_ready : steady service_is_ready.
Proof.
intros s. unfold service_is_ready.
destruct (service_ready s);
  (split; [discriminate|]); intros s' H; inversion H; reflexivity.
Qed.

Lemma steady_set_parameters name v : steady (set_parameters name v).
Proof.
intros s. unfold set_parameters.
destruct (set_results s);
  (split; [discriminate|]); intros s' H; inversion H; reflexivity.
Qed.

Ltac steady_step :=
  match goal with
  | |- steady (bind _ _) => apply steady_bind; [|intros ?]
  | |- steady (ret _) => apply steady_ret
  | |- steady (lift _) => apply steady_lift
  | |- steady (gets _) => apply steady_gets
  | |- steady (emit _) => apply steady_emit
  | |- steady (RCLCPP_LOG _ _ _) => apply steady_emit
  | |- steady (sleep_for _) => apply steady_emit
  | |- steady (publish_joint_state _ _) => apply steady_emit
  | |- steady (modify (set_present_color_ _)) =>
      apply steady_modify; reflexivity
  | |- steady (port_receive _) => apply steady_port_receive
  | |- steady service_is_ready => apply steady_service_is_ready
  | |- steady (set_parameters _ _) => apply steady_set_parameters
  | |- steady (if ?b then _ else _) => destruct b
  | |- steady (match ?o with Some _ => _ | None => _ end) => destruct o
  end.

Lemma requestforChangeColor_steady (color : byte) :
  steady (requestforChangeColor color).
Proof.
unfold requestforChangeColor. cbv zeta. repeat steady_step.
Qed.

Lemma reopenPort_budget (fuel : nat) :
  forall s s',
    reopenPort fuel s = Ret tt s' -> (ok_budget s' <= ok_budget s)%nat.
Proof.
induction fuel as [|fuel IH]; intros s s' Hr; [discriminate Hr|].
rewrite reopenPort_step in Hr. cbv zeta in Hr.
destruct (hd false (open_results s)).
- inversion Hr; subst s'. destruct (is_open s); state_simpl; lia.
- destruct (ok_budget s) as [|k] eqn:Ek.
  + inversion Hr; subst s'. destruct (is_open s); state_simpl; lia.
  + apply IH in Hr. revert Hr. destruct (is_open s); state_simpl; lia.
Qed.

(** One pass of the loop, with fuel above the shutdown budget, returns or
    blocks in [receive], and does not raise the budget. *)
Lemma receiveData_body_returns (fuel : nat) (s : state) :
  (ok_budget s < fuel)%nat ->
  exists s',
    (receiveData_body fuel s = Ret tt s'
     \/ receiveData_body fuel s = Blocked s')
    /\ (ok_budget s' <= ok_budget s)%nat.
Proof.
intros Hb. unfold receiveData_body.
match goal with
| |- context [try_catch ?m ?h s] =>
    assert (Hm : steady m)
      by (repeat steady_step; apply requestforChangeColor_steady);
    destruct (Hm s) as [Hf Hk];
    unfold try_catch; destruct (m s) as [[] s1|e s1|s1|] eqn:E
end.
- exists s1. split; [left; reflexivity|].
  rewrite (Hk s1) by reflexivity. lia.
- unfold bind at 1. unfold RCLCPP_LOG at 1. unfold emit, modify at 1.
  match goal with
  | |- context [reopenPort fuel ?s2] =>
      destruct (reopenPort_returns fuel s2) as [s' Hr];
        [state_simpl; rewrite (Hk s1) by reflexivity; exact Hb|];
      exists s'; split; [left; exact Hr|];
      apply reopenPort_budget in Hr; revert Hr; state_simpl;
      rewrite (Hk s1) by reflexivity; lia
  end.
- exists s1. split; [right; reflexivity|].
  rewrite (Hk s1) by reflexivity. lia.
- contradiction.
Qed.

(** With fuel above the shutdown budget the receive loop ends: it returns
    once shutdown is signalled, or it blocks in [receive] on an exhausted
    stream. *)
Lemma receiveData_returns (fuel : nat) :
  forall s,
    (ok_budget s < fuel)%nat ->
    exists s', receiveData fuel s = Ret tt s' \/ receiveData fuel s = Blocked s'.
Proof.
induction fuel as [|fuel IH]; intros s Hb; [lia|].
destruct (ok_budget s) as [|k] eqn:Ek.
- exists s. left. cbn [receiveData]. unfold bind, rclcpp_ok.
  rewrite Ek. reflexivity.
- rewrite (receiveData_step fuel k s Ek). unfold bind.
  destruct (receiveData_body_returns fuel (set_ok_budget k s))
    as [s1 [[Hr|Hr] Hle]]; [state_simpl; lia| |]; rewrite Hr.
  + apply IH. revert Hle. state_simpl. lia.
  + exists s1. right. reflexivity.
Qed.

(* ================================================================== *)
(** * Start-up *)

(** The callback of the start-up fetch reads index 1; on a vector with one
    element per requested name that is past the end. *)
Lemma get_parameters_callback_out_of_range
      (result : list rclcpp_Parameter) (s : state) :
  length result = length startup_requested_names ->
  get_parameters_callback result s = Throw OutOfRange s.
Proof.
intros Hlen. destruct result as [|p [|q r]]; try discriminate Hlen.
reflexivity.
Qed.

(* ================================================================== *)
(** * Runs of the receive loop, to their end *)

(** Once shutdown is signalled the loop returns at its next test. *)
Lemma receiveData_on_shutdown (fuel : nat) (s : state) :
  ok_budget s = O -> receiveData (S fuel) s = Ret tt s.
Proof.
intros Hb. cbn [receiveData]. unfold bind, rclcpp_ok. rewrite Hb.
reflexivity.
Qed.

(** With fuel above the shutdown budget a run ends, and what it has added
    to the trace only decodes after a sentinel. *)
Lemma receiveData_ends (fuel : nat) (s : state) :
  (ok_budget s < fuel)%nat ->
  exists sf new,
    (receiveData fuel s = Ret tt sf \/ receiveData fuel s = Blocked sf)
    /\ trace sf = trace s ++ new
    /\ Forall sentinel_decode new.
Proof.
intros Hb. destruct (receiveData_returns fuel s Hb) as [sf Hr].
destruct (receiveData_decodes_after_sentinel fuel s sf) as [new [Ht Hn]];
  [destruct Hr as [Hr|Hr]; rewrite Hr; reflexivity|].
exists sf, new. auto.
Qed.

(** A run that starts with [n] passes taking [s] to [s1] and adding the
    events [ev]: how it ends. *)
Lemma receiveData_after_passes (n fuel : nat) (s s1 : state)
      (ev : list event) :
  receiveData (n + fuel) s = receiveData fuel s1 ->
  trace s1 = trace s ++ ev ->
  (ok_budget s1 < fuel)%nat ->
  exists sf new,
    (receiveData (n + fuel) s = Ret tt sf
     \/ receiveData (n + fuel) s = Blocked sf)
    /\ trace sf = trace s ++ ev ++ new
    /\ Forall sentinel_decode new.
Proof.
intros He Ht Hb. destruct (receiveData_ends fuel s1 Hb) as [sf [new [Hr [Hn Hf]]]].
exists sf, new. rewrite He. split; [exact Hr|]. split; [|exact Hf].
rewrite Hn, Ht, app_assoc. reflexivity.
Qed.

(** ** The outcomes of a colour-change request *)

Lemma requestforChangeColor_when_granted (color : byte) (s : state) :
  request_fails s = false ->
  requestforChangeColor color s
  = Ret tt
      (record (granted_request_events color)
         (set_present_color_ (Z_of_byte color)
            (set_set_results (tl (set_results s))
               (set_service_ready (tl (service_ready s)) s)))).
Proof.
intros Hf. unfold request_fails in Hf.
unfold requestforChangeColor. cbv zeta.
unfold bind at 1. unfold service_is_ready.
destruct (service_ready s) as [|[|] ready] eqn:Er; try discriminate Hf.
unfold bind at 1. unfold set_parameters. state_simpl.
destruct (set_results s) as [|[[|]|] results] eqn:Es; try discriminate Hf.
unfold bind at 1. unfold modify at 1. unfold RCLCPP_LOG, emit, modify.
f_equal. apply state_eq; state_simpl; try reflexivity.
rewrite <- app_assoc. reflexivity.
Qed.

Lemma requestforChangeColor_not_ready (color : byte) (s : state) :
  hd false (service_ready s) = false ->
  requestforChangeColor color s
  = Ret tt
      (record (failed_request_events color false)
         (set_service_ready (tl (service_ready s)) s)).
Proof.
intros Hr. unfold requestforChangeColor. cbv zeta.
unfold bind at 1. unfold service_is_ready.
destruct (service_ready s) as [|[|] ready] eqn:Er; try discriminate Hr;
  unfold bind at 1; unfold RCLCPP_LOG at 1; unfold emit, modify at 1;
  unfold sleep_for, emit, modify;
  f_equal; apply state_eq; state_simpl; try reflexivity;
  try (rewrite <- app_assoc; reflexivity); auto.
Qed.


(* ================================================================== *)
(** * The receive loop: resynchronization, bad checksums, colour *)

(** C3. A byte that is not [0x5A] makes the pass that reads it log one
    warning and consume that one byte, nothing else.  A run of such bytes
    at the head of the inbound stream is consumed one byte per pass, and
    the loop goes on with the byte after the run: when shutdown comes
    right after the run the loop returns with exactly the warnings logged
    and exactly the run consumed; with fuel above the shutdown budget the
    loop ends, its trace starting with the warnings.  In every run of the
    loop the decoder is only ever called on a buffer that starts with
    [0x5A]. *)
Theorem receiveData_resynchronizes
        (junk : list byte) (rest : list rx_item) (fuel : nat) (s : state) :
  is_open s = true ->
  rx s = map RxByte junk ++ rest ->
  Forall (fun b => b <> x5a) junk ->
  (length junk <= ok_budget s)%nat ->
  let s' := record (invalid_header_warnings junk)
              (set_ok_budget (ok_budget s - length junk) (set_rx rest s)) in
  (forall b rest0 fuel0 s0,
     is_open s0 = true -> rx s0 = RxByte b :: rest0 -> b <> x5a ->
     receiveData_body fuel0 s0
     = Ret tt (record [Log WARN "Invalid header: %02X" [Z_of_byte b]]
                 (set_rx rest0 s0)))
  /\ receiveData (length junk + fuel) s = receiveData fuel s'
  /\ (ok_budget s = length junk ->
      receiveData (length junk + S fuel) s = Ret tt s')
  /\ ((ok_budget s < length junk + fuel)%nat ->
      exists sf new,
        (receiveData (length junk + fuel) s = Ret tt sf
         \/ receiveData (length junk + fuel) s = Blocked sf)
        /\ trace sf = trace s ++ invalid_header_warnings junk ++ new
        /\ Forall sentinel_decode new)
  /\ length (invalid_header_warnings junk) = length junk
  /\ (forall fuel', emits_only sentinel_decode (receiveData fuel')).
Proof.
intros Ho Hr Hj Hb s'.
split; [intros b rest0 fuel0 s0; apply receiveData_body_invalid_header|].
split; [apply receiveData_skips_junk; assumption|].
split.
{ intros Hk.
  rewrite (receiveData_skips_junk junk rest (S fuel) s Ho Hr Hj Hb).
  apply receiveData_on_shutdown. unfold s'. state_simpl. lia. }
split.
{ intros Hf.
  apply (receiveData_after_passes (length junk) fuel s s').
  - apply receiveData_skips_junk; assumption.
  - reflexivity.
  - unfold s'. state_simpl. lia. }
split; [apply length_map|].
apply receiveData_decodes_after_sentinel.
Qed.

(** C4. A complete frame whose checksum does not verify is consumed
    whole by the pass that reads it: the pass logs "CRC error!", publishes
    nothing and changes nothing else.  The loop then goes on with the byte
    after the frame: when shutdown comes right after the pass the loop
    returns with only that error logged; when a byte other than [0x5A]
    follows, the next pass reads that byte as a header; with fuel above
    the shutdown budget the loop ends, its trace starting with the decoder
    call and the error.  No run of the loop ever lets an exception
    out. *)
Theorem receiveData_discards_bad_checksum
        (body : list byte) (rest : list rx_item) (fuel : nat) (s : state) :
  is_open s = true ->
  rx s = RxByte x5a :: map RxByte body ++ rest ->
  length body = 11%nat ->
  crc16.Verify_CRC16_Check_Sum (x5a :: body) = Ok false ->
  let s' := record [Call_fromVector (x5a :: body); Log ERROR "CRC error!" []]
              (set_rx rest s) in
  receiveData_body fuel s = Ret tt s'
  /\ filter is_PublishJointState
       [Call_fromVector (x5a :: body); Log ERROR "CRC error!" []] = []
  /\ (forall n, ok_budget s = S n ->
        receiveData (S fuel) s = receiveData fuel (set_ok_budget n s'))
  /\ (ok_budget s = 1%nat ->
      receiveData (S (S fuel)) s = Ret tt (set_ok_budget O s'))
  /\ (forall b rest',
        rest = RxByte b :: rest' -> b <> x5a -> ok_budget s = 2%nat ->
        receiveData (S (S (S fuel))) s
        = Ret tt (record [Log WARN "Invalid header: %02X" [Z_of_byte b]]
                    (set_rx rest' (set_ok_budget O s'))))
  /\ ((0 < ok_budget s < S fuel)%nat ->
      exists sf new,
        (receiveData (S fuel) s = Ret tt sf
         \/ receiveData (S fuel) s = Blocked sf)
        /\ trace sf
           = trace s
             ++ [Call_fromVector (x5a :: body); Log ERROR "CRC error!" []]
             ++ new
        /\ Forall sentinel_decode new)
  /\ (forall fuel' s0, throws (receiveData fuel' s0) = false).
Proof.
intros Ho Hr Hlen Hcrc s'.
destruct (fromVector_ok (x5a :: body)) as [p [Hp _]];
  [simpl; rewrite Hlen; reflexivity|].
assert (Hbody : forall s0, is_open s0 = true -> rx s0 = rx s ->
          receiveData_body fuel s0
          = Ret tt (record [Call_fromVector (x5a :: body);
                            Log ERROR "CRC error!" []] (set_rx rest s0))).
{ intros s0 Ho0 Hr0.
  apply (receiveData_body_frame body rest fuel s0 p false);
    try assumption. rewrite Hr0. exact Hr. }
assert (Hstep : forall n, ok_budget s = S n ->
          forall f, receiveData (S f) s
                    = receiveData f (set_ok_budget n s')).
{ intros n Hn f. rewrite (receiveData_step _ n s Hn). unfold bind at 1.
  assert (Hb' : receiveData_body f (set_ok_budget n s)
                = Ret tt (set_ok_budget n s')).
  { destruct (fromVector_ok (x5a :: body)) as [p' [Hp' _]];
      [simpl; rewrite Hlen; reflexivity|].
    apply (receiveData_body_frame body rest f (set_ok_budget n s) p' false);
      try assumption. }
  rewrite Hb'. reflexivity. }
split; [apply Hbody; auto|]. split; [reflexivity|].
split; [intros n Hn; apply Hstep; exact Hn|].
split.
{ intros H1. rewrite (Hstep O H1). apply receiveData_on_shutdown.
  reflexivity. }
split.
{ intros b rest' Hrest Hb H2. rewrite (Hstep 1%nat H2).
  rewrite (receiveData_step (S fuel) O) by reflexivity.
  unfold bind at 1.
  rewrite (receiveData_body_invalid_header b rest')
    by (unfold s'; state_simpl; assumption).
  rewrite receiveData_on_shutdown by reflexivity.
  reflexivity. }
split.
{ intros [Hpos Hf]. destruct (ok_budget s) as [|n] eqn:En; [lia|].
  change (S fuel) with (1 + fuel)%nat.
  apply (receiveData_after_passes 1 fuel s (set_ok_budget n s')).
  - apply (Hstep n); reflexivity.
  - reflexivity.
  - state_simpl. lia. }
intros fuel' s0. apply receiveData_no_throw.
Qed.


(* ================================================================== *)
(** * More on the receive loop *)

Lemma take_rx_fault (part : list byte) (rest : list rx_item) :
  forall n, (length part < n)%nat ->
            take_rx n (map RxByte part ++ RxError :: rest) = RxFault rest.
Proof.
induction part as [|b part IH]; intros n Hn; (destruct n as [|n]; [simpl in Hn; lia|]).
- reflexivity.
- simpl. rewrite IH by (simpl in Hn; lia). reflexivity.
Qed.

(** X1. An I/O error raised by either read of a pass (the header read, or
    the read of the 11 bytes after a header [0x5A]) ends the pass: the
    bytes read so far are dropped without being decoded, the error is
    logged, and the pass is [reopenPort]. *)
Theorem receiveData_body_io_error
        (pre : list byte) (rest : list rx_item) (fuel : nat) (s : state) :
  is_open s = true ->
  rx s = map RxByte pre ++ RxError :: rest ->
  pre = [] \/ (nth 0 pre x00 = x5a /\ (1 <= length pre <= 11)%nat) ->
  receiveData_body fuel s
  = reopenPort fuel
      (record [Log ERROR "Error while receiving data: %s" []]
         (set_rx rest s)).
Proof.
intros Ho Hr [Hpre|[Hh Hlen]].
- subst pre. simpl in Hr.
  unfold receiveData_body, try_catch. unfold bind at 1. unfold port_receive.
  rewrite Ho, Hr. cbn [take_rx]. reflexivity.
- destruct pre as [|h part]; [simpl in Hlen; lia|].
  simpl in Hh. subst h. simpl in Hlen, Hr.
  unfold receiveData_body, try_catch. unfold bind at 1.
  rewrite (port_receive_header x5a _ s Ho Hr). cbn [nth].
  change (Byte.eqb x5a x5a) with true. cbv iota.
  unfold bind at 1. unfold port_receive. state_simpl. rewrite Ho.
  change (sizeof_ReceivePacket - 1)%nat with 11%nat.
  rewrite take_rx_fault by lia.
  unfold bind at 1. unfold RCLCPP_LOG, emit, modify.
  reflexivity.
Qed.

Lemma verified_frame_shape (f : list byte) :
  verified_frame f ->
  exists body p,
    f = x5a :: body /\ length body = 11%nat
    /\ fromVector f = Ok p
    /\ rp_robot_color p = frame_color f
    /\ rp_pitch p = frame_pitch f
    /\ rp_yaw p = frame_yaw f.
Proof.
intros [Hlen [Hh _]].
destruct f as [|h body]; [discriminate Hlen|]. simpl in Hh. subst h.
pose proof (fromVector_cases (x5a :: body)) as Hc.
destruct (fromVector (x5a :: body)) as [p|e].
- exists body, p. destruct Hc as [_ [_ [Hc [Hp [Hy _]]]]].
  repeat split; try assumption. simpl in Hlen. injection Hlen. auto.
- destruct Hc as [Hc _]. rewrite Hlen in Hc. discriminate Hc.
Qed.

(** One pass over a verified frame. *)
Lemma receiveData_body_verified
      (f : list byte) (rest : list rx_item) (fuel : nat) (s : state) :
  is_open s = true ->
  rx s = map RxByte f ++ rest ->
  verified_frame f ->
  receiveData_body fuel s
  = if Z_of_byte (frame_color f) =? present_color_ s
    then Ret tt (record (telemetry_of f) (set_rx rest s))
    else requestforChangeColor (frame_color f)
           (record (telemetry_of f) (set_rx rest s)).
Proof.
intros Ho Hr Hv.
destruct (verified_frame_shape f Hv) as [body [p [Hf [Hlen [Hp [Hc [Hpi Hy]]]]]]].
destruct Hv as [_ [_ Hcrc]].
unfold telemetry_of. rewrite <- Hc, <- Hpi, <- Hy. subst f.
apply (receiveData_body_frame body rest fuel s p true); assumption.
Qed.

Lemma receiveData_over_frames (frames : list (list byte)) :
  forall (rest : list rx_item) (fuel : nat) (s : state),
    is_open s = true ->
    rx s = map RxByte (concat frames) ++ rest ->
    Forall (fun f => verified_frame f
                     /\ Z_of_byte (frame_color f) = present_color_ s) frames ->
    (length frames <= ok_budget s)%nat ->
    receiveData (length frames + fuel) s
    = receiveData fuel
        (record (flat_map telemetry_of frames)
           (set_ok_budget (ok_budget s - length frames) (set_rx rest s))).
Proof.
induction frames as [|f frames IH]; intros rest fuel s Ho Hr Hall Hb.
- simpl in *. f_equal. apply state_eq; state_simpl; auto.
  + lia.
  + rewrite app_nil_r. reflexivity.
- inversion Hall as [|? ? [Hv Hcol] Hall']; subst.
  cbn [length] in Hb. destruct (ok_budget s) as [|k] eqn:Ek; [lia|].
  cbn [length Nat.add concat] in *.
  rewrite map_app, <- app_assoc in Hr.
  rewrite (receiveData_step _ k s Ek). unfold bind at 1.
  rewrite (receiveData_body_verified f (map RxByte (concat frames) ++ rest))
    by (state_simpl; assumption).
  state_simpl. rewrite Hcol, Z.eqb_refl.
  rewrite (IH rest fuel) by (state_simpl; auto; lia).
  f_equal. apply state_eq; state_simpl; try reflexivity.
  cbn [flat_map]. rewrite <- app_assoc. reflexivity.
Qed.

(** X2. A verified frame whose colour is the cached one is consumed by
    one pass, which decodes it and publishes its pitch and yaw and does
    nothing else (no log, no request).  A run of such frames is consumed
    one frame per pass, in order, and the loop goes on with what follows
    the run: when shutdown comes right after the run the loop returns
    with exactly the telemetry of the run added to the trace; with fuel
    above the shutdown budget the loop ends, its trace starting with that
    telemetry. *)
Theorem receiveData_publishes_each_frame
        (frames : list (list byte)) (rest : list rx_item)
        (fuel : nat) (s : state) :
  is_open s = true ->
  rx s = map RxByte (concat frames) ++ rest ->
  Forall (fun f => verified_frame f
                   /\ Z_of_byte (frame_color f) = present_color_ s) frames ->
  (length frames <= ok_budget s)%nat ->
  let s' := record (flat_map telemetry_of frames)
              (set_ok_budget (ok_budget s - length frames) (set_rx rest s)) in
  (forall f rest0 fuel0 s0,
     is_open s0 = true -> rx s0 = map RxByte f ++ rest0 ->
     verified_frame f -> Z_of_byte (frame_color f) = present_color_ s0 ->
     receiveData_body fuel0 s0
     = Ret tt (record (telemetry_of f) (set_rx rest0 s0)))
  /\ receiveData (length frames + fuel) s = receiveData fuel s'
  /\ (ok_budget s = length frames ->
      receiveData (length frames + S fuel) s = Ret tt s')
  /\ ((ok_budget s < length frames + fuel)%nat ->
      exists sf new,
        (receiveData (length frames + fuel) s = Ret tt sf
         \/ receiveData (length frames + fuel) s = Blocked sf)
        /\ trace sf = trace s ++ flat_map telemetry_of frames ++ new
        /\ Forall sentinel_decode new)
  /\ map (fun f => PublishJointState (frame_pitch f) (frame_yaw f)) frames
     = filter is_PublishJointState (flat_map telemetry_of frames).
Proof.
intros Ho Hr Hall Hb s'.
split.
{ intros f rest0 fuel0 s0 Ho0 Hr0 Hv0 Hc0.
  rewrite (receiveData_body_verified f rest0 fuel0 s0 Ho0 Hr0 Hv0).
  apply Z.eqb_eq in Hc0. rewrite Hc0. reflexivity. }
split; [apply receiveData_over_frames; assumption|].
split.
{ intros Hk.
  rewrite (receiveData_over_frames frames rest (S fuel) s Ho Hr Hall Hb).
  apply receiveData_on_shutdown. unfold s'. state_simpl. lia. }
split.
{ intros Hf.
  apply (receiveData_after_passes (length frames) fuel s s').
  - apply receiveData_over_frames; assumption.
  - reflexivity.
  - unfold s'. state_simpl. lia. }
clear. induction frames as [|f frames IH]; simpl; [|rewrite IH]; reflexivity.
Qed.

(** X3. While [present_color_] is not a byte value, as it is from
    construction (-1) until a request succeeds, every verified frame
    leads to a call of [requestforChangeColor] with the colour of the
    frame. *)
Theorem receiveData_body_unknown_color
        (f : list byte) (rest : list rx_item) (fuel : nat) (s : state) :
  is_open s = true ->
  rx s = map RxByte f ++ rest ->
  verified_frame f ->
  present_color_ s < 0 \/ 255 < present_color_ s ->
  receiveData_body fuel s
  = requestforChangeColor (frame_color f)
      (record (telemetry_of f) (set_rx rest s)).
Proof.
intros Ho Hr Hv Hpc.
rewrite (receiveData_body_verified f rest fuel s Ho Hr Hv).
pose proof (Z_of_byte_range (frame_color f)) as Hrange.
destruct (Z_of_byte (frame_color f) =? present_color_ s) eqn:E;
  [apply Z.eqb_eq in E; lia | reflexivity].
Qed.

(* ================================================================== *)
(** * More on the colour-change request *)

(** X4. A request that goes through stores the colour of the robot in
    [present_color_], after one [set_parameters] that sets the remote
    [detect_color] to the opposite colour (1 for colour 0, 0 for any
    other), and logs the success. *)
Theorem requestforChangeColor_granted (color : byte) (s : state) :
  request_fails s = false ->
  requestforChangeColor color s
  = Ret tt
      (record (granted_request_events color)
         (set_present_color_ (Z_of_byte color)
            (set_set_results (tl (set_results s))
               (set_service_ready (tl (service_ready s)) s)))).
Proof.
intros Hf. apply requestforChangeColor_when_granted. exact Hf.
Qed.


Lemma all_false_skipn (l : list bool) (n : nat) :
  Forall (fun b => b = false) l -> hd false (skipn n l) = false.
Proof.
intros Hl. revert n. induction Hl as [|b l Hb Hl IH]; intros [|n]; simpl; auto.
Qed.

Lemma receiveData_over_unanswered (frames : list (list byte)) :
  forall (rest : list rx_item) (fuel : nat) (s : state),
    is_open s = true ->
    rx s = map RxByte (concat frames) ++ rest ->
    Forall (fun b => b = false) (service_ready s) ->
    Forall (fun f => verified_frame f
                     /\ Z_of_byte (frame_color f) <> present_color_ s) frames ->
    (length frames <= ok_budget s)%nat ->
    receiveData (length frames + fuel) s
    = receiveData fuel
        (record (flat_map unanswered_frame_events frames)
           (set_service_ready (skipn (length frames) (service_ready s))
              (set_ok_budget (ok_budget s - length frames) (set_rx rest s)))).
Proof.
induction frames as [|f frames IH]; intros rest fuel s Ho Hr Hsv Hall Hb.
- simpl in *. f_equal. apply state_eq; state_simpl; auto.
  + lia.
  + rewrite app_nil_r. reflexivity.
- inversion Hall as [|? ? [Hv Hcol] Hall']; subst.
  cbn [length] in Hb. destruct (ok_budget s) as [|k] eqn:Ek; [lia|].
  cbn [length Nat.add concat] in *.
  rewrite map_app, <- app_assoc in Hr.
  rewrite (receiveData_step _ k s Ek). unfold bind at 1.
  rewrite (receiveData_body_verified f (map RxByte (concat frames) ++ rest))
    by (state_simpl; assumption).
  state_simpl. apply Z.eqb_neq in Hcol. rewrite Hcol.
  rewrite requestforChangeColor_not_ready
    by (state_simpl; apply (all_false_skipn _ 0 Hsv)).
  rewrite (IH rest fuel).
  + f_equal. apply state_eq; state_simpl; try reflexivity.
    * destruct (service_ready s); cbn [tl]; [rewrite !skipn_nil|];
        reflexivity.
    * cbn [flat_map]. unfold unanswered_frame_events at 2.
      rewrite <- !app_assoc. reflexivity.
  + state_simpl. exact Ho.
  + state_simpl. reflexivity.
  + state_simpl. destruct (service_ready s) as [|b l]; simpl;
      [constructor | inversion Hsv; assumption].
  + state_simpl. exact Hall'.
  + state_simpl. lia.
Qed.

(** X6. While the parameter service is not ready, every verified frame of
    another colour costs one refused request: the pass that reads it
    publishes it, logs one error and sleeps one second, sends nothing to
    the service and leaves [present_color_] as it was, so the next such
    frame asks again.  When shutdown comes right after a run of such
    frames the loop returns with exactly these events added to the trace;
    with fuel above the shutdown budget the loop ends, its trace starting
    with these events. *)
Theorem receiveData_asks_again_each_frame
        (frames : list (list byte)) (rest : list rx_item)
        (fuel : nat) (s : state) :
  is_open s = true ->
  rx s = map RxByte (concat frames) ++ rest ->
  Forall (fun b => b = false) (service_ready s) ->
  Forall (fun f => verified_frame f
                   /\ Z_of_byte (frame_color f) <> present_color_ s) frames ->
  (length frames <= ok_budget s)%nat ->
  let s' := record (flat_map unanswered_frame_events frames)
              (set_service_ready (skipn (length frames) (service_ready s))
                 (set_ok_budget (ok_budget s - length frames)
                    (set_rx rest s))) in
  (forall f rest0 fuel0 s0,
     is_open s0 = true -> rx s0 = map RxByte f ++ rest0 ->
     verified_frame f -> Z_of_byte (frame_color f) <> present_color_ s0 ->
     hd false (service_ready s0) = false ->
     receiveData_body fuel0 s0
     = Ret tt (record (unanswered_frame_events f)
                 (set_service_ready (tl (service_ready s0))
                    (set_rx rest0 s0))))
  /\ receiveData (length frames + fuel) s = receiveData fuel s'
  /\ (ok_budget s = length frames ->
      receiveData (length frames + S fuel) s = Ret tt s')
  /\ ((ok_budget s < length frames + fuel)%nat ->
      exists sf new,
        (receiveData (length frames + fuel) s = Ret tt sf
         \/ receiveData (length frames + fuel) s = Blocked sf)
        /\ trace sf = trace s ++ flat_map unanswered_frame_events frames ++ new
        /\ Forall sentinel_decode new)
  /\ present_color_ s' = present_color_ s
  /\ filter is_Sleep (flat_map unanswered_frame_events frames)
     = repeat (Sleep 1) (length frames)
  /\ filter is_SetParameters (flat_map unanswered_frame_events frames) = [].
Proof.
intros Ho Hr Hsv Hall Hb s'.
split.
{ intros f rest0 fuel0 s0 Ho0 Hr0 Hv0 Hc0 Hn0.
  rewrite (receiveData_body_verified f rest0 fuel0 s0 Ho0 Hr0 Hv0).
  apply Z.eqb_neq in Hc0. rewrite Hc0.
  rewrite requestforChangeColor_not_ready by (state_simpl; exact Hn0).
  f_equal. apply state_eq; state_simpl; try reflexivity.
  unfold unanswered_frame_events. rewrite <- !app_assoc. reflexivity. }
split; [apply receiveData_over_unanswered; assumption|].
split.
{ intros Hk.
  rewrite (receiveData_over_unanswered frames rest (S fuel) s Ho Hr Hsv Hall Hb).
  apply receiveData_on_shutdown. unfold s'. state_simpl. lia. }
split.
{ intros Hf.
  apply (receiveData_after_passes (length frames) fuel s s').
  - apply receiveData_over_unanswered; assumption.
  - reflexivity.
  - unfold s'. state_simpl. lia. }
split; [reflexivity|].
split; clear; induction frames as [|f frames IH]; simpl;
  [|rewrite IH| |rewrite IH]; reflexivity.
Qed.

(* ================================================================== *)
(** * What each path leaves alone *)

Lemma receiveData_body_receive_events (fuel : nat) :
  emits_only receive_event (receiveData_body fuel).
Proof.
unfold receiveData_body. repeat emits_step.
- apply emits_only_emit. exact I.
- apply (emits_only_weaken request_event);
    [intros [] H; simpl in *; tauto | apply requestforChangeColor_emits].
- apply (emits_only_weaken link_event);
    [intros [] H; simpl in *; tauto | apply reopenPort_emits].
Qed.

(** X7. However a run of the receive loop ends, what it has added to the
    trace contains no write to the serial port and no latency message. *)
Theorem receiveData_never_sends (fuel : nat) :
  emits_only receive_event (receiveData fuel).
Proof.
induction fuel as [|fuel IH]; cbn [receiveData]; repeat emits_step.
- apply receiveData_body_receive_events.
- exact IH.
Qed.

(** X8. However a call of [sendData] ends, what it has added to the trace
    contains no joint state, no call of the decoder and no request to the
    parameter service. *)
Theorem sendData_never_publishes_telemetry (fuel : nat) (msg : Target) :
  emits_only send_event (sendData fuel msg).
Proof.
unfold sendData. repeat emits_step.
- apply emits_only_port_send. intros b. exact I.
- apply (emits_only_weaken link_event);
    [intros [] H; simpl in *; tauto | apply reopenPort_emits].
Qed.

(** ** The cached colour *)

Lemma carries_color_kept {A} (Q : Z -> Prop) (m : M A) :
  (forall s s', final_state (m s) = Some s' ->
                present_color_ s' = present_color_ s) ->
  carries_color Q m.
Proof.
intros H s s' HQ Hfin. rewrite (H s s' Hfin). exact HQ.
Qed.

Lemma carries_color_ret {A} (Q : Z -> Prop) (a : A) : carries_color Q (ret a).
Proof.
apply carries_color_kept. intros s s' H. inversion H. reflexivity.
Qed.

Lemma carries_color_lift {A} (Q : Z -> Prop) (r : result A) :
  carries_color Q (lift r).
Proof.
apply carries_color_kept. intros s s' H.
destruct r; inversion H; reflexivity.
Qed.

Lemma carries_color_gets {A} (Q : Z -> Prop) (f : state -> A) :
  carries_color Q (gets f).
Proof.
apply carries_color_kept. intros s s' H. inversion H. reflexivity.
Qed.

Lemma carries_color_out_of_fuel {A} (Q : Z -> Prop) :
  carries_color Q (@out_of_fuel A).
Proof. intros s s' _ H. discriminate H. Qed.

Lemma carries_color_emit (Q : Z -> Prop) (e : event) :
  carries_color Q (emit e).
Proof.
apply carries_color_kept. intros s s' H. inversion H. reflexivity.
Qed.

Lemma carries_color_bind {A B} (Q : Z -> Prop) (m : M A) (k : A -> M B) :
  carries_color Q m -> (forall a, carries_color Q (k a)) ->
  carries_color Q (bind m k).
Proof.
intros Hm Hk s s' HQ Hfin. unfold bind in Hfin.
destruct (m s) as [a s1|e s1|s1|] eqn:E.
- apply (Hk a s1 s'); [|exact Hfin]. apply (Hm s s1 HQ). rewrite E. reflexivity.
- apply (Hm s s' HQ). rewrite E. exact Hfin.
- apply (Hm s s' HQ). rewrite E. exact Hfin.
- discriminate Hfin.
Qed.

Lemma carries_color_try_catch {A} (Q : Z -> Prop)
      (m : M A) (h : exn -> M A) :
  carries_color Q m -> (forall e, carries_color Q (h e)) ->
  carries_color Q (try_catch m h).
Proof.
intros Hm Hh s s' HQ Hfin. unfold try_catch in Hfin.
destruct (m s) as [a s1|e s1|s1|] eqn:E.
- apply (Hm s s' HQ). rewrite E. exact Hfin.
- apply (Hh e s1 s'); [|exact Hfin]. apply (Hm s s1 HQ). rewrite E. reflexivity.
- apply (Hm s s' HQ). rewrite E. exact Hfin.
- discriminate Hfin.
Qed.

Lemma carries_color_rclcpp_ok (Q : Z -> Prop) : carries_color Q rclcpp_ok.
Proof.
apply carries_color_kept. intros s s' H. unfold rclcpp_ok in H.
destruct (ok_budget s); inversion H; reflexivity.
Qed.

Lemma carries_color_port_close (Q : Z -> Prop) : carries_color Q port_close.
Proof.
apply carries_color_kept. intros s s' H. inversion H. reflexivity.
Qed.

Lemma carries_color_port_open (Q : Z -> Prop) : carries_color Q port_open.
Proof.
apply carries_color_kept. intros s s' H. unfold port_open in H.
cbv zeta in H. destruct (hd false (open_results s)); inversion H; reflexivity.
Qed.

Lemma carries_color_port_receive (Q : Z -> Prop) (n : nat) :
  carries_color Q (port_receive n).
Proof.
apply carries_color_kept. intros s s' H. unfold port_receive in H.
destruct (is_open s); [destruct (take_rx n (rx s))|];
  inversion H; reflexivity.
Qed.

Lemma carries_color_port_send (Q : Z -> Prop) (data : list byte) :
  carries_color Q (port_send data).
Proof.
apply carries_color_kept. intros s s' H. unfold port_send in H.
cbv zeta in H.
destruct (is_open s); destruct (hd true (send_results s));
  inversion H; reflexivity.
Qed.

Lemma carries_color_service_is_ready (Q : Z -> Prop) :
  carries_color Q service_is_ready.
Proof.
apply carries_color_kept. intros s s' H. unfold service_is_ready in H.
destruct (service_ready s); inversion H; reflexivity.
Qed.

Lemma carries_color_set_parameters (Q : Z -> Prop) name v :
  carries_color Q (set_parameters name v).
Proof.
apply carries_color_kept. intros s s' H. unfold set_parameters in H.
destruct (set_results s); inversion H; reflexivity.
Qed.

Lemma carries_color_set_present_color_ (Q : Z -> Prop) (v : Z) :
  Q v -> carries_color Q (modify (set_present_color_ v)).
Proof.
intros Hv s s' _ H. inversion H. exact Hv.
Qed.

Ltac carries_step :=
  match goal with
  | |- carries_color _ (bind _ _) => apply carries_color_bind; [|intros ?]
  | |- carries_color _ (try_catch _ _) =>
      apply carries_color_try_catch; [|intros ?]
  | |- carries_color _ (ret _) => apply carries_color_ret
  | |- carries_color _ (lift _) => apply carries_color_lift
  | |- carries_color _ (gets _) => apply carries_color_gets
  | |- carries_color _ out_of_fuel => apply carries_color_out_of_fuel
  | |- carries_color _ (emit _) => apply carries_color_emit
  | |- carries_color _ (RCLCPP_LOG _ _ _) => apply carries_color_emit
  | |- carries_color _ (sleep_for _) => apply carries_color_emit
  | |- carries_color _ (publish_joint_state _ _) => apply carries_color_emit
  | |- carries_color _ publish_latency => apply carries_color_emit
  | |- carries_color _ rclcpp_ok => apply carries_color_rclcpp_ok
  | |- carries_color _ port_is_open => apply carries_color_gets
  | |- carries_color _ port_close => apply carries_color_port_close
  | |- carries_color _ port_open => apply carries_color_port_open
  | |- carries_color _ (port_receive _) => apply carries_color_port_receive
  | |- carries_color _ (port_send _) => apply carries_color_port_send
  | |- carries_color _ service_is_ready => apply carries_color_service_is_ready
  | |- carries_color _ (set_parameters _ _) =>
      apply carries_color_set_parameters
  | |- carries_color _ (if ?b then _ else _) => destruct b
  | |- carries_color _ (match ?o with Some _ => _ | None => _ end) =>
      destruct o
  end.

Lemma reopenPort_carries_color (Q : Z -> Prop) (fuel : nat) :
  carries_color Q (reopenPort fuel).
Proof.
induction fuel as [|fuel IH]; cbn [reopenPort]; repeat carries_step.
exact IH.
Qed.

Lemma sendData_carries_color (Q : Z -> Prop) (fuel : nat) (msg : Target) :
  carries_color Q (sendData fuel msg).
Proof.
unfold sendData. repeat carries_step. apply reopenPort_carries_color.
Qed.

Lemma requestforChangeColor_carries_color (Q : Z -> Prop) (color : byte) :
  Q (Z_of_byte color) -> carries_color Q (requestforChangeColor color).
Proof.
intros Hc. unfold requestforChangeColor. cbv zeta. repeat carries_step.
apply carries_color_set_present_color_. exact Hc.
Qed.

Lemma receiveData_carries_color (Q : Z -> Prop) (fuel : nat) :
  (forall b : byte, Q (Z_of_byte b)) -> carries_color Q (receiveData fuel).
Proof.
intros HQ.
assert (Hbody : forall f, carries_color Q (receiveData_body f)).
{ intros f. unfold receiveData_body. repeat carries_step.
  - apply requestforChangeColor_carries_color. apply HQ.
  - apply reopenPort_carries_color. }
induction fuel as [|fuel IH]; cbn [receiveData]; repeat carries_step.
- apply Hbody.
- exact IH.
Qed.

(** X9. With fuel above the shutdown budget, a run of the receive loop
    ends (it returns after shutdown, or blocks in [receive] on a silent
    link), and [present_color_] is then what it was or a byte value:
    the loop only ever stores the colour byte of a frame. *)
Theorem receiveData_stores_only_colour_bytes (fuel : nat) (s : state) :
  (ok_budget s < fuel)%nat ->
  exists s',
    (receiveData fuel s = Ret tt s' \/ receiveData fuel s = Blocked s')
    /\ (present_color_ s' = present_color_ s
        \/ 0 <= present_color_ s' <= 255).
Proof.
intros Hb. destruct (receiveData_returns fuel s Hb) as [s' Hr].
exists s'. split; [exact Hr|].
apply (receiveData_carries_color
         (fun c => c = present_color_ s \/ 0 <= c <= 255) fuel) with (s := s).
- intros b. right. pose proof (Z_of_byte_range b). lia.
- left. reflexivity.
- destruct Hr as [Hr|Hr]; rewrite Hr; reflexivity.
Qed.

(* ================================================================== *)
(** * More on the send path *)

Lemma sendData_on_write_success (fuel : nat) (msg : Target) (s : state)
      (data : list byte) :
  write_fails s = false ->
  sendData_frame (present_color_ s) msg = Ok data ->
  sendData fuel msg s
  = Ret tt (record [PortSend data true; PublishLatency]
              (set_send_results (tl (send_results s)) s)).
Proof.
intros Hw Hd. unfold write_fails in Hw. apply negb_false_iff in Hw.
pose proof Hw as Ho. apply andb_true_iff in Ho. destruct Ho as [Ho _].
unfold sendData, try_catch. unfold bind at 1. unfold gets. cbv beta iota.
unfold bind at 1. rewrite Hd. cbn [lift]. unfold ret. cbv beta iota.
unfold bind at 1. unfold port_send. cbv zeta. rewrite Hw, Ho.
unfold publish_latency, emit, modify.
f_equal. apply state_eq; state_simpl; try reflexivity.
rewrite <- app_assoc. reflexivity.
Qed.

(** X10. With fuel above the shutdown budget, every call of [sendData]
    returns normally, having attempted exactly one write, of the frame
    built from the message and the cached colour, and leaves
    [present_color_] as it was. *)
Theorem sendData_writes_once (fuel : nat) (msg : Target) (s : state) :
  (ok_budget s < fuel)%nat ->
  exists data s' new,
    sendData_frame (present_color_ s) msg = Ok data
    /\ sendData fuel msg s = Ret tt s'
    /\ trace s' = trace s ++ new
    /\ filter is_PortSend new = [PortSend data (negb (write_fails s))]
    /\ present_color_ s' = present_color_ s.
Proof.
intros Hb.
destruct (sendData_frame_ok (present_color_ s) msg) as [data Hd].
assert (Hcol : forall s', sendData fuel msg s = Ret tt s' ->
                          present_color_ s' = present_color_ s).
{ intros s' Hs.
  apply (sendData_carries_color (fun c => c = present_color_ s) fuel msg s s');
    [reflexivity | rewrite Hs; reflexivity]. }
destruct (write_fails s) eqn:Hw.
- pose proof (sendData_on_write_failure fuel msg s data Hw Hd) as Hs.
  match type of Hs with
  | _ = reopenPort _ ?s1 =>
      destruct (reopenPort_returns fuel s1) as [s' Hr];
        [destruct (is_open s); state_simpl; exact Hb|]
  end.
  destruct (reopenPort_trace _ _ _ Hr) as [new [Htr Hall]].
  rewrite Hr in Hs.
  exists data, s'. eexists.
  split; [exact Hd|]. split; [exact Hs|].
  split; [|split; [|apply Hcol; exact Hs]].
  + rewrite Htr. destruct (is_open s); state_simpl;
      repeat rewrite <- app_assoc; reflexivity.
  + cbn [app filter is_PortSend negb]. f_equal.
    apply (filter_none _ link_event); [|exact Hall].
    intros [] H; simpl in *; tauto.
- pose proof (sendData_on_write_success fuel msg s data Hw Hd) as Hs.
  eexists data, _, _.
  split; [exact Hd|]. split; [exact Hs|].
  split; [state_simpl; reflexivity|].
  split; [reflexivity|]. apply Hcol. exact Hs.
Qed.

Lemma Verify_of_appended (payload : list byte) :
  crc16.Verify_CRC16_Check_Sum
    (payload ++ le_bytes 2 (crc16.compute payload)) = Ok true.
Proof.
unfold crc16.Verify_CRC16_Check_Sum.
rewrite length_app, length_le_bytes.
destruct (length payload + 2 <? 2)%nat eqn:E; [apply Nat.ltb_lt in E; lia|].
cbv zeta.
replace (length payload + 2 - 2)%nat with (length payload) by lia.
rewrite firstn_app_exact.
replace (length payload + 2 - 1)%nat with (length payload + 1)%nat by lia.
rewrite <- le_bytes_checksum.
assert (N0 : forall r d, nth (length payload) (payload ++ r) d = nth 0 r d)
  by (intros r d; rewrite app_nth2, Nat.sub_diag by lia; reflexivity).
assert (N1 : forall r d,
          nth (length payload + 1) (payload ++ r) d = nth 1 r d)
  by (intros r d; rewrite app_nth2_plus; reflexivity).
rewrite N0, N1. cbn [nth].
rewrite !Byte.byte_dec_lb by reflexivity. reflexivity.
Qed.

(** X11. Every frame [sendData] builds passes the check the receive side
    applies: it has the size of [SendPacket] and its checksum verifies. *)
Theorem sendData_frame_verifies (present_color : Z) (msg : Target) :
  exists data,
    sendData_frame present_color msg = Ok data
    /\ length data = sizeof_SendPacket
    /\ crc16.Verify_CRC16_Check_Sum data = Ok true.
Proof.
unfold sendData_frame.
match goal with
| |- context [crc16.Append_CRC16_Check_Sum ?img] => set (image := img)
end.
assert (Hlen : length image = 29%nat) by reflexivity.
rewrite Append_spec by (rewrite Hlen; lia).
set (payload := firstn (length image - 2) image).
assert (Hp : length payload = 27%nat)
  by (unfold payload; rewrite length_firstn, Hlen; reflexivity).
exists (payload ++ le_bytes 2 (crc16.compute payload)).
split; [reflexivity|].
split; [|apply Verify_of_appended].
rewrite length_app, length_le_bytes, Hp. reflexivity.
Qed.

(* ================================================================== *)
(** * More on reconnection *)

Lemma reopenPort_until_shutdown (k : nat) :
  forall (fuel : nat) (s : state),
    ok_budget s = k ->
    Forall (fun b => b = false) (firstn (S k) (open_results s)) ->
    (k < fuel)%nat ->
    reopenPort fuel s
    = Ret tt (record (reopen_abandoned (is_open s) k)
                (set_is_open false
                   (set_open_results (skipn (S k) (open_results s))
                      (set_ok_budget O s)))).
Proof.
induction k as [|k IH]; intros fuel s Hk Hall Hf;
  (destruct fuel as [|fuel]; [lia|]); rewrite reopenPort_step; cbv zeta;
  rewrite Hk;
  (assert (Hhd : hd false (open_results s) = false)
    by (destruct (open_results s) as [|b l]; [reflexivity|];
        inversion Hall; assumption));
  rewrite Hhd.
- f_equal. destruct (is_open s) eqn:Eo; state_eq_tac;
    rewrite ?Eo; try reflexivity;
    destruct (open_results s); reflexivity.
- etransitivity.
  { apply IH; [destruct (is_open s); state_simpl; reflexivity| |lia].
    assert (Ht : Forall (fun b => b = false)
                   (firstn (S k) (tl (open_results s)))).
    { destruct (open_results s) as [|b l]; [constructor|].
      inversion Hall; assumption. }
    destruct (is_open s); state_simpl; exact Ht. }
  f_equal. destruct (is_open s) eqn:Eo; state_eq_tac;
    rewrite ?Eo; try reflexivity;
    destruct (open_results s); cbn [tl]; rewrite ?skipn_nil; reflexivity.
Qed.

(** X12. When [open] keeps failing and only [k] calls of [rclcpp::ok()]
    still answer true, [reopenPort] gives up: it returns with the port
    closed after [k + 1] calls of [open] and [k] sleeps of one second,
    without a sleep after the last failure. *)
Theorem reopenPort_gives_up_on_shutdown (fuel : nat) (s : state) :
  Forall (fun b => b = false)
         (firstn (S (ok_budget s)) (open_results s)) ->
  (ok_budget s < fuel)%nat ->
  let s' := record (reopen_abandoned (is_open s) (ok_budget s))
              (set_is_open false
                 (set_open_results
                    (skipn (S (ok_budget s)) (open_results s))
                    (set_ok_budget O s))) in
  reopenPort fuel s = Ret tt s'
  /\ length (filter is_PortOpen
               (reopen_abandoned (is_open s) (ok_budget s)))
     = S (ok_budget s)
  /\ filter is_Sleep (reopen_abandoned (is_open s) (ok_budget s))
     = repeat (Sleep 1) (ok_budget s)
  /\ exists before,
       reopen_abandoned (is_open s) (ok_budget s)
       = before ++ [PortOpen false;
                    Log ERROR "Error while reopening port: %s" []].
Proof.
intros Hall Hf s'. split; [|split; [|split]].
- apply reopenPort_until_shutdown; auto.
- clear. generalize (is_open s). induction (ok_budget s) as [|k IH];
    intros [|]; simpl; try reflexivity; rewrite IH; reflexivity.
- clear. generalize (is_open s). induction (ok_budget s) as [|k IH];
    intros [|]; simpl; try reflexivity; rewrite IH; reflexivity.
- clear. generalize (is_open s). induction (ok_budget s) as [|k IH];
    intros b.
  + destruct b;
      [exists [Log WARN "Attempting to reopen port" []; PortClose]
      |exists [Log WARN "Attempting to reopen port" []]]; reflexivity.
  + destruct (IH false) as [before Hb]. cbn [reopen_abandoned].
    rewrite Hb. exists (reopen_attempt b false ++ Sleep 1 :: before).
    rewrite app_comm_cons, app_assoc. reflexivity.
Qed.

(* ================================================================== *)
(** * The parameters of the node *)

Lemma and_then_Started {A B} (m : Startup A) (k : A -> Startup B)
      (s s' : state) (b : B) :
  and_then m k s = Started b s' ->
  exists a s1, m s = Started a s1 /\ k a s1 = Started b s'.
Proof.
unfold and_then. destruct (m s) as [a s1|e s1|]; try discriminate.
intros H. exists a, s1. split; [reflexivity | exact H].
Qed.

Lemma and_then_of_started {A B} (m : Startup A) (k : A -> Startup B)
      (s s1 : state) (a : A) :
  m s = Started a s1 -> and_then m k s = k a s1.
Proof. intros H. unfold and_then. rewrite H. reflexivity. Qed.

Lemma catch_of_started {A} (body handler : Startup A) (s s1 : state) (a : A) :
  body s = Started a s1 ->
  catch_ParameterTypeException body handler s = Started a s1.
Proof.
intros H. unfold catch_ParameterTypeException. rewrite H. reflexivity.
Qed.

(** A block of [getParams] returns only when its body does. *)
Lemma catch_Started {A} (body : Startup A) (msg : String.string)
      (s s' : state) (a : A) :
  catch_ParameterTypeException body
    (RCLCPP_ERROR_startup msg ~;; abort (rclcpp_exn ParameterTypeException)) s
  = Started a s' ->
  body s = Started a s'.
Proof.
unfold catch_ParameterTypeException.
destruct (body s) as [a0 s0|[w|[]|] s0|]; try discriminate; auto.
Qed.

Lemma declare_parameter_string_Started options name d (s s' : state) v :
  declare_parameter_string options name d s = Started v s' <->
  s' = s /\ given_string options name d = Some v.
Proof.
unfold declare_parameter_string, given_string, started, abort.
destruct (find_override options name) as [[| | |]|]; split;
  try discriminate; try (intros [_ H]; discriminate H).
- intros H. inversion H. auto.
- intros [-> H]. inversion H. reflexivity.
- intros H. inversion H. auto.
- intros [-> H]. inversion H. reflexivity.
Qed.

Lemma declare_parameter_int_Started options name d (s s' : state) v :
  declare_parameter_int options name d s = Started v s' <->
  s' = s /\ exists raw, given_integer options name d = Some raw
                        /\ v = match find_override options name with
                               | None => raw
                               | Some _ => int_of_int64 raw
                               end.
Proof.
unfold declare_parameter_int, given_integer, started, abort.
destruct (find_override options name) as [[| | |]|]; split;
  try discriminate; try (intros [_ [raw [H _]]]; discriminate H).
- intros H. inversion H. eauto.
- intros [-> [raw [H ->]]]. inversion H. reflexivity.
- intros H. inversion H. eauto.
- intros [-> [raw [H ->]]]. inversion H. reflexivity.
Qed.

Lemma uint32_of_int64 (v : Z) :
  uint32_of_int (int_of_int64 v) = v mod 4294967296.
Proof.
unfold uint32_of_int, int_of_int64.
rewrite Zminus_mod, Zmod_mod, <- Zminus_mod.
replace (v + 2147483648 - 2147483648) with v by lia. reflexivity.
Qed.

Lemma default_baud_rate : uint32_of_int 0 = 0 mod 4294967296.
Proof. reflexivity. Qed.

Lemma getParams_started_iff (options : list rclcpp_Parameter)
      (s s' : state) (name : String.string) (cfg : SerialPortConfig) :
  getParams options s = Started (name, cfg) s' <->
  s' = s /\ spelled_out options name cfg.
Proof.
split.
- intros H. unfold getParams in H.
  apply and_then_Started in H. destruct H as [n [s1 [H1 H]]].
  apply catch_Started, declare_parameter_string_Started in H1.
  destruct H1 as [-> Hn].
  apply and_then_Started in H. destruct H as [b [s2 [H2 H]]].
  apply catch_Started, and_then_Started in H2.
  destruct H2 as [v [s2' [H2 H2']]].
  apply declare_parameter_int_Started in H2.
  destruct H2 as [-> [raw [Hraw Hv]]]. inversion H2'; subst b s2.
  apply and_then_Started in H. destruct H as [fc [s3 [H3 H]]].
  apply catch_Started, and_then_Started in H3.
  destruct H3 as [fs [s3' [H3 H3']]].
  apply declare_parameter_string_Started in H3. destruct H3 as [-> Hfs].
  apply and_then_Started in H. destruct H as [pt [s4 [H4 H]]].
  apply catch_Started, and_then_Started in H4.
  destruct H4 as [ps [s4' [H4 H4']]].
  apply declare_parameter_string_Started in H4. destruct H4 as [-> Hps].
  apply and_then_Started in H. destruct H as [sb [s5 [H5 H]]].
  apply catch_Started, and_then_Started in H5.
  destruct H5 as [ss [s5' [H5 H5']]].
  apply declare_parameter_string_Started in H5. destruct H5 as [-> Hss].
  assert (F3 : s3 = s /\ spells_FlowControl fs fc).
  { destruct (String.eqb fs "none") eqn:E1;
      [apply String.eqb_eq in E1; inversion H3'; subst; split; constructor|].
    destruct (String.eqb fs "hardware") eqn:E2;
      [apply String.eqb_eq in E2; inversion H3'; subst; split; constructor|].
    destruct (String.eqb fs "software") eqn:E3;
      [apply String.eqb_eq in E3; inversion H3'; subst; split; constructor|].
    discriminate H3'. }
  destruct F3 as [-> F3].
  assert (F4 : s4 = s /\ spells_Parity ps pt).
  { destruct (String.eqb ps "none") eqn:E1;
      [apply String.eqb_eq in E1; inversion H4'; subst; split; constructor|].
    destruct (String.eqb ps "odd") eqn:E2;
      [apply String.eqb_eq in E2; inversion H4'; subst; split; constructor|].
    destruct (String.eqb ps "even") eqn:E3;
      [apply String.eqb_eq in E3; inversion H4'; subst; split; constructor|].
    discriminate H4'. }
  destruct F4 as [-> F4].
  assert (F5 : s5 = s /\ spells_StopBits ss sb).
  { destruct (String.eqb ss "1") eqn:E1;
      [apply String.eqb_eq in E1; inversion H5'; subst; split; constructor|].
    destruct (String.eqb ss "1.0") eqn:E2;
      [apply String.eqb_eq in E2; inversion H5'; subst; split; constructor|].
    destruct (String.eqb ss "1.5") eqn:E3;
      [apply String.eqb_eq in E3; inversion H5'; subst; split; constructor|].
    destruct (String.eqb ss "2") eqn:E4;
      [apply String.eqb_eq in E4; inversion H5'; subst; split; constructor|].
    destruct (String.eqb ss "2.0") eqn:E5;
      [apply String.eqb_eq in E5; inversion H5'; subst; split; constructor|].
    discriminate H5'. }
  destruct F5 as [-> F5].
  inversion H; subst. split; [reflexivity|].
  unfold spelled_out. cbn [cfg_baud_rate cfg_flow_control cfg_parity
                           cfg_stop_bits].
  split; [exact Hn|]. split.
  { exists raw. split; [exact Hraw|].
    unfold given_integer in Hraw.
    destruct (find_override options "baud_rate") as [[| | |]|];
      try discriminate Hraw; inversion Hraw; subst;
      [apply uint32_of_int64 | reflexivity]. }
  split; [exists fs; auto|]. split; [exists ps; auto | exists ss; auto].
- intros [-> [Hn [[raw [Hraw Hb]] [[fs [Hfs Sf]] [[ps [Hps Sp]] [ss [Hss Ss]]]]]]].
  destruct cfg as [b fc pt sb].
  cbn [cfg_baud_rate cfg_flow_control cfg_parity cfg_stop_bits] in *.
  subst b. unfold getParams.
  rewrite (and_then_of_started _ _ s s name)
    by (apply catch_of_started, declare_parameter_string_Started;
        split; [reflexivity | exact Hn]).
  rewrite (and_then_of_started _ _ s s (raw mod 4294967296)).
  2: { apply catch_of_started.
       unfold given_integer in Hraw.
       unfold and_then, declare_parameter_int, started.
       destruct (find_override options "baud_rate") as [[| | |]|];
         try discriminate Hraw; inversion Hraw; subst;
         rewrite ?uint32_of_int64; reflexivity. }
  rewrite (and_then_of_started _ _ s s fc).
  2: { apply catch_of_started.
       rewrite (and_then_of_started _ _ s s fs)
         by (apply declare_parameter_string_Started;
             split; [reflexivity | exact Hfs]).
       inversion Sf; reflexivity. }
  rewrite (and_then_of_started _ _ s s pt).
  2: { apply catch_of_started.
       rewrite (and_then_of_started _ _ s s ps)
         by (apply declare_parameter_string_Started;
             split; [reflexivity | exact Hps]).
       inversion Sp; reflexivity. }
  rewrite (and_then_of_started _ _ s s sb).
  2: { apply catch_of_started.
       rewrite (and_then_of_started _ _ s s ss)
         by (apply declare_parameter_string_Started;
             split; [reflexivity | exact Hss]).
       inversion Ss; reflexivity. }
  reflexivity.
Qed.

(** X13. [getParams] returns exactly when every setting is absent or of
    its type and the three port settings are spelled in one of the
    accepted ways ("1.0" and "2.0" included, nothing for an absent
    setting); it then returns the device name given (empty by default)
    and the configuration spelled, with the baud rate reduced modulo 2^32,
    and logs nothing. *)
Theorem getParams_accepts_exactly
        (options : list rclcpp_Parameter) (s s' : state)
        (name : String.string) (cfg : SerialPortConfig) :
  getParams options s = Started (name, cfg) s' <->
  s' = s /\ spelled_out options name cfg.
Proof. apply getParams_started_iff. Qed.

Lemma getParams_any_state (options : list rclcpp_Parameter)
      (s s' : state) (params : String.string * SerialPortConfig) :
  getParams options s = Started params s' ->
  forall t, getParams options t = Started params t.
Proof.
destruct params as [name cfg]. intros H t.
apply getParams_started_iff in H. destruct H as [_ H].
apply getParams_started_iff. split; [reflexivity | exact H].
Qed.

Lemma getParams_options_of name baud fc pt sb (s : state) :
  getParams (options_of name baud fc pt sb) s
  = Started (name, {| cfg_baud_rate := baud mod 4294967296;
                      cfg_flow_control := fc;
                      cfg_parity := pt;
                      cfg_stop_bits := sb |}) s.
Proof.
apply getParams_started_iff. split; [reflexivity|].
unfold spelled_out.
cbn [cfg_baud_rate cfg_flow_control cfg_parity cfg_stop_bits].
split; [reflexivity|]. split; [exists baud; split; reflexivity|].
split; [exists (FlowControl_name fc); split;
          [reflexivity | destruct fc; constructor]|].
split; [exists (Parity_name pt); split;
          [reflexivity | destruct pt; constructor]|].
exists (StopBits_name sb); split; [reflexivity | destruct sb; constructor].
Qed.

(** ** What [getParams] logs *)

Lemma quiet_started {A} (a : A) : quiet_startup (started a).
Proof. intros s. reflexivity. Qed.

Lemma quiet_abort_invalid_argument {A} (w : String.string) :
  quiet_startup (@abort A (std_invalid_argument w)).
Proof. intros s. reflexivity. Qed.

Lemma quiet_and_then {A B} (m : Startup A) (k : A -> Startup B) :
  quiet_startup m -> (forall a, quiet_startup (k a)) ->
  quiet_startup (and_then m k).
Proof.
intros Hm Hk s. unfold and_then. specialize (Hm s).
destruct (m s) as [a s1|[w|e|] s1|]; try exact Hm.
subst s1. apply Hk.
Qed.

Lemma quiet_declare_parameter_string options name d :
  quiet_startup (declare_parameter_string options name d).
Proof.
intros s. unfold declare_parameter_string, started, abort.
destruct (find_override options name) as [[| | |]|]; simpl; auto.
Qed.

Lemma quiet_declare_parameter_int options name d :
  quiet_startup (declare_parameter_int options name d).
Proof.
intros s. unfold declare_parameter_int, started, abort.
destruct (find_override options name) as [[| | |]|]; simpl; auto.
Qed.

Lemma getParams_block_ending {A} (body : Startup A) (msg : String.string) :
  quiet_startup body ->
  In msg getParams_messages ->
  forall s,
    getParams_ending s
      (catch_ParameterTypeException body
         (RCLCPP_ERROR_startup msg
          ~;; abort (rclcpp_exn ParameterTypeException)) s).
Proof.
intros Hq Hin s. unfold catch_ParameterTypeException. specialize (Hq s).
destruct (body s) as [a s1|[w|e|] s1|]; simpl; try exact Hq.
destruct Hq as [-> ->]. simpl. split; [reflexivity|].
exists msg. split; [exact Hin | reflexivity].
Qed.

Lemma getParams_ending_and_then {A B} (m : Startup A) (k : A -> Startup B) :
  (forall s, getParams_ending s (m s)) ->
  (forall a s, getParams_ending s (k a s)) ->
  forall s, getParams_ending s (and_then m k s).
Proof.
intros Hm Hk s. unfold and_then. specialize (Hm s).
destruct (m s) as [a s1|[w|e|] s1|]; try exact Hm.
simpl in Hm. subst s1. apply Hk.
Qed.

Ltac quiet_step :=
  match goal with
  | |- quiet_startup (and_then _ _) => apply quiet_and_then; [|intros ?]
  | |- quiet_startup (declare_parameter_string _ _ _) =>
      apply quiet_declare_parameter_string
  | |- quiet_startup (declare_parameter_int _ _ _) =>
      apply quiet_declare_parameter_int
  | |- quiet_startup (started _) => apply quiet_started
  | |- quiet_startup (abort (std_invalid_argument _)) =>
      apply quiet_abort_invalid_argument
  | |- quiet_startup (if ?b then _ else _) => destruct b
  end.

(** X14. [getParams] touches nothing but the log, and logs only type
    errors: it returns or throws [std::invalid_argument] (a setting of
    the right type with a value that is not accepted) without a trace, or
    it throws [ParameterTypeException] after logging exactly one of its
    five messages; it never ends otherwise. *)
Theorem getParams_logs_only_type_errors
        (options : list rclcpp_Parameter) (s : state) :
  getParams_ending s (getParams options s).
Proof.
revert s. unfold getParams.
repeat (apply getParams_ending_and_then;
        [apply getParams_block_ending;
           [repeat quiet_step | simpl; tauto]
        |intros ?]).
intros s. reflexivity.
Qed.

(** X15. The flow control is mandatory: when the device name and the baud
    rate are absent or of their type, and the flow control is absent or
    is a string other than "none", "hardware" and "software", [getParams]
    throws [std::invalid_argument] and logs nothing, whatever the other
    settings are. *)
Theorem getParams_needs_flow_control
        (options : list rclcpp_Parameter) (s : state) (fs : String.string) :
  string_or_absent (find_override options "device_name") = true ->
  int_or_absent (find_override options "baud_rate") = true ->
  given_string options "flow_control" "" = Some fs ->
  (forall fc, ~ spells_FlowControl fs fc) ->
  getParams options s
  = Aborted
      (std_invalid_argument
         "The flow_control parameter must be one of: none, software, or hardware.")
      s.
Proof.
intros Hn Hb Hfs Hno. unfold getParams.
assert (Hname : exists name,
          declare_parameter_string options "device_name" "" s
          = Started name s).
{ unfold declare_parameter_string, started.
  destruct (find_override options "device_name") as [[| | |]|];
    try discriminate Hn; eexists; reflexivity. }
destruct Hname as [name Hname].
rewrite (and_then_of_started _ _ s s name)
  by (apply catch_of_started; exact Hname).
assert (Hbaud : exists b,
          (v <~ declare_parameter_int options "baud_rate" 0 ;;
           started (uint32_of_int v)) s = Started b s).
{ unfold and_then, declare_parameter_int, started.
  destruct (find_override options "baud_rate") as [[| | |]|];
    try discriminate Hb; eexists; reflexivity. }
destruct Hbaud as [b Hbaud].
rewrite (and_then_of_started _ _ s s b)
  by (apply catch_of_started; exact Hbaud).
unfold and_then at 1. unfold catch_ParameterTypeException at 1.
rewrite (and_then_of_started _ _ s s fs)
  by (apply declare_parameter_string_Started; split; [reflexivity|exact Hfs]).
destruct (String.eqb fs "none") eqn:E1;
  [apply String.eqb_eq in E1; subst; exfalso; eapply Hno; constructor|].
destruct (String.eqb fs "hardware") eqn:E2;
  [apply String.eqb_eq in E2; subst; exfalso; eapply Hno; constructor|].
destruct (String.eqb fs "software") eqn:E3;
  [apply String.eqb_eq in E3; subst; exfalso; eapply Hno; constructor|].
reflexivity.
Qed.

(* ================================================================== *)
(** * Construction *)

Lemma wait_for_service_ready (n : nat) :
  forall (rest : list bool) (fuel : nat) (s : state),
    service_ready s = repeat false n ++ true :: rest ->
    (n < fuel)%nat ->
    wait_for_service fuel s
    = Started tt (record (repeat (Sleep 1) n) (set_service_ready rest s)).
Proof.
induction n as [|n IH]; intros rest fuel s Hs Hf;
  (destruct fuel as [|fuel]; [lia|]); cbn [wait_for_service];
  unfold and_then at 1; unfold during_startup at 1; unfold service_is_ready;
  rewrite Hs; cbn [repeat app].
- unfold started. f_equal. apply state_eq; state_simpl; try reflexivity.
  rewrite app_nil_r. reflexivity.
- unfold and_then at 1. unfold during_startup, sleep_for, emit, modify.
  rewrite (IH rest) by (state_simpl; auto; lia).
  f_equal. apply state_eq; state_simpl; try reflexivity.
  rewrite <- app_assoc. reflexivity.
Qed.


(** The constructor, once the parameters are accepted and the parameter
    service answers after [n] refusals. *)
Lemma RMSerialDriver_new_ready
      (fuel : nat) (options : list rclcpp_Parameter) (s s0 : state)
      (params : String.string * SerialPortConfig)
      (n : nat) (rest : list bool) :
  getParams options s = Started params s0 ->
  service_ready s = repeat false n ++ true :: rest ->
  (n < fuel)%nat ->
  RMSerialDriver_new fuel options s
  = let s1 := set_open_results (tl (open_results s))
                (record (startup_events n)
                   (set_is_open false
                      (set_service_ready rest
                         (set_present_color_ (-1) s)))) in
    if hd false (open_results s) then
      Started {| device_name_ := fst params;
                 device_config_ := snd params;
                 receive_thread_ := true |}
              (record [PortOpen true] (set_is_open true s1))
    else
      Aborted std_exception
              (record [PortOpen false;
                       Log ERROR "Error creating serial port: %s - %s" []]
                 s1).
Proof.
intros Hg Hs Hf. unfold RMSerialDriver_new.
unfold and_then at 1. unfold during_startup at 1. unfold modify at 1.
unfold and_then at 1. unfold during_startup at 1.
unfold RCLCPP_LOG at 1. unfold emit, modify at 1.
rewrite (and_then_of_started _ _ _ _ params
           (getParams_any_state _ _ _ _ Hg _)).
unfold and_then at 1. unfold during_startup at 1.
unfold RCLCPP_LOG at 1. unfold emit, modify at 1.
unfold and_then at 1.
rewrite (wait_for_service_ready n rest) by (state_simpl; auto).
unfold and_then at 1. unfold catch_std_exception.
unfold and_then at 1. unfold init_port, during_startup at 1.
unfold modify at 1.
unfold and_then at 1. unfold during_startup at 1.
unfold port_is_open, gets. state_simpl. cbn [negb].
unfold and_then at 1. unfold during_startup at 1. unfold port_open.
state_simpl. cbv zeta.
destruct (hd false (open_results s)).
- unfold started. f_equal. apply state_eq; state_simpl; try reflexivity.
  rewrite <- !app_assoc. reflexivity.
- unfold and_then at 1. unfold RCLCPP_ERROR_startup, during_startup.
  unfold RCLCPP_LOG, emit, modify, abort.
  f_equal. apply state_eq; state_simpl; try reflexivity.
  rewrite <- !app_assoc. reflexivity.
Qed.

(** X16. When the parameters are accepted, the parameter service answers
    after [n] refusals and [open] succeeds, the constructor returns with
    the port open, the receive thread started, [present_color_] at -1 and
    the device name and configuration of [getParams]; it has slept one
    second per refusal and opened the port once. *)
Theorem RMSerialDriver_new_starts
        (fuel : nat) (options : list rclcpp_Parameter) (s s0 : state)
        (params : String.string * SerialPortConfig)
        (n : nat) (rest : list bool) :
  getParams options s = Started params s0 ->
  service_ready s = repeat false n ++ true :: rest ->
  hd false (open_results s) = true ->
  (n < fuel)%nat ->
  exists s',
    RMSerialDriver_new fuel options s
    = Started {| device_name_ := fst params;
                 device_config_ := snd params;
                 receive_thread_ := true |} s'
    /\ is_open s' = true
    /\ present_color_ s' = -1
    /\ trace s' = trace s ++ startup_events n ++ [PortOpen true]
    /\ rx s' = rx s.
Proof.
intros Hg Hs Ho Hf.
rewrite (RMSerialDriver_new_ready fuel options s s0 params n rest Hg Hs Hf).
cbv zeta. rewrite Ho. eexists. split; [reflexivity|].
state_simpl. repeat split. rewrite <- app_assoc. reflexivity.
Qed.

(** X17. A failure of [open] during construction is fatal: the constructor
    logs it and throws (a plain [std::exception]), with the port closed,
    after that single attempt: it does not sleep, retry or call
    [reopenPort], and no receive thread is started. *)
Theorem RMSerialDriver_new_open_failure_is_fatal
        (fuel : nat) (options : list rclcpp_Parameter) (s s0 : state)
        (params : String.string * SerialPortConfig)
        (n : nat) (rest : list bool) :
  getParams options s = Started params s0 ->
  service_ready s = repeat false n ++ true :: rest ->
  hd false (open_results s) = false ->
  (n < fuel)%nat ->
  exists s',
    RMSerialDriver_new fuel options s = Aborted std_exception s'
    /\ is_open s' = false
    /\ trace s'
       = trace s ++ startup_events n
         ++ [PortOpen false;
             Log ERROR "Error creating serial port: %s - %s" []]
    /\ open_results s' = tl (open_results s).
Proof.
intros Hg Hs Ho Hf.
rewrite (RMSerialDriver_new_ready fuel options s s0 params n rest Hg Hs Hf).
cbv zeta. rewrite Ho. eexists. split; [reflexivity|].
state_simpl. repeat split. rewrite <- app_assoc. reflexivity.
Qed.


Local Close Scope string_scope.

End Proofs.

(* ================================================================== *)
(** * Start-up, on the vector the service answers with *)

Local Open Scope string_scope.

(** C10. The start-up fetch asks for one name, and the callback reads
    index 1 of the answer: on the one-element answer to that request the
    read is past the end, [at] throws [std::out_of_range], and
    [present_color_] keeps its initial value; the parameter asked for is at
    index 0. *)
Theorem startup_callback_reads_past_the_end :
  length startup_requested_names = 1%nat
  /\ map param_name startup_answer = startup_requested_names
  /\ get_parameters_callback startup_answer fresh_state
     = Throw OutOfRange fresh_state
  /\ nth_error startup_answer 1 = None
  /\ option_map param_value (nth_error startup_answer 0)
     = Some (PARAMETER_INTEGER 0).
Proof. repeat split. Qed.

(* ================================================================== *)
(** * The theorems on concrete runs *)

(** The frame of the scenario: target found, colour flag set, task mode 0,
    position (1, 2, 3), velocity 0. *)
Example sendData_frame_scenario :
  @sendData_frame example_params 0 example_target
  = Ok [x01; x01; x00;
        x00; x00; x80; x3f;  x00; x00; x00; x40;  x00; x00; x40; x40;
        x00; x00; x00; x00;  x00; x00; x00; x00;  x00; x00; x00; x00;
        x6a; xc9].
Proof. vm_compute. reflexivity. Qed.

(** On an open port the frame is written once and the latency is
    published. *)
Example sendData_scenario :
  @sendData example_params 1 example_target
    (set_present_color_ 0 (listening [] 0))
  = Ret tt
      (record
         [PortSend [x01; x01; x00;
                    x00; x00; x80; x3f;  x00; x00; x00; x40;
                    x00; x00; x40; x40;
                    x00; x00; x00; x00;  x00; x00; x00; x00;
                    x00; x00; x00; x00;
                    x6a; xc9] true;
          PublishLatency]
         (set_present_color_ 0 (listening [] 0))).
Proof. vm_compute. reflexivity. Qed.

(** A verified frame whose colour is the cached one is published and
    nothing is logged. *)
Example receiveData_good_frame_scenario :
  @receiveData example_params 2
    (set_present_color_ 0 (listening (map RxByte good_frame) 1))
  = Ret tt
      (record [Call_fromVector good_frame;
               PublishJointState 1065353216 1073741824]
         (set_present_color_ 0 (listening [] 0))).
Proof. vm_compute. reflexivity. Qed.

Lemma Append_Verify_roundtrip_witness :
  (2 <= length bad_frame)%nat
  /\ exists B',
       @crc16.Append_CRC16_Check_Sum example_params bad_frame = Ok B'
       /\ length B' = length bad_frame
       /\ firstn (length bad_frame - 2) B'
          = firstn (length bad_frame - 2) bad_frame
       /\ @crc16.Verify_CRC16_Check_Sum example_params B' = Ok true.
Proof.
assert (H : (2 <= length bad_frame)%nat) by (simpl; lia).
split; [exact H|].
exact (@Append_Verify_roundtrip example_params bad_frame H).
Defined.

Lemma receiveData_resynchronizes_witness :
  let junk := [x00; xff] in
  let rest := map RxByte good_frame in
  let s := listening (map RxByte (junk ++ good_frame)) 2 in
  is_open s = true
  /\ rx s = map RxByte junk ++ rest
  /\ Forall (fun b => b <> x5a) junk
  /\ (length junk <= ok_budget s)%nat
  /\ @receiveData example_params (length junk + 2) s
     = Ret tt
         (record [Log WARN "Invalid header: %02X" [0];
                  Log WARN "Invalid header: %02X" [255]]
            (set_ok_budget 0 (set_rx rest s))).
Proof.
cbv zeta.
assert (Hj : Forall (fun b => b <> x5a) [x00; xff])
  by (repeat constructor; discriminate).
assert (Hb : (2 <= 2)%nat) by lia.
split; [reflexivity|]. split; [reflexivity|].
split; [exact Hj|]. split; [exact Hb|].
pose proof (@receiveData_resynchronizes example_params [x00; xff]
              (map RxByte good_frame) 1
              (listening (map RxByte ([x00; xff] ++ good_frame)) 2)
              eq_refl eq_refl Hj Hb) as H.
cbv zeta in H. destruct H as [_ [_ [Hexact _]]].
exact (Hexact eq_refl).
Defined.

Lemma receiveData_discards_bad_checksum_witness :
  let body := tl bad_frame in
  let rest := [RxByte x00] in
  let s := listening (map RxByte bad_frame ++ rest) 2 in
  is_open s = true
  /\ rx s = RxByte x5a :: map RxByte body ++ rest
  /\ length body = 11%nat
  /\ @crc16.Verify_CRC16_Check_Sum example_params (x5a :: body) = Ok false
  /\ @receiveData example_params 3 s
     = Ret tt
         (record [Call_fromVector bad_frame;
                  Log ERROR "CRC error!" [];
                  Log WARN "Invalid header: %02X" [0]]
            (set_ok_budget 0 (set_rx [] s))).
Proof.
cbv zeta.
assert (Hc : @crc16.Verify_CRC16_Check_Sum example_params
               (x5a :: tl bad_frame) = Ok false)
  by (vm_compute; reflexivity).
assert (Hx : x00 <> x5a) by discriminate.
split; [reflexivity|]. split; [reflexivity|].
split; [reflexivity|]. split; [exact Hc|].
pose proof (@receiveData_discards_bad_checksum example_params (tl bad_frame)
              [RxByte x00] 0
              (listening (map RxByte bad_frame ++ [RxByte x00]) 2)
              eq_refl eq_refl eq_refl Hc) as H.
cbv zeta in H. destruct H as [_ [_ [_ [_ [Hnext _]]]]].
exact (Hnext x00 [] eq_refl Hx eq_refl).
Defined.



Lemma reopenPort_retries_until_open_witness :
  let s := dropped_link in
  let s' := record (reopen_trace (is_open s) 2)
              (set_is_open true
                 (set_open_results []
                    (set_ok_budget (ok_budget s - 2) s))) in
  open_results s = repeat false 2 ++ true :: []
  /\ (2 <= ok_budget s)%nat
  /\ (2 < 3)%nat
  /\ (reopenPort 3 s = Ret tt s'
      /\ is_open s' = true
      /\ length (filter is_PortOpen (reopen_trace (is_open s) 2)) = 3%nat
      /\ filter is_Sleep (reopen_trace (is_open s) 2) = repeat (Sleep 1) 2
      /\ (forall fuel0 s0 s0',
            reopenPort fuel0 s0 = Ret tt s0' ->
            is_open s0' = false ->
            ok_budget s0' = O /\ rclcpp_ok s0' = Ret false s0')
      /\ (forall fuel0 s0,
            (ok_budget s0 < fuel0)%nat ->
            exists s0', reopenPort fuel0 s0 = Ret tt s0')).
Proof.
cbv zeta.
assert (Hb : (2 <= ok_budget dropped_link)%nat) by (simpl; lia).
assert (Hf : (2 < 3)%nat) by lia.
split; [reflexivity|]. split; [exact Hb|]. split; [exact Hf|].
exact (reopenPort_retries_until_open 2 [] 3 dropped_link
         eq_refl Hb Hf).
Defined.

Lemma sendData_write_failure_is_swallowed_witness :
  write_fails failing_write = true
  /\ (ok_budget failing_write < 1)%nat
  /\ exists data s' new,
       let s_err := record [Log ERROR "Error while sending data: %s" []]
                      (record [PortSend data false]
                         (if is_open failing_write
                          then set_send_results
                                 (tl (send_results failing_write))
                                 failing_write
                          else failing_write)) in
       @sendData_frame example_params (present_color_ failing_write)
         example_target = Ok data
       /\ @sendData example_params 1 example_target failing_write = Ret tt s'
       /\ throws (@sendData example_params 1 example_target failing_write)
          = false
       /\ trace s'
          = trace failing_write
            ++ PortSend data false
            :: Log ERROR "Error while sending data: %s" []
            :: Log WARN "Attempting to reopen port" []
            :: new
       /\ Forall link_event new
       /\ filter is_PortSend
            (PortSend data false
             :: Log ERROR "Error while sending data: %s" []
             :: Log WARN "Attempting to reopen port" []
             :: new)
          = [PortSend data false]
       /\ @sendData example_params 1 example_target failing_write
          = reopenPort 1 s_err
       /\ (is_open s' = true \/ ok_budget s' = O)
       /\ (forall n rest,
             open_results failing_write = repeat false n ++ true :: rest ->
             (n <= ok_budget failing_write)%nat ->
             (n < 1)%nat ->
             s' = record (reopen_trace (is_open failing_write) n)
                    (set_is_open true
                       (set_open_results rest
                          (set_ok_budget (ok_budget failing_write - n)
                             s_err)))).
Proof.
assert (Hb : (ok_budget failing_write < 1)%nat) by (simpl; lia).
split; [reflexivity|]. split; [exact Hb|].
exact (@sendData_write_failure_is_swallowed example_params 1 example_target
         failing_write eq_refl Hb).
Defined.

(** C7 as stated does not hold: on a write that raises an I/O error the
    call reopens the port and returns normally; no error of any kind
    reaches the caller. *)
Lemma sendData_reports_no_error_to_caller :
  write_fails failing_write = true
  /\ throws (@sendData example_params 1 example_target failing_write) = false
  /\ @sendData example_params 1 example_target failing_write
     = Ret tt
         (record
            [PortSend [x01; x01; x00;
                       x00; x00; x80; x3f;  x00; x00; x00; x40;
                       x00; x00; x40; x40;
                       x00; x00; x00; x00;  x00; x00; x00; x00;
                       x00; x00; x00; x00;
                       x6a; xc9] false;
             Log ERROR "Error while sending data: %s" [];
             Log WARN "Attempting to reopen port" [];
             PortClose;
             PortOpen true;
             Log INFO "Successfully reopened port" []]
            (set_send_results [] (set_open_results [] failing_write))).
Proof. repeat split; vm_compute; reflexivity. Qed.

Lemma requestforChangeColor_failure_keeps_color_witness :
  request_fails fresh_state = true
  /\ exists s',
       requestforChangeColor x00 fresh_state = Ret tt s'
       /\ present_color_ s' = present_color_ fresh_state
       /\ is_open s' = is_open fresh_state
       /\ rx s' = rx fresh_state
       /\ trace s'
          = trace fresh_state
            ++ failed_request_events x00
                 (hd false (service_ready fresh_state))
       /\ (length (filter is_SetParameters
                     (failed_request_events x00
                        (hd false (service_ready fresh_state))))
           <= 1)%nat.
Proof.
split; [reflexivity|].
exact (requestforChangeColor_failure_keeps_color x00 fresh_state eq_refl).
Defined.

(** C9 as stated does not hold: a request that cannot be delivered
    because the parameter service is not ready is not only logged; the
    call also sleeps one second before it returns. *)
Lemma requestforChangeColor_failure_also_sleeps :
  request_fails fresh_state = true
  /\ requestforChangeColor x00 fresh_state
     = Ret tt
         (record [Log ERROR "remote parameter server is not ready" [];
                  Sleep 1]
            fresh_state)
  /\ filter is_Sleep
       [Log ERROR "remote parameter server is not ready" []; Sleep 1]
     = [Sleep 1].
Proof. repeat split; vm_compute; reflexivity. Qed.

Local Close Scope string_scope.
(* ================================================================== *)
(** * The further theorems on concrete runs *)

Local Open Scope string_scope.

Lemma good_frame_verified : @verified_frame example_params good_frame.
Proof. repeat split; vm_compute; reflexivity. Qed.

(** Every spelling of a configuration is read back, the baud rate modulo
    2^32. *)
Example getParams_reads_back_negative_baud :
  getParams (options_of "/dev/ttyUSB0" (-1)
               FlowControl_HARDWARE Parity_EVEN StopBits_TWO) fresh_state
  = Started ("/dev/ttyUSB0",
             {| cfg_baud_rate := 4294967295;
                cfg_flow_control := FlowControl_HARDWARE;
                cfg_parity := Parity_EVEN;
                cfg_stop_bits := StopBits_TWO |}) fresh_state.
Proof. vm_compute. reflexivity. Qed.

(** The callback stores the 64-bit value of the parameter in an [int]:
    what is stored and logged is the value reduced to 32 bits. *)
Example get_parameters_callback_narrows_to_int :
  get_parameters_callback
    [{| param_name := "detect_color"; param_value := PARAMETER_INTEGER 0 |};
     {| param_name := "detect_color";
        param_value := PARAMETER_INTEGER 4294967299 |}]
    fresh_state
  = Ret tt (record [Log INFO "Present color: %d." [3]]
              (set_present_color_ 3 fresh_state)).
Proof. vm_compute. reflexivity. Qed.

Lemma receiveData_body_io_error_witness :
  let pre := [x5a; x00; x00] in
  let s := listening (map RxByte pre ++ [RxError]) 1 in
  is_open s = true
  /\ rx s = map RxByte pre ++ RxError :: []
  /\ (pre = [] \/ (nth 0 pre x00 = x5a /\ (1 <= length pre <= 11)%nat))
  /\ @receiveData_body example_params 1 s
     = reopenPort 1
         (record [Log ERROR "Error while receiving data: %s" []]
            (set_rx [] s)).
Proof.
cbv zeta.
assert (Hp : [x5a; x00; x00] = []
             \/ (nth 0 [x5a; x00; x00] x00 = x5a
                 /\ (1 <= length [x5a; x00; x00] <= 11)%nat))
  by (right; split; [reflexivity | simpl; lia]).
split; [reflexivity|]. split; [reflexivity|]. split; [exact Hp|].
exact (@receiveData_body_io_error example_params [x5a; x00; x00] [] 1
         (listening (map RxByte [x5a; x00; x00] ++ [RxError]) 1)
         eq_refl eq_refl Hp).
Defined.

Lemma receiveData_publishes_each_frame_witness :
  let frames := [good_frame; good_frame] in
  let s := set_present_color_ 0
             (listening (map RxByte (concat frames)) 2) in
  is_open s = true
  /\ rx s = map RxByte (concat frames) ++ []
  /\ Forall (fun f => @verified_frame example_params f
                      /\ Z_of_byte (frame_color f) = present_color_ s) frames
  /\ (length frames <= ok_budget s)%nat
  /\ @receiveData example_params (length frames + 2) s
     = Ret tt
         (record [Call_fromVector good_frame;
                  PublishJointState 1065353216 1073741824;
                  Call_fromVector good_frame;
                  PublishJointState 1065353216 1073741824]
            (set_ok_budget 0 (set_rx [] s))).
Proof.
cbv zeta.
assert (Hall : Forall (fun f => @verified_frame example_params f
                        /\ Z_of_byte (frame_color f) = 0)
                 [good_frame; good_frame])
  by (repeat constructor; try apply good_frame_verified).
assert (Hb : (2 <= 2)%nat) by lia.
assert (Hr : map RxByte (concat [good_frame; good_frame])
             = map RxByte (concat [good_frame; good_frame]) ++ [])
  by (symmetry; apply app_nil_r).
split; [reflexivity|]. split; [exact Hr|]. split; [exact Hall|].
split; [exact Hb|].
pose proof (@receiveData_publishes_each_frame example_params
              [good_frame; good_frame] [] 1
              (set_present_color_ 0
                 (listening (map RxByte (concat [good_frame; good_frame])) 2))
              eq_refl Hr Hall Hb) as H.
cbv zeta in H. destruct H as [_ [_ [Hexact _]]].
exact (Hexact eq_refl).
Defined.

Lemma receiveData_body_unknown_color_witness :
  let s := listening (map RxByte good_frame ++ []) 1 in
  is_open s = true
  /\ rx s = map RxByte good_frame ++ []
  /\ @verified_frame example_params good_frame
  /\ (present_color_ s < 0 \/ 255 < present_color_ s)
  /\ @receiveData_body example_params 1 s
     = requestforChangeColor (frame_color good_frame)
         (record (telemetry_of good_frame) (set_rx [] s)).
Proof.
cbv zeta.
assert (Hpc : present_color_ (listening (map RxByte good_frame ++ []) 1) < 0
              \/ 255 < present_color_
                         (listening (map RxByte good_frame ++ []) 1))
  by (left; simpl; lia).
split; [reflexivity|]. split; [reflexivity|].
split; [exact good_frame_verified|]. split; [exact Hpc|].
exact (@receiveData_body_unknown_color example_params good_frame [] 1
         (listening (map RxByte good_frame ++ []) 1)
         eq_refl eq_refl good_frame_verified Hpc).
Defined.

Lemma requestforChangeColor_granted_witness :
  let s := granting 0 [] 0 in
  request_fails s = false
  /\ requestforChangeColor x01 s
     = Ret tt
         (record (granted_request_events x01)
            (set_present_color_ (Z_of_byte x01)
               (set_set_results (tl (set_results s))
                  (set_service_ready (tl (service_ready s)) s)))).
Proof.
cbv zeta. split; [reflexivity|].
exact (requestforChangeColor_granted x01 (granting 0 [] 0) eq_refl).
Defined.


Lemma receiveData_asks_again_each_frame_witness :
  let frames := [good_frame; good_frame] in
  let s := listening (map RxByte (concat frames) ++ []) 2 in
  is_open s = true
  /\ rx s = map RxByte (concat frames) ++ []
  /\ Forall (fun b => b = false) (service_ready s)
  /\ Forall (fun f => @verified_frame example_params f
                      /\ Z_of_byte (frame_color f) <> present_color_ s) frames
  /\ (length frames <= ok_budget s)%nat
  /\ @receiveData example_params (length frames + 2) s
     = Ret tt
         (record [Call_fromVector good_frame;
                  PublishJointState 1065353216 1073741824;
                  Log ERROR "remote parameter server is not ready" [];
                  Sleep 1;
                  Call_fromVector good_frame;
                  PublishJointState 1065353216 1073741824;
                  Log ERROR "remote parameter server is not ready" [];
                  Sleep 1]
            (set_ok_budget 0 (set_rx [] s))).
Proof.
cbv zeta.
assert (Hsv : Forall (fun b : bool => b = false) []) by constructor.
assert (Hall : Forall (fun f => @verified_frame example_params f
                        /\ Z_of_byte (frame_color f) <> -1)
                 [good_frame; good_frame])
  by (repeat constructor; try apply good_frame_verified; discriminate).
assert (Hb : (2 <= 2)%nat) by lia.
split; [reflexivity|]. split; [reflexivity|]. split; [exact Hsv|].
split; [exact Hall|]. split; [exact Hb|].
pose proof (@receiveData_asks_again_each_frame example_params
              [good_frame; good_frame] [] 1
              (listening (map RxByte (concat [good_frame; good_frame]) ++ []) 2)
              eq_refl eq_refl Hsv Hall Hb) as H.
cbv zeta in H. destruct H as [_ [_ [Hexact _]]].
exact (Hexact eq_refl).
Defined.

Lemma receiveData_stores_only_colour_bytes_witness :
  let s := granting (-1) (map RxByte good_frame) 1 in
  (ok_budget s < 2)%nat
  /\ exists s',
       (@receiveData example_params 2 s = Ret tt s'
        \/ @receiveData example_params 2 s = Blocked s')
       /\ (present_color_ s' = present_color_ s
           \/ 0 <= present_color_ s' <= 255).
Proof.
cbv zeta.
assert (Hb : (ok_budget (granting (-1) (map RxByte good_frame) 1) < 2)%nat)
  by (simpl; lia).
split; [exact Hb|].
exact (@receiveData_stores_only_colour_bytes example_params 2
         (granting (-1) (map RxByte good_frame) 1) Hb).
Defined.

Lemma sendData_writes_once_witness :
  (ok_budget failing_write < 1)%nat
  /\ exists data s' new,
       @sendData_frame example_params (present_color_ failing_write)
         example_target = Ok data
       /\ @sendData example_params 1 example_target failing_write = Ret tt s'
       /\ trace s' = trace failing_write ++ new
       /\ filter is_PortSend new
          = [PortSend data (negb (write_fails failing_write))]
       /\ present_color_ s' = present_color_ failing_write.
Proof.
assert (Hb : (ok_budget failing_write < 1)%nat) by (simpl; lia).
split; [exact Hb|].
exact (@sendData_writes_once example_params 1 example_target
         failing_write Hb).
Defined.

Lemma reopenPort_gives_up_on_shutdown_witness :
  let s := dead_link in
  let s' := record (reopen_abandoned (is_open s) (ok_budget s))
              (set_is_open false
                 (set_open_results
                    (skipn (S (ok_budget s)) (open_results s))
                    (set_ok_budget O s))) in
  Forall (fun b => b = false) (firstn (S (ok_budget s)) (open_results s))
  /\ (ok_budget s < 2)%nat
  /\ (reopenPort 2 s = Ret tt s'
      /\ length (filter is_PortOpen
                   (reopen_abandoned (is_open s) (ok_budget s)))
         = S (ok_budget s)
      /\ filter is_Sleep (reopen_abandoned (is_open s) (ok_budget s))
         = repeat (Sleep 1) (ok_budget s)
      /\ exists before,
           reopen_abandoned (is_open s) (ok_budget s)
           = before ++ [PortOpen false;
                        Log ERROR "Error while reopening port: %s" []]).
Proof.
cbv zeta.
assert (Hall : Forall (fun b => b = false)
                 (firstn (S (ok_budget dead_link)) (open_results dead_link)))
  by (repeat constructor).
assert (Hb : (ok_budget dead_link < 2)%nat) by (simpl; lia).
split; [exact Hall|]. split; [exact Hb|].
exact (reopenPort_gives_up_on_shutdown 2 dead_link Hall Hb).
Defined.

Lemma getParams_needs_flow_control_witness :
  string_or_absent (find_override [] "device_name") = true
  /\ int_or_absent (find_override [] "baud_rate") = true
  /\ given_string [] "flow_control" "" = Some ""
  /\ (forall fc, ~ spells_FlowControl "" fc)
  /\ getParams [] fresh_state
     = Aborted
         (std_invalid_argument
            "The flow_control parameter must be one of: none, software, or hardware.")
         fresh_state.
Proof.
assert (Hno : forall fc, ~ spells_FlowControl "" fc)
  by (intros fc H; inversion H).
split; [reflexivity|]. split; [reflexivity|]. split; [reflexivity|].
split; [exact Hno|].
exact (getParams_needs_flow_control [] fresh_state "" eq_refl eq_refl
         eq_refl Hno).
Defined.

Lemma RMSerialDriver_new_starts_witness :
  let s := at_startup [true] in
  getParams example_options s = Started example_config s
  /\ service_ready s = repeat false 1 ++ true :: []
  /\ hd false (open_results s) = true
  /\ (1 < 2)%nat
  /\ exists s',
       RMSerialDriver_new 2 example_options s
       = Started {| device_name_ := fst example_config;
                    device_config_ := snd example_config;
                    receive_thread_ := true |} s'
       /\ is_open s' = true
       /\ present_color_ s' = -1
       /\ trace s' = trace s ++ startup_events 1 ++ [PortOpen true]
       /\ rx s' = rx s.
Proof.
cbv zeta.
assert (Hg : getParams example_options (at_startup [true])
             = Started example_config (at_startup [true]))
  by (vm_compute; reflexivity).
assert (Hf : (1 < 2)%nat) by lia.
split; [exact Hg|]. split; [reflexivity|]. split; [reflexivity|].
split; [exact Hf|].
exact (RMSerialDriver_new_starts 2 example_options (at_startup [true])
         (at_startup [true]) example_config 1 [] Hg eq_refl eq_refl Hf).
Defined.

Lemma RMSerialDriver_new_open_failure_is_fatal_witness :
  let s := at_startup [false; true] in
  getParams example_options s = Started example_config s
  /\ service_ready s = repeat false 1 ++ true :: []
  /\ hd false (open_results s) = false
  /\ (1 < 2)%nat
  /\ exists s',
       RMSerialDriver_new 2 example_options s = Aborted std_exception s'
       /\ is_open s' = false
       /\ trace s'
          = trace s ++ startup_events 1
            ++ [PortOpen false;
                Log ERROR "Error creating serial port: %s - %s" []]
       /\ open_results s' = tl (open_results s).
Proof.
cbv zeta.
assert (Hg : getParams example_options (at_startup [false; true])
             = Started example_config (at_startup [false; true]))
  by (vm_compute; reflexivity).
assert (Hf : (1 < 2)%nat) by lia.
split; [exact Hg|]. split; [reflexivity|]. split; [reflexivity|].
split; [exact Hf|].
exact (RMSerialDriver_new_open_failure_is_fatal 2 example_options
         (at_startup [false; true]) (at_startup [false; true])
         example_config 1 [] Hg eq_refl eq_refl Hf).
Defined.


Local Close Scope string_scope.
